(** * job_analyzer: the acquisition and normalization pipeline

    A shallow embedding of [clean_data.py], [scrape_kumari.py],
    [merojob_scraper.py], [database.py] and [scheduler.py], and the
    properties of the pipeline proved over it.

    Conventions.
    - A Python [str] is a [pystr]: a sequence of Unicode code points. The
      character classes and case mappings are those of the Unicode
      database of CPython 3.11 (Unicode 14.0), tabulated in [Unicode].
    - A cell that pandas or SQLite may leave empty is an [option]:
      [None] stands for Python's [None], SQL's [NULL] and pandas' [NaN].
    - A Python [dict] with a fixed, small set of string keys is a
      [gmap pystr _]; a dict that is iterated is a list of pairs in
      insertion order.
    - The database file can be opened and written whenever a function
      connects to it, and standard output is UTF-8: a message is printed
      unless it holds a lone surrogate, which only the id of a skipped
      record can bring in.
    - What the program gets from a library that is not interpreted here
      (pandas' number and date parsers, Python's [repr], SQLite's
      rendering of a REAL) is a variable of a section, and the theorems
      hold for every value of it. *)

From Stdlib Require Import NArith ZArith QArith Decimal.
From Stdlib.Strings Require Import Byte.
From stdpp Require Import base option list gmap.

(** ** Python strings *)

(** A character is its code point. *)
Definition char := N.
Bind Scope N_scope with char.

Inductive pystr := Nil | Chr (c : char) (t : pystr).

Declare Scope pystr_scope.
Delimit Scope pystr_scope with pystr.
Bind Scope pystr_scope with pystr.

(** A literal between double quotes is read as UTF-8: ["Nrs."] is the
    text of the code points 78, 114, 115, 46. *)
Fixpoint utf8_decode (pending : nat) (acc : N) (l : list byte) : option pystr :=
  match l with
  | [] => match pending with O => Some Nil | S _ => None end
  | b :: l' =>
      let n := Byte.to_N b in
      match pending with
      | O =>
          if (n <? 128)%N then Chr n <$> utf8_decode 0 0 l'
          else if (n <? 192)%N then None
          else if (n <? 224)%N then utf8_decode 1 (n - 192) l'
          else if (n <? 240)%N then utf8_decode 2 (n - 224) l'
          else utf8_decode 3 (n - 240) l'
      | S p =>
          if ((128 <=? n) && (n <? 192))%N then
            let acc' := (acc * 64 + (n - 128))%N in
            match p with
            | O => Chr acc' <$> utf8_decode 0 0 l'
            | S _ => utf8_decode p acc' l'
            end
          else None
      end
  end.

Definition utf8_encode_char (c : N) : list N :=
  if (c <? 128)%N then [c]
  else if (c <? 2048)%N then [192 + c / 64; 128 + c mod 64]%N
  else if (c <? 65536)%N then [224 + c / 4096; 128 + (c / 64) mod 64; 128 + c mod 64]%N
  else [240 + c / 262144; 128 + (c / 4096) mod 64; 128 + (c / 64) mod 64; 128 + c mod 64]%N.

Fixpoint utf8_encode (s : pystr) : option (list byte) :=
  match s with
  | Nil => Some []
  | Chr c t =>
      bs ← mapM Byte.of_N (utf8_encode_char c);
      rest ← utf8_encode t;
      Some (bs ++ rest)
  end.

Definition pystr_of_literal (l : list byte) : option pystr := utf8_decode 0 0 l.

String Notation pystr pystr_of_literal utf8_encode : pystr_scope.

Local Open Scope pystr_scope.

Fixpoint to_list (s : pystr) : list char :=
  match s with
  | Nil => []
  | Chr c t => c :: to_list t
  end.

(** [prepend cs t]: the characters [cs], then [t]. *)
Definition prepend (cs : list char) (t : pystr) : pystr := foldr Chr t cs.

Definition of_list (cs : list char) : pystr := prepend cs Nil.

#[global] Instance pystr_eq_dec : EqDecision pystr.
Proof. solve_decision. Defined.

Fixpoint of_list_to_list (s : pystr) : of_list (to_list s) = s :=
  match s with
  | Nil => eq_refl
  | Chr c t => f_equal (Chr c) (of_list_to_list t)
  end.

#[global] Instance pystr_countable : Countable pystr :=
  inj_countable' to_list of_list of_list_to_list.

(** [s + t] *)
Fixpoint append (s t : pystr) : pystr :=
  match s with
  | Nil => t
  | Chr c s' => Chr c (append s' t)
  end.
Infix "+:+" := append (at level 60, right associativity) : pystr_scope.

(** [s == t] *)
Fixpoint eqb (s t : pystr) : bool :=
  match s, t with
  | Nil, Nil => true
  | Chr c s', Chr d t' => (c =? d)%N && eqb s' t'
  | _, _ => false
  end.

(** [str(n)] for an integer: its decimal numeral. *)
Fixpoint of_uint (d : Decimal.uint) : pystr :=
  match d with
  | Decimal.Nil => Nil
  | Decimal.D0 d => Chr 48 (of_uint d)
  | Decimal.D1 d => Chr 49 (of_uint d)
  | Decimal.D2 d => Chr 50 (of_uint d)
  | Decimal.D3 d => Chr 51 (of_uint d)
  | Decimal.D4 d => Chr 52 (of_uint d)
  | Decimal.D5 d => Chr 53 (of_uint d)
  | Decimal.D6 d => Chr 54 (of_uint d)
  | Decimal.D7 d => Chr 55 (of_uint d)
  | Decimal.D8 d => Chr 56 (of_uint d)
  | Decimal.D9 d => Chr 57 (of_uint d)
  end.

Definition decimal (z : Z) : pystr :=
  match Z.to_int z with
  | Decimal.Pos d => of_uint d
  | Decimal.Neg d => Chr 45 (of_uint d)
  end.

(** ** The Unicode database

    The tables of CPython 3.11 (Unicode 14.0), as [str.isspace],
    [str.lower], [str.title], the regular expression class [\d] and
    [float] read them. *)

Module Unicode.
Local Open Scope N_scope.

(** [lo <= c <= hi] *)
Definition between (lo hi c : char) : bool := (lo <=? c) && (c <=? hi).

(** The first range of a sorted list of ranges that reaches [c] decides. *)
Fixpoint in_ranges (c : char) (ranges : list (char * char)) : bool :=
  match ranges with
  | [] => false
  | (lo, hi) :: rest => if c <=? hi then lo <=? c else in_ranges c rest
  end.

(** The entry of [c] in a table sorted by code point. *)
Fixpoint assoc (c : char) (table : list (char * list char)) : option (list char) :=
  match table with
  | [] => None
  | (k, m) :: rest => if c =? k then Some m else if c <? k then None else assoc c rest
  end.

(** White space, [Py_UNICODE_ISSPACE]: what [str.strip], [str.split] and
    [str.isspace] take for a blank. *)
Definition is_space (c : char) : bool :=
  between 9 13 c || between 28 32 c || (c =? 133) || (c =? 160) || (c =? 5760)
  || between 8192 8202 c || between 8232 8233 c || (c =? 8239) || (c =? 8287)
  || (c =? 12288).

(** The code points of the digit zero of every script; the nine code
    points behind each are its digits one to nine. *)
Definition decimal_zeros : list char :=
  [
    48; 1632; 1776; 1984; 2406; 2534; 2662; 2790; 2918; 3046; 3174; 3302; 3430; 3558; 3664;
    3792; 3872; 4160; 4240; 6112; 6160; 6470; 6608; 6784; 6800; 6992; 7088; 7232; 7248; 42528;
    43216; 43264; 43472; 43504; 43600; 44016; 65296; 66720; 68912; 69734; 69872; 69942; 70096;
    70384; 70736; 70864; 71248; 71360; 71472; 71904; 72016; 72784; 73040; 73120; 92768; 92864;
    93008; 120782; 120792; 120802; 120812; 120822; 123200; 123632; 125264; 130032
  ].

Definition lower_table : list (char * list char) :=
  [
    (65, [97]); (66, [98]); (67, [99]); (68, [100]); (69, [101]); (70, [102]); (71, [103]);
    (72, [104]); (73, [105]); (74, [106]); (75, [107]); (76, [108]); (77, [109]); (78, [110]);
    (79, [111]); (80, [112]); (81, [113]); (82, [114]); (83, [115]); (84, [116]); (85, [117]);
    (86, [118]); (87, [119]); (88, [120]); (89, [121]); (90, [122]); (192, [224]);
    (193, [225]); (194, [226]); (195, [227]); (196, [228]); (197, [229]); (198, [230]);
    (199, [231]); (200, [232]); (201, [233]); (202, [234]); (203, [235]); (204, [236]);
    (205, [237]); (206, [238]); (207, [239]); (208, [240]); (209, [241]); (210, [242]);
    (211, [243]); (212, [244]); (213, [245]); (214, [246]); (216, [248]); (217, [249]);
    (218, [250]); (219, [251]); (220, [252]); (221, [253]); (222, [254]); (256, [257]);
    (258, [259]); (260, [261]); (262, [263]); (264, [265]); (266, [267]); (268, [269]);
    (270, [271]); (272, [273]); (274, [275]); (276, [277]); (278, [279]); (280, [281]);
    (282, [283]); (284, [285]); (286, [287]); (288, [289]); (290, [291]); (292, [293]);
    (294, [295]); (296, [297]); (298, [299]); (300, [301]); (302, [303]); (304, [105; 775]);
    (306, [307]); (308, [309]); (310, [311]); (313, [314]); (315, [316]); (317, [318]);
    (319, [320]); (321, [322]); (323, [324]); (325, [326]); (327, [328]); (330, [331]);
    (332, [333]); (334, [335]); (336, [337]); (338, [339]); (340, [341]); (342, [343]);
    (344, [345]); (346, [347]); (348, [349]); (350, [351]); (352, [353]); (354, [355]);
    (356, [357]); (358, [359]); (360, [361]); (362, [363]); (364, [365]); (366, [367]);
    (368, [369]); (370, [371]); (372, [373]); (374, [375]); (376, [255]); (377, [378]);
    (379, [380]); (381, [382]); (385, [595]); (386, [387]); (388, [389]); (390, [596]);
    (391, [392]); (393, [598]); (394, [599]); (395, [396]); (398, [477]); (399, [601]);
    (400, [603]); (401, [402]); (403, [608]); (404, [611]); (406, [617]); (407, [616]);
    (408, [409]); (412, [623]); (413, [626]); (415, [629]); (416, [417]); (418, [419]);
    (420, [421]); (422, [640]); (423, [424]); (425, [643]); (428, [429]); (430, [648]);
    (431, [432]); (433, [650]); (434, [651]); (435, [436]); (437, [438]); (439, [658]);
    (440, [441]); (444, [445]); (452, [454]); (453, [454]); (455, [457]); (456, [457]);
    (458, [460]); (459, [460]); (461, [462]); (463, [464]); (465, [466]); (467, [468]);
    (469, [470]); (471, [472]); (473, [474]); (475, [476]); (478, [479]); (480, [481]);
    (482, [483]); (484, [485]); (486, [487]); (488, [489]); (490, [491]); (492, [493]);
    (494, [495]); (497, [499]); (498, [499]); (500, [501]); (502, [405]); (503, [447]);
    (504, [505]); (506, [507]); (508, [509]); (510, [511]); (512, [513]); (514, [515]);
    (516, [517]); (518, [519]); (520, [521]); (522, [523]); (524, [525]); (526, [527]);
    (528, [529]); (530, [531]); (532, [533]); (534, [535]); (536, [537]); (538, [539]);
    (540, [541]); (542, [543]); (544, [414]); (546, [547]); (548, [549]); (550, [551]);
    (552, [553]); (554, [555]); (556, [557]); (558, [559]); (560, [561]); (562, [563]);
    (570, [11365]); (571, [572]); (573, [410]); (574, [11366]); (577, [578]); (579, [384]);
    (580, [649]); (581, [652]); (582, [583]); (584, [585]); (586, [587]); (588, [589]);
    (590, [591]); (880, [881]); (882, [883]); (886, [887]); (895, [1011]); (902, [940]);
    (904, [941]); (905, [942]); (906, [943]); (908, [972]); (910, [973]); (911, [974]);
    (913, [945]); (914, [946]); (915, [947]); (916, [948]); (917, [949]); (918, [950]);
    (919, [951]); (920, [952]); (921, [953]); (922, [954]); (923, [955]); (924, [956]);
    (925, [957]); (926, [958]); (927, [959]); (928, [960]); (929, [961]); (931, [963]);
    (932, [964]); (933, [965]); (934, [966]); (935, [967]); (936, [968]); (937, [969]);
    (938, [970]); (939, [971]); (975, [983]); (984, [985]); (986, [987]); (988, [989]);
    (990, [991]); (992, [993]); (994, [995]); (996, [997]); (998, [999]); (1000, [1001]);
    (1002, [1003]); (1004, [1005]); (1006, [1007]); (1012, [952]); (1015, [1016]);
    (1017, [1010]); (1018, [1019]); (1021, [891]); (1022, [892]); (1023, [893]);
    (1024, [1104]); (1025, [1105]); (1026, [1106]); (1027, [1107]); (1028, [1108]);
    (1029, [1109]); (1030, [1110]); (1031, [1111]); (1032, [1112]); (1033, [1113]);
    (1034, [1114]); (1035, [1115]); (1036, [1116]); (1037, [1117]); (1038, [1118]);
    (1039, [1119]); (1040, [1072]); (1041, [1073]); (1042, [1074]); (1043, [1075]);
    (1044, [1076]); (1045, [1077]); (1046, [1078]); (1047, [1079]); (1048, [1080]);
    (1049, [1081]); (1050, [1082]); (1051, [1083]); (1052, [1084]); (1053, [1085]);
    (1054, [1086]); (1055, [1087]); (1056, [1088]); (1057, [1089]); (1058, [1090]);
    (1059, [1091]); (1060, [1092]); (1061, [1093]); (1062, [1094]); (1063, [1095]);
    (1064, [1096]); (1065, [1097]); (1066, [1098]); (1067, [1099]); (1068, [1100]);
    (1069, [1101]); (1070, [1102]); (1071, [1103]); (1120, [1121]); (1122, [1123]);
    (1124, [1125]); (1126, [1127]); (1128, [1129]); (1130, [1131]); (1132, [1133]);
    (1134, [1135]); (1136, [1137]); (1138, [1139]); (1140, [1141]); (1142, [1143]);
    (1144, [1145]); (1146, [1147]); (1148, [1149]); (1150, [1151]); (1152, [1153]);
    (1162, [1163]); (1164, [1165]); (1166, [1167]); (1168, [1169]); (1170, [1171]);
    (1172, [1173]); (1174, [1175]); (1176, [1177]); (1178, [1179]); (1180, [1181]);
    (1182, [1183]); (1184, [1185]); (1186, [1187]); (1188, [1189]); (1190, [1191]);
    (1192, [1193]); (1194, [1195]); (1196, [1197]); (1198, [1199]); (1200, [1201]);
    (1202, [1203]); (1204, [1205]); (1206, [1207]); (1208, [1209]); (1210, [1211]);
    (1212, [1213]); (1214, [1215]); (1216, [1231]); (1217, [1218]); (1219, [1220]);
    (1221, [1222]); (1223, [1224]); (1225, [1226]); (1227, [1228]); (1229, [1230]);
    (1232, [1233]); (1234, [1235]); (1236, [1237]); (1238, [1239]); (1240, [1241]);
    (1242, [1243]); (1244, [1245]); (1246, [1247]); (1248, [1249]); (1250, [1251]);
    (1252, [1253]); (1254, [1255]); (1256, [1257]); (1258, [1259]); (1260, [1261]);
    (1262, [1263]); (1264, [1265]); (1266, [1267]); (1268, [1269]); (1270, [1271]);
    (1272, [1273]); (1274, [1275]); (1276, [1277]); (1278, [1279]); (1280, [1281]);
    (1282, [1283]); (1284, [1285]); (1286, [1287]); (1288, [1289]); (1290, [1291]);
    (1292, [1293]); (1294, [1295]); (1296, [1297]); (1298, [1299]); (1300, [1301]);
    (1302, [1303]); (1304, [1305]); (1306, [1307]); (1308, [1309]); (1310, [1311]);
    (1312, [1313]); (1314, [1315]); (1316, [1317]); (1318, [1319]); (1320, [1321]);
    (1322, [1323]); (1324, [1325]); (1326, [1327]); (1329, [1377]); (1330, [1378]);
    (1331, [1379]); (1332, [1380]); (1333, [1381]); (1334, [1382]); (1335, [1383]);
    (1336, [1384]); (1337, [1385]); (1338, [1386]); (1339, [1387]); (1340, [1388]);
    (1341, [1389]); (1342, [1390]); (1343, [1391]); (1344, [1392]); (1345, [1393]);
    (1346, [1394]); (1347, [1395]); (1348, [1396]); (1349, [1397]); (1350, [1398]);
    (1351, [1399]); (1352, [1400]); (1353, [1401]); (1354, [1402]); (1355, [1403]);
    (1356, [1404]); (1357, [1405]); (1358, [1406]); (1359, [1407]); (1360, [1408]);
    (1361, [1409]); (1362, [1410]); (1363, [1411]); (1364, [1412]); (1365, [1413]);
    (1366, [1414]); (4256, [11520]); (4257, [11521]); (4258, [11522]); (4259, [11523]);
    (4260, [11524]); (4261, [11525]); (4262, [11526]); (4263, [11527]); (4264, [11528]);
    (4265, [11529]); (4266, [11530]); (4267, [11531]); (4268, [11532]); (4269, [11533]);
    (4270, [11534]); (4271, [11535]); (4272, [11536]); (4273, [11537]); (4274, [11538]);
    (4275, [11539]); (4276, [11540]); (4277, [11541]); (4278, [11542]); (4279, [11543]);
    (4280, [11544]); (4281, [11545]); (4282, [11546]); (4283, [11547]); (4284, [11548]);
    (4285, [11549]); (4286, [11550]); (4287, [11551]); (4288, [11552]); (4289, [11553]);
    (4290, [11554]); (4291, [11555]); (4292, [11556]); (4293, [11557]); (4295, [11559]);
    (4301, [11565]); (5024, [43888]); (5025, [43889]); (5026, [43890]); (5027, [43891]);
    (5028, [43892]); (5029, [43893]); (5030, [43894]); (5031, [43895]); (5032, [43896]);
    (5033, [43897]); (5034, [43898]); (5035, [43899]); (5036, [43900]); (5037, [43901]);
    (5038, [43902]); (5039, [43903]); (5040, [43904]); (5041, [43905]); (5042, [43906]);
    (5043, [43907]); (5044, [43908]); (5045, [43909]); (5046, [43910]); (5047, [43911]);
    (5048, [43912]); (5049, [43913]); (5050, [43914]); (5051, [43915]); (5052, [43916]);
    (5053, [43917]); (5054, [43918]); (5055, [43919]); (5056, [43920]); (5057, [43921]);
    (5058, [43922]); (5059, [43923]); (5060, [43924]); (5061, [43925]); (5062, [43926]);
    (5063, [43927]); (5064, [43928]); (5065, [43929]); (5066, [43930]); (5067, [43931]);
    (5068, [43932]); (5069, [43933]); (5070, [43934]); (5071, [43935]); (5072, [43936]);
    (5073, [43937]); (5074, [43938]); (5075, [43939]); (5076, [43940]); (5077, [43941]);
    (5078, [43942]); (5079, [43943]); (5080, [43944]); (5081, [43945]); (5082, [43946]);
    (5083, [43947]); (5084, [43948]); (5085, [43949]); (5086, [43950]); (5087, [43951]);
    (5088, [43952]); (5089, [43953]); (5090, [43954]); (5091, [43955]); (5092, [43956]);
    (5093, [43957]); (5094, [43958]); (5095, [43959]); (5096, [43960]); (5097, [43961]);
    (5098, [43962]); (5099, [43963]); (5100, [43964]); (5101, [43965]); (5102, [43966]);
    (5103, [43967]); (5104, [5112]); (5105, [5113]); (5106, [5114]); (5107, [5115]);
    (5108, [5116]); (5109, [5117]); (7312, [4304]); (7313, [4305]); (7314, [4306]);
    (7315, [4307]); (7316, [4308]); (7317, [4309]); (7318, [4310]); (7319, [4311]);
    (7320, [4312]); (7321, [4313]); (7322, [4314]); (7323, [4315]); (7324, [4316]);
    (7325, [4317]); (7326, [4318]); (7327, [4319]); (7328, [4320]); (7329, [4321]);
    (7330, [4322]); (7331, [4323]); (7332, [4324]); (7333, [4325]); (7334, [4326]);
    (7335, [4327]); (7336, [4328]); (7337, [4329]); (7338, [4330]); (7339, [4331]);
    (7340, [4332]); (7341, [4333]); (7342, [4334]); (7343, [4335]); (7344, [4336]);
    (7345, [4337]); (7346, [4338]); (7347, [4339]); (7348, [4340]); (7349, [4341]);
    (7350, [4342]); (7351, [4343]); (7352, [4344]); (7353, [4345]); (7354, [4346]);
    (7357, [4349]); (7358, [4350]); (7359, [4351]); (7680, [7681]); (7682, [7683]);
    (7684, [7685]); (7686, [7687]); (7688, [7689]); (7690, [7691]); (7692, [7693]);
    (7694, [7695]); (7696, [7697]); (7698, [7699]); (7700, [7701]); (7702, [7703]);
    (7704, [7705]); (7706, [7707]); (7708, [7709]); (7710, [7711]); (7712, [7713]);
    (7714, [7715]); (7716, [7717]); (7718, [7719]); (7720, [7721]); (7722, [7723]);
    (7724, [7725]); (7726, [7727]); (7728, [7729]); (7730, [7731]); (7732, [7733]);
    (7734, [7735]); (7736, [7737]); (7738, [7739]); (7740, [7741]); (7742, [7743]);
    (7744, [7745]); (7746, [7747]); (7748, [7749]); (7750, [7751]); (7752, [7753]);
    (7754, [7755]); (7756, [7757]); (7758, [7759]); (7760, [7761]); (7762, [7763]);
    (7764, [7765]); (7766, [7767]); (7768, [7769]); (7770, [7771]); (7772, [7773]);
    (7774, [7775]); (7776, [7777]); (7778, [7779]); (7780, [7781]); (7782, [7783]);
    (7784, [7785]); (7786, [7787]); (7788, [7789]); (7790, [7791]); (7792, [7793]);
    (7794, [7795]); (7796, [7797]); (7798, [7799]); (7800, [7801]); (7802, [7803]);
    (7804, [7805]); (7806, [7807]); (7808, [7809]); (7810, [7811]); (7812, [7813]);
    (7814, [7815]); (7816, [7817]); (7818, [7819]); (7820, [7821]); (7822, [7823]);
    (7824, [7825]); (7826, [7827]); (7828, [7829]); (7838, [223]); (7840, [7841]);
    (7842, [7843]); (7844, [7845]); (7846, [7847]); (7848, [7849]); (7850, [7851]);
    (7852, [7853]); (7854, [7855]); (7856, [7857]); (7858, [7859]); (7860, [7861]);
    (7862, [7863]); (7864, [7865]); (7866, [7867]); (7868, [7869]); (7870, [7871]);
    (7872, [7873]); (7874, [7875]); (7876, [7877]); (7878, [7879]); (7880, [7881]);
    (7882, [7883]); (7884, [7885]); (7886, [7887]); (7888, [7889]); (7890, [7891]);
    (7892, [7893]); (7894, [7895]); (7896, [7897]); (7898, [7899]); (7900, [7901]);
    (7902, [7903]); (7904, [7905]); (7906, [7907]); (7908, [7909]); (7910, [7911]);
    (7912, [7913]); (7914, [7915]); (7916, [7917]); (7918, [7919]); (7920, [7921]);
    (7922, [7923]); (7924, [7925]); (7926, [7927]); (7928, [7929]); (7930, [7931]);
    (7932, [7933]); (7934, [7935]); (7944, [7936]); (7945, [7937]); (7946, [7938]);
    (7947, [7939]); (7948, [7940]); (7949, [7941]); (7950, [7942]); (7951, [7943]);
    (7960, [7952]); (7961, [7953]); (7962, [7954]); (7963, [7955]); (7964, [7956]);
    (7965, [7957]); (7976, [7968]); (7977, [7969]); (7978, [7970]); (7979, [7971]);
    (7980, [7972]); (7981, [7973]); (7982, [7974]); (7983, [7975]); (7992, [7984]);
    (7993, [7985]); (7994, [7986]); (7995, [7987]); (7996, [7988]); (7997, [7989]);
    (7998, [7990]); (7999, [7991]); (8008, [8000]); (8009, [8001]); (8010, [8002]);
    (8011, [8003]); (8012, [8004]); (8013, [8005]); (8025, [8017]); (8027, [8019]);
    (8029, [8021]); (8031, [8023]); (8040, [8032]); (8041, [8033]); (8042, [8034]);
    (8043, [8035]); (8044, [8036]); (8045, [8037]); (8046, [8038]); (8047, [8039]);
    (8072, [8064]); (8073, [8065]); (8074, [8066]); (8075, [8067]); (8076, [8068]);
    (8077, [8069]); (8078, [8070]); (8079, [8071]); (8088, [8080]); (8089, [8081]);
    (8090, [8082]); (8091, [8083]); (8092, [8084]); (8093, [8085]); (8094, [8086]);
    (8095, [8087]); (8104, [8096]); (8105, [8097]); (8106, [8098]); (8107, [8099]);
    (8108, [8100]); (8109, [8101]); (8110, [8102]); (8111, [8103]); (8120, [8112]);
    (8121, [8113]); (8122, [8048]); (8123, [8049]); (8124, [8115]); (8136, [8050]);
    (8137, [8051]); (8138, [8052]); (8139, [8053]); (8140, [8131]); (8152, [8144]);
    (8153, [8145]); (8154, [8054]); (8155, [8055]); (8168, [8160]); (8169, [8161]);
    (8170, [8058]); (8171, [8059]); (8172, [8165]); (8184, [8056]); (8185, [8057]);
    (8186, [8060]); (8187, [8061]); (8188, [8179]); (8486, [969]); (8490, [107]);
    (8491, [229]); (8498, [8526]); (8544, [8560]); (8545, [8561]); (8546, [8562]);
    (8547, [8563]); (8548, [8564]); (8549, [8565]); (8550, [8566]); (8551, [8567]);
    (8552, [8568]); (8553, [8569]); (8554, [8570]); (8555, [8571]); (8556, [8572]);
    (8557, [8573]); (8558, [8574]); (8559, [8575]); (8579, [8580]); (9398, [9424]);
    (9399, [9425]); (9400, [9426]); (9401, [9427]); (9402, [9428]); (9403, [9429]);
    (9404, [9430]); (9405, [9431]); (9406, [9432]); (9407, [9433]); (9408, [9434]);
    (9409, [9435]); (9410, [9436]); (9411, [9437]); (9412, [9438]); (9413, [9439]);
    (9414, [9440]); (9415, [9441]); (9416, [9442]); (9417, [9443]); (9418, [9444]);
    (9419, [9445]); (9420, [9446]); (9421, [9447]); (9422, [9448]); (9423, [9449]);
    (11264, [11312]); (11265, [11313]); (11266, [11314]); (11267, [11315]); (11268, [11316]);
    (11269, [11317]); (11270, [11318]); (11271, [11319]); (11272, [11320]); (11273, [11321]);
    (11274, [11322]); (11275, [11323]); (11276, [11324]); (11277, [11325]); (11278, [11326]);
    (11279, [11327]); (11280, [11328]); (11281, [11329]); (11282, [11330]); (11283, [11331]);
    (11284, [11332]); (11285, [11333]); (11286, [11334]); (11287, [11335]); (11288, [11336]);
    (11289, [11337]); (11290, [11338]); (11291, [11339]); (11292, [11340]); (11293, [11341]);
    (11294, [11342]); (11295, [11343]); (11296, [11344]); (11297, [11345]); (11298, [11346]);
    (11299, [11347]); (11300, [11348]); (11301, [11349]); (11302, [11350]); (11303, [11351]);
    (11304, [11352]); (11305, [11353]); (11306, [11354]); (11307, [11355]); (11308, [11356]);
    (11309, [11357]); (11310, [11358]); (11311, [11359]); (11360, [11361]); (11362, [619]);
    (11363, [7549]); (11364, [637]); (11367, [11368]); (11369, [11370]); (11371, [11372]);
    (11373, [593]); (11374, [625]); (11375, [592]); (11376, [594]); (11378, [11379]);
    (11381, [11382]); (11390, [575]); (11391, [576]); (11392, [11393]); (11394, [11395]);
    (11396, [11397]); (11398, [11399]); (11400, [11401]); (11402, [11403]); (11404, [11405]);
    (11406, [11407]); (11408, [11409]); (11410, [11411]); (11412, [11413]); (11414, [11415]);
    (11416, [11417]); (11418, [11419]); (11420, [11421]); (11422, [11423]); (11424, [11425]);
    (11426, [11427]); (11428, [11429]); (11430, [11431]); (11432, [11433]); (11434, [11435]);
    (11436, [11437]); (11438, [11439]); (11440, [11441]); (11442, [11443]); (11444, [11445]);
    (11446, [11447]); (11448, [11449]); (11450, [11451]); (11452, [11453]); (11454, [11455]);
    (11456, [11457]); (11458, [11459]); (11460, [11461]); (11462, [11463]); (11464, [11465]);
    (11466, [11467]); (11468, [11469]); (11470, [11471]); (11472, [11473]); (11474, [11475]);
    (11476, [11477]); (11478, [11479]); (11480, [11481]); (11482, [11483]); (11484, [11485]);
    (11486, [11487]); (11488, [11489]); (11490, [11491]); (11499, [11500]); (11501, [11502]);
    (11506, [11507]); (42560, [42561]); (42562, [42563]); (42564, [42565]); (42566, [42567]);
    (42568, [42569]); (42570, [42571]); (42572, [42573]); (42574, [42575]); (42576, [42577]);
    (42578, [42579]); (42580, [42581]); (42582, [42583]); (42584, [42585]); (42586, [42587]);
    (42588, [42589]); (42590, [42591]); (42592, [42593]); (42594, [42595]); (42596, [42597]);
    (42598, [42599]); (42600, [42601]); (42602, [42603]); (42604, [42605]); (42624, [42625]);
    (42626, [42627]); (42628, [42629]); (42630, [42631]); (42632, [42633]); (42634, [42635]);
    (42636, [42637]); (42638, [42639]); (42640, [42641]); (42642, [42643]); (42644, [42645]);
    (42646, [42647]); (42648, [42649]); (42650, [42651]); (42786, [42787]); (42788, [42789]);
    (42790, [42791]); (42792, [42793]); (42794, [42795]); (42796, [42797]); (42798, [42799]);
    (42802, [42803]); (42804, [42805]); (42806, [42807]); (42808, [42809]); (42810, [42811]);
    (42812, [42813]); (42814, [42815]); (42816, [42817]); (42818, [42819]); (42820, [42821]);
    (42822, [42823]); (42824, [42825]); (42826, [42827]); (42828, [42829]); (42830, [42831]);
    (42832, [42833]); (42834, [42835]); (42836, [42837]); (42838, [42839]); (42840, [42841]);
    (42842, [42843]); (42844, [42845]); (42846, [42847]); (42848, [42849]); (42850, [42851]);
    (42852, [42853]); (42854, [42855]); (42856, [42857]); (42858, [42859]); (42860, [42861]);
    (42862, [42863]); (42873, [42874]); (42875, [42876]); (42877, [7545]); (42878, [42879]);
    (42880, [42881]); (42882, [42883]); (42884, [42885]); (42886, [42887]); (42891, [42892]);
    (42893, [613]); (42896, [42897]); (42898, [42899]); (42902, [42903]); (42904, [42905]);
    (42906, [42907]); (42908, [42909]); (42910, [42911]); (42912, [42913]); (42914, [42915]);
    (42916, [42917]); (42918, [42919]); (42920, [42921]); (42922, [614]); (42923, [604]);
    (42924, [609]); (42925, [620]); (42926, [618]); (42928, [670]); (42929, [647]);
    (42930, [669]); (42931, [43859]); (42932, [42933]); (42934, [42935]); (42936, [42937]);
    (42938, [42939]); (42940, [42941]); (42942, [42943]); (42944, [42945]); (42946, [42947]);
    (42948, [42900]); (42949, [642]); (42950, [7566]); (42951, [42952]); (42953, [42954]);
    (42960, [42961]); (42966, [42967]); (42968, [42969]); (42997, [42998]); (65313, [65345]);
    (65314, [65346]); (65315, [65347]); (65316, [65348]); (65317, [65349]); (65318, [65350]);
    (65319, [65351]); (65320, [65352]); (65321, [65353]); (65322, [65354]); (65323, [65355]);
    (65324, [65356]); (65325, [65357]); (65326, [65358]); (65327, [65359]); (65328, [65360]);
    (65329, [65361]); (65330, [65362]); (65331, [65363]); (65332, [65364]); (65333, [65365]);
    (65334, [65366]); (65335, [65367]); (65336, [65368]); (65337, [65369]); (65338, [65370]);
    (66560, [66600]); (66561, [66601]); (66562, [66602]); (66563, [66603]); (66564, [66604]);
    (66565, [66605]); (66566, [66606]); (66567, [66607]); (66568, [66608]); (66569, [66609]);
    (66570, [66610]); (66571, [66611]); (66572, [66612]); (66573, [66613]); (66574, [66614]);
    (66575, [66615]); (66576, [66616]); (66577, [66617]); (66578, [66618]); (66579, [66619]);
    (66580, [66620]); (66581, [66621]); (66582, [66622]); (66583, [66623]); (66584, [66624]);
    (66585, [66625]); (66586, [66626]); (66587, [66627]); (66588, [66628]); (66589, [66629]);
    (66590, [66630]); (66591, [66631]); (66592, [66632]); (66593, [66633]); (66594, [66634]);
    (66595, [66635]); (66596, [66636]); (66597, [66637]); (66598, [66638]); (66599, [66639]);
    (66736, [66776]); (66737, [66777]); (66738, [66778]); (66739, [66779]); (66740, [66780]);
    (66741, [66781]); (66742, [66782]); (66743, [66783]); (66744, [66784]); (66745, [66785]);
    (66746, [66786]); (66747, [66787]); (66748, [66788]); (66749, [66789]); (66750, [66790]);
    (66751, [66791]); (66752, [66792]); (66753, [66793]); (66754, [66794]); (66755, [66795]);
    (66756, [66796]); (66757, [66797]); (66758, [66798]); (66759, [66799]); (66760, [66800]);
    (66761, [66801]); (66762, [66802]); (66763, [66803]); (66764, [66804]); (66765, [66805]);
    (66766, [66806]); (66767, [66807]); (66768, [66808]); (66769, [66809]); (66770, [66810]);
    (66771, [66811]); (66928, [66967]); (66929, [66968]); (66930, [66969]); (66931, [66970]);
    (66932, [66971]); (66933, [66972]); (66934, [66973]); (66935, [66974]); (66936, [66975]);
    (66937, [66976]); (66938, [66977]); (66940, [66979]); (66941, [66980]); (66942, [66981]);
    (66943, [66982]); (66944, [66983]); (66945, [66984]); (66946, [66985]); (66947, [66986]);
    (66948, [66987]); (66949, [66988]); (66950, [66989]); (66951, [66990]); (66952, [66991]);
    (66953, [66992]); (66954, [66993]); (66956, [66995]); (66957, [66996]); (66958, [66997]);
    (66959, [66998]); (66960, [66999]); (66961, [67000]); (66962, [67001]); (66964, [67003]);
    (66965, [67004]); (68736, [68800]); (68737, [68801]); (68738, [68802]); (68739, [68803]);
    (68740, [68804]); (68741, [68805]); (68742, [68806]); (68743, [68807]); (68744, [68808]);
    (68745, [68809]); (68746, [68810]); (68747, [68811]); (68748, [68812]); (68749, [68813]);
    (68750, [68814]); (68751, [68815]); (68752, [68816]); (68753, [68817]); (68754, [68818]);
    (68755, [68819]); (68756, [68820]); (68757, [68821]); (68758, [68822]); (68759, [68823]);
    (68760, [68824]); (68761, [68825]); (68762, [68826]); (68763, [68827]); (68764, [68828]);
    (68765, [68829]); (68766, [68830]); (68767, [68831]); (68768, [68832]); (68769, [68833]);
    (68770, [68834]); (68771, [68835]); (68772, [68836]); (68773, [68837]); (68774, [68838]);
    (68775, [68839]); (68776, [68840]); (68777, [68841]); (68778, [68842]); (68779, [68843]);
    (68780, [68844]); (68781, [68845]); (68782, [68846]); (68783, [68847]); (68784, [68848]);
    (68785, [68849]); (68786, [68850]); (71840, [71872]); (71841, [71873]); (71842, [71874]);
    (71843, [71875]); (71844, [71876]); (71845, [71877]); (71846, [71878]); (71847, [71879]);
    (71848, [71880]); (71849, [71881]); (71850, [71882]); (71851, [71883]); (71852, [71884]);
    (71853, [71885]); (71854, [71886]); (71855, [71887]); (71856, [71888]); (71857, [71889]);
    (71858, [71890]); (71859, [71891]); (71860, [71892]); (71861, [71893]); (71862, [71894]);
    (71863, [71895]); (71864, [71896]); (71865, [71897]); (71866, [71898]); (71867, [71899]);
    (71868, [71900]); (71869, [71901]); (71870, [71902]); (71871, [71903]); (93760, [93792]);
    (93761, [93793]); (93762, [93794]); (93763, [93795]); (93764, [93796]); (93765, [93797]);
    (93766, [93798]); (93767, [93799]); (93768, [93800]); (93769, [93801]); (93770, [93802]);
    (93771, [93803]); (93772, [93804]); (93773, [93805]); (93774, [93806]); (93775, [93807]);
    (93776, [93808]); (93777, [93809]); (93778, [93810]); (93779, [93811]); (93780, [93812]);
    (93781, [93813]); (93782, [93814]); (93783, [93815]); (93784, [93816]); (93785, [93817]);
    (93786, [93818]); (93787, [93819]); (93788, [93820]); (93789, [93821]); (93790, [93822]);
    (93791, [93823]); (125184, [125218]); (125185, [125219]); (125186, [125220]);
    (125187, [125221]); (125188, [125222]); (125189, [125223]); (125190, [125224]);
    (125191, [125225]); (125192, [125226]); (125193, [125227]); (125194, [125228]);
    (125195, [125229]); (125196, [125230]); (125197, [125231]); (125198, [125232]);
    (125199, [125233]); (125200, [125234]); (125201, [125235]); (125202, [125236]);
    (125203, [125237]); (125204, [125238]); (125205, [125239]); (125206, [125240]);
    (125207, [125241]); (125208, [125242]); (125209, [125243]); (125210, [125244]);
    (125211, [125245]); (125212, [125246]); (125213, [125247]); (125214, [125248]);
    (125215, [125249]); (125216, [125250]); (125217, [125251])
  ].

Definition title_table : list (char * list char) :=
  [
    (97, [65]); (98, [66]); (99, [67]); (100, [68]); (101, [69]); (102, [70]); (103, [71]);
    (104, [72]); (105, [73]); (106, [74]); (107, [75]); (108, [76]); (109, [77]); (110, [78]);
    (111, [79]); (112, [80]); (113, [81]); (114, [82]); (115, [83]); (116, [84]); (117, [85]);
    (118, [86]); (119, [87]); (120, [88]); (121, [89]); (122, [90]); (181, [924]);
    (223, [83; 115]); (224, [192]); (225, [193]); (226, [194]); (227, [195]); (228, [196]);
    (229, [197]); (230, [198]); (231, [199]); (232, [200]); (233, [201]); (234, [202]);
    (235, [203]); (236, [204]); (237, [205]); (238, [206]); (239, [207]); (240, [208]);
    (241, [209]); (242, [210]); (243, [211]); (244, [212]); (245, [213]); (246, [214]);
    (248, [216]); (249, [217]); (250, [218]); (251, [219]); (252, [220]); (253, [221]);
    (254, [222]); (255, [376]); (257, [256]); (259, [258]); (261, [260]); (263, [262]);
    (265, [264]); (267, [266]); (269, [268]); (271, [270]); (273, [272]); (275, [274]);
    (277, [276]); (279, [278]); (281, [280]); (283, [282]); (285, [284]); (287, [286]);
    (289, [288]); (291, [290]); (293, [292]); (295, [294]); (297, [296]); (299, [298]);
    (301, [300]); (303, [302]); (305, [73]); (307, [306]); (309, [308]); (311, [310]);
    (314, [313]); (316, [315]); (318, [317]); (320, [319]); (322, [321]); (324, [323]);
    (326, [325]); (328, [327]); (329, [700; 78]); (331, [330]); (333, [332]); (335, [334]);
    (337, [336]); (339, [338]); (341, [340]); (343, [342]); (345, [344]); (347, [346]);
    (349, [348]); (351, [350]); (353, [352]); (355, [354]); (357, [356]); (359, [358]);
    (361, [360]); (363, [362]); (365, [364]); (367, [366]); (369, [368]); (371, [370]);
    (373, [372]); (375, [374]); (378, [377]); (380, [379]); (382, [381]); (383, [83]);
    (384, [579]); (387, [386]); (389, [388]); (392, [391]); (396, [395]); (402, [401]);
    (405, [502]); (409, [408]); (410, [573]); (414, [544]); (417, [416]); (419, [418]);
    (421, [420]); (424, [423]); (429, [428]); (432, [431]); (436, [435]); (438, [437]);
    (441, [440]); (445, [444]); (447, [503]); (452, [453]); (454, [453]); (455, [456]);
    (457, [456]); (458, [459]); (460, [459]); (462, [461]); (464, [463]); (466, [465]);
    (468, [467]); (470, [469]); (472, [471]); (474, [473]); (476, [475]); (477, [398]);
    (479, [478]); (481, [480]); (483, [482]); (485, [484]); (487, [486]); (489, [488]);
    (491, [490]); (493, [492]); (495, [494]); (496, [74; 780]); (497, [498]); (499, [498]);
    (501, [500]); (505, [504]); (507, [506]); (509, [508]); (511, [510]); (513, [512]);
    (515, [514]); (517, [516]); (519, [518]); (521, [520]); (523, [522]); (525, [524]);
    (527, [526]); (529, [528]); (531, [530]); (533, [532]); (535, [534]); (537, [536]);
    (539, [538]); (541, [540]); (543, [542]); (547, [546]); (549, [548]); (551, [550]);
    (553, [552]); (555, [554]); (557, [556]); (559, [558]); (561, [560]); (563, [562]);
    (572, [571]); (575, [11390]); (576, [11391]); (578, [577]); (583, [582]); (585, [584]);
    (587, [586]); (589, [588]); (591, [590]); (592, [11375]); (593, [11373]); (594, [11376]);
    (595, [385]); (596, [390]); (598, [393]); (599, [394]); (601, [399]); (603, [400]);
    (604, [42923]); (608, [403]); (609, [42924]); (611, [404]); (613, [42893]); (614, [42922]);
    (616, [407]); (617, [406]); (618, [42926]); (619, [11362]); (620, [42925]); (623, [412]);
    (625, [11374]); (626, [413]); (629, [415]); (637, [11364]); (640, [422]); (642, [42949]);
    (643, [425]); (647, [42929]); (648, [430]); (649, [580]); (650, [433]); (651, [434]);
    (652, [581]); (658, [439]); (669, [42930]); (670, [42928]); (837, [921]); (881, [880]);
    (883, [882]); (887, [886]); (891, [1021]); (892, [1022]); (893, [1023]);
    (912, [921; 776; 769]); (940, [902]); (941, [904]); (942, [905]); (943, [906]);
    (944, [933; 776; 769]); (945, [913]); (946, [914]); (947, [915]); (948, [916]);
    (949, [917]); (950, [918]); (951, [919]); (952, [920]); (953, [921]); (954, [922]);
    (955, [923]); (956, [924]); (957, [925]); (958, [926]); (959, [927]); (960, [928]);
    (961, [929]); (962, [931]); (963, [931]); (964, [932]); (965, [933]); (966, [934]);
    (967, [935]); (968, [936]); (969, [937]); (970, [938]); (971, [939]); (972, [908]);
    (973, [910]); (974, [911]); (976, [914]); (977, [920]); (981, [934]); (982, [928]);
    (983, [975]); (985, [984]); (987, [986]); (989, [988]); (991, [990]); (993, [992]);
    (995, [994]); (997, [996]); (999, [998]); (1001, [1000]); (1003, [1002]); (1005, [1004]);
    (1007, [1006]); (1008, [922]); (1009, [929]); (1010, [1017]); (1011, [895]); (1013, [917]);
    (1016, [1015]); (1019, [1018]); (1072, [1040]); (1073, [1041]); (1074, [1042]);
    (1075, [1043]); (1076, [1044]); (1077, [1045]); (1078, [1046]); (1079, [1047]);
    (1080, [1048]); (1081, [1049]); (1082, [1050]); (1083, [1051]); (1084, [1052]);
    (1085, [1053]); (1086, [1054]); (1087, [1055]); (1088, [1056]); (1089, [1057]);
    (1090, [1058]); (1091, [1059]); (1092, [1060]); (1093, [1061]); (1094, [1062]);
    (1095, [1063]); (1096, [1064]); (1097, [1065]); (1098, [1066]); (1099, [1067]);
    (1100, [1068]); (1101, [1069]); (1102, [1070]); (1103, [1071]); (1104, [1024]);
    (1105, [1025]); (1106, [1026]); (1107, [1027]); (1108, [1028]); (1109, [1029]);
    (1110, [1030]); (1111, [1031]); (1112, [1032]); (1113, [1033]); (1114, [1034]);
    (1115, [1035]); (1116, [1036]); (1117, [1037]); (1118, [1038]); (1119, [1039]);
    (1121, [1120]); (1123, [1122]); (1125, [1124]); (1127, [1126]); (1129, [1128]);
    (1131, [1130]); (1133, [1132]); (1135, [1134]); (1137, [1136]); (1139, [1138]);
    (1141, [1140]); (1143, [1142]); (1145, [1144]); (1147, [1146]); (1149, [1148]);
    (1151, [1150]); (1153, [1152]); (1163, [1162]); (1165, [1164]); (1167, [1166]);
    (1169, [1168]); (1171, [1170]); (1173, [1172]); (1175, [1174]); (1177, [1176]);
    (1179, [1178]); (1181, [1180]); (1183, [1182]); (1185, [1184]); (1187, [1186]);
    (1189, [1188]); (1191, [1190]); (1193, [1192]); (1195, [1194]); (1197, [1196]);
    (1199, [1198]); (1201, [1200]); (1203, [1202]); (1205, [1204]); (1207, [1206]);
    (1209, [1208]); (1211, [1210]); (1213, [1212]); (1215, [1214]); (1218, [1217]);
    (1220, [1219]); (1222, [1221]); (1224, [1223]); (1226, [1225]); (1228, [1227]);
    (1230, [1229]); (1231, [1216]); (1233, [1232]); (1235, [1234]); (1237, [1236]);
    (1239, [1238]); (1241, [1240]); (1243, [1242]); (1245, [1244]); (1247, [1246]);
    (1249, [1248]); (1251, [1250]); (1253, [1252]); (1255, [1254]); (1257, [1256]);
    (1259, [1258]); (1261, [1260]); (1263, [1262]); (1265, [1264]); (1267, [1266]);
    (1269, [1268]); (1271, [1270]); (1273, [1272]); (1275, [1274]); (1277, [1276]);
    (1279, [1278]); (1281, [1280]); (1283, [1282]); (1285, [1284]); (1287, [1286]);
    (1289, [1288]); (1291, [1290]); (1293, [1292]); (1295, [1294]); (1297, [1296]);
    (1299, [1298]); (1301, [1300]); (1303, [1302]); (1305, [1304]); (1307, [1306]);
    (1309, [1308]); (1311, [1310]); (1313, [1312]); (1315, [1314]); (1317, [1316]);
    (1319, [1318]); (1321, [1320]); (1323, [1322]); (1325, [1324]); (1327, [1326]);
    (1377, [1329]); (1378, [1330]); (1379, [1331]); (1380, [1332]); (1381, [1333]);
    (1382, [1334]); (1383, [1335]); (1384, [1336]); (1385, [1337]); (1386, [1338]);
    (1387, [1339]); (1388, [1340]); (1389, [1341]); (1390, [1342]); (1391, [1343]);
    (1392, [1344]); (1393, [1345]); (1394, [1346]); (1395, [1347]); (1396, [1348]);
    (1397, [1349]); (1398, [1350]); (1399, [1351]); (1400, [1352]); (1401, [1353]);
    (1402, [1354]); (1403, [1355]); (1404, [1356]); (1405, [1357]); (1406, [1358]);
    (1407, [1359]); (1408, [1360]); (1409, [1361]); (1410, [1362]); (1411, [1363]);
    (1412, [1364]); (1413, [1365]); (1414, [1366]); (1415, [1333; 1410]); (5112, [5104]);
    (5113, [5105]); (5114, [5106]); (5115, [5107]); (5116, [5108]); (5117, [5109]);
    (7296, [1042]); (7297, [1044]); (7298, [1054]); (7299, [1057]); (7300, [1058]);
    (7301, [1058]); (7302, [1066]); (7303, [1122]); (7304, [42570]); (7545, [42877]);
    (7549, [11363]); (7566, [42950]); (7681, [7680]); (7683, [7682]); (7685, [7684]);
    (7687, [7686]); (7689, [7688]); (7691, [7690]); (7693, [7692]); (7695, [7694]);
    (7697, [7696]); (7699, [7698]); (7701, [7700]); (7703, [7702]); (7705, [7704]);
    (7707, [7706]); (7709, [7708]); (7711, [7710]); (7713, [7712]); (7715, [7714]);
    (7717, [7716]); (7719, [7718]); (7721, [7720]); (7723, [7722]); (7725, [7724]);
    (7727, [7726]); (7729, [7728]); (7731, [7730]); (7733, [7732]); (7735, [7734]);
    (7737, [7736]); (7739, [7738]); (7741, [7740]); (7743, [7742]); (7745, [7744]);
    (7747, [7746]); (7749, [7748]); (7751, [7750]); (7753, [7752]); (7755, [7754]);
    (7757, [7756]); (7759, [7758]); (7761, [7760]); (7763, [7762]); (7765, [7764]);
    (7767, [7766]); (7769, [7768]); (7771, [7770]); (7773, [7772]); (7775, [7774]);
    (7777, [7776]); (7779, [7778]); (7781, [7780]); (7783, [7782]); (7785, [7784]);
    (7787, [7786]); (7789, [7788]); (7791, [7790]); (7793, [7792]); (7795, [7794]);
    (7797, [7796]); (7799, [7798]); (7801, [7800]); (7803, [7802]); (7805, [7804]);
    (7807, [7806]); (7809, [7808]); (7811, [7810]); (7813, [7812]); (7815, [7814]);
    (7817, [7816]); (7819, [7818]); (7821, [7820]); (7823, [7822]); (7825, [7824]);
    (7827, [7826]); (7829, [7828]); (7830, [72; 817]); (7831, [84; 776]); (7832, [87; 778]);
    (7833, [89; 778]); (7834, [65; 702]); (7835, [7776]); (7841, [7840]); (7843, [7842]);
    (7845, [7844]); (7847, [7846]); (7849, [7848]); (7851, [7850]); (7853, [7852]);
    (7855, [7854]); (7857, [7856]); (7859, [7858]); (7861, [7860]); (7863, [7862]);
    (7865, [7864]); (7867, [7866]); (7869, [7868]); (7871, [7870]); (7873, [7872]);
    (7875, [7874]); (7877, [7876]); (7879, [7878]); (7881, [7880]); (7883, [7882]);
    (7885, [7884]); (7887, [7886]); (7889, [7888]); (7891, [7890]); (7893, [7892]);
    (7895, [7894]); (7897, [7896]); (7899, [7898]); (7901, [7900]); (7903, [7902]);
    (7905, [7904]); (7907, [7906]); (7909, [7908]); (7911, [7910]); (7913, [7912]);
    (7915, [7914]); (7917, [7916]); (7919, [7918]); (7921, [7920]); (7923, [7922]);
    (7925, [7924]); (7927, [7926]); (7929, [7928]); (7931, [7930]); (7933, [7932]);
    (7935, [7934]); (7936, [7944]); (7937, [7945]); (7938, [7946]); (7939, [7947]);
    (7940, [7948]); (7941, [7949]); (7942, [7950]); (7943, [7951]); (7952, [7960]);
    (7953, [7961]); (7954, [7962]); (7955, [7963]); (7956, [7964]); (7957, [7965]);
    (7968, [7976]); (7969, [7977]); (7970, [7978]); (7971, [7979]); (7972, [7980]);
    (7973, [7981]); (7974, [7982]); (7975, [7983]); (7984, [7992]); (7985, [7993]);
    (7986, [7994]); (7987, [7995]); (7988, [7996]); (7989, [7997]); (7990, [7998]);
    (7991, [7999]); (8000, [8008]); (8001, [8009]); (8002, [8010]); (8003, [8011]);
    (8004, [8012]); (8005, [8013]); (8016, [933; 787]); (8017, [8025]);
    (8018, [933; 787; 768]); (8019, [8027]); (8020, [933; 787; 769]); (8021, [8029]);
    (8022, [933; 787; 834]); (8023, [8031]); (8032, [8040]); (8033, [8041]); (8034, [8042]);
    (8035, [8043]); (8036, [8044]); (8037, [8045]); (8038, [8046]); (8039, [8047]);
    (8048, [8122]); (8049, [8123]); (8050, [8136]); (8051, [8137]); (8052, [8138]);
    (8053, [8139]); (8054, [8154]); (8055, [8155]); (8056, [8184]); (8057, [8185]);
    (8058, [8170]); (8059, [8171]); (8060, [8186]); (8061, [8187]); (8064, [8072]);
    (8065, [8073]); (8066, [8074]); (8067, [8075]); (8068, [8076]); (8069, [8077]);
    (8070, [8078]); (8071, [8079]); (8080, [8088]); (8081, [8089]); (8082, [8090]);
    (8083, [8091]); (8084, [8092]); (8085, [8093]); (8086, [8094]); (8087, [8095]);
    (8096, [8104]); (8097, [8105]); (8098, [8106]); (8099, [8107]); (8100, [8108]);
    (8101, [8109]); (8102, [8110]); (8103, [8111]); (8112, [8120]); (8113, [8121]);
    (8114, [8122; 837]); (8115, [8124]); (8116, [902; 837]); (8118, [913; 834]);
    (8119, [913; 834; 837]); (8126, [921]); (8130, [8138; 837]); (8131, [8140]);
    (8132, [905; 837]); (8134, [919; 834]); (8135, [919; 834; 837]); (8144, [8152]);
    (8145, [8153]); (8146, [921; 776; 768]); (8147, [921; 776; 769]); (8150, [921; 834]);
    (8151, [921; 776; 834]); (8160, [8168]); (8161, [8169]); (8162, [933; 776; 768]);
    (8163, [933; 776; 769]); (8164, [929; 787]); (8165, [8172]); (8166, [933; 834]);
    (8167, [933; 776; 834]); (8178, [8186; 837]); (8179, [8188]); (8180, [911; 837]);
    (8182, [937; 834]); (8183, [937; 834; 837]); (8526, [8498]); (8560, [8544]);
    (8561, [8545]); (8562, [8546]); (8563, [8547]); (8564, [8548]); (8565, [8549]);
    (8566, [8550]); (8567, [8551]); (8568, [8552]); (8569, [8553]); (8570, [8554]);
    (8571, [8555]); (8572, [8556]); (8573, [8557]); (8574, [8558]); (8575, [8559]);
    (8580, [8579]); (9424, [9398]); (9425, [9399]); (9426, [9400]); (9427, [9401]);
    (9428, [9402]); (9429, [9403]); (9430, [9404]); (9431, [9405]); (9432, [9406]);
    (9433, [9407]); (9434, [9408]); (9435, [9409]); (9436, [9410]); (9437, [9411]);
    (9438, [9412]); (9439, [9413]); (9440, [9414]); (9441, [9415]); (9442, [9416]);
    (9443, [9417]); (9444, [9418]); (9445, [9419]); (9446, [9420]); (9447, [9421]);
    (9448, [9422]); (9449, [9423]); (11312, [11264]); (11313, [11265]); (11314, [11266]);
    (11315, [11267]); (11316, [11268]); (11317, [11269]); (11318, [11270]); (11319, [11271]);
    (11320, [11272]); (11321, [11273]); (11322, [11274]); (11323, [11275]); (11324, [11276]);
    (11325, [11277]); (11326, [11278]); (11327, [11279]); (11328, [11280]); (11329, [11281]);
    (11330, [11282]); (11331, [11283]); (11332, [11284]); (11333, [11285]); (11334, [11286]);
    (11335, [11287]); (11336, [11288]); (11337, [11289]); (11338, [11290]); (11339, [11291]);
    (11340, [11292]); (11341, [11293]); (11342, [11294]); (11343, [11295]); (11344, [11296]);
    (11345, [11297]); (11346, [11298]); (11347, [11299]); (11348, [11300]); (11349, [11301]);
    (11350, [11302]); (11351, [11303]); (11352, [11304]); (11353, [11305]); (11354, [11306]);
    (11355, [11307]); (11356, [11308]); (11357, [11309]); (11358, [11310]); (11359, [11311]);
    (11361, [11360]); (11365, [570]); (11366, [574]); (11368, [11367]); (11370, [11369]);
    (11372, [11371]); (11379, [11378]); (11382, [11381]); (11393, [11392]); (11395, [11394]);
    (11397, [11396]); (11399, [11398]); (11401, [11400]); (11403, [11402]); (11405, [11404]);
    (11407, [11406]); (11409, [11408]); (11411, [11410]); (11413, [11412]); (11415, [11414]);
    (11417, [11416]); (11419, [11418]); (11421, [11420]); (11423, [11422]); (11425, [11424]);
    (11427, [11426]); (11429, [11428]); (11431, [11430]); (11433, [11432]); (11435, [11434]);
    (11437, [11436]); (11439, [11438]); (11441, [11440]); (11443, [11442]); (11445, [11444]);
    (11447, [11446]); (11449, [11448]); (11451, [11450]); (11453, [11452]); (11455, [11454]);
    (11457, [11456]); (11459, [11458]); (11461, [11460]); (11463, [11462]); (11465, [11464]);
    (11467, [11466]); (11469, [11468]); (11471, [11470]); (11473, [11472]); (11475, [11474]);
    (11477, [11476]); (11479, [11478]); (11481, [11480]); (11483, [11482]); (11485, [11484]);
    (11487, [11486]); (11489, [11488]); (11491, [11490]); (11500, [11499]); (11502, [11501]);
    (11507, [11506]); (11520, [4256]); (11521, [4257]); (11522, [4258]); (11523, [4259]);
    (11524, [4260]); (11525, [4261]); (11526, [4262]); (11527, [4263]); (11528, [4264]);
    (11529, [4265]); (11530, [4266]); (11531, [4267]); (11532, [4268]); (11533, [4269]);
    (11534, [4270]); (11535, [4271]); (11536, [4272]); (11537, [4273]); (11538, [4274]);
    (11539, [4275]); (11540, [4276]); (11541, [4277]); (11542, [4278]); (11543, [4279]);
    (11544, [4280]); (11545, [4281]); (11546, [4282]); (11547, [4283]); (11548, [4284]);
    (11549, [4285]); (11550, [4286]); (11551, [4287]); (11552, [4288]); (11553, [4289]);
    (11554, [4290]); (11555, [4291]); (11556, [4292]); (11557, [4293]); (11559, [4295]);
    (11565, [4301]); (42561, [42560]); (42563, [42562]); (42565, [42564]); (42567, [42566]);
    (42569, [42568]); (42571, [42570]); (42573, [42572]); (42575, [42574]); (42577, [42576]);
    (42579, [42578]); (42581, [42580]); (42583, [42582]); (42585, [42584]); (42587, [42586]);
    (42589, [42588]); (42591, [42590]); (42593, [42592]); (42595, [42594]); (42597, [42596]);
    (42599, [42598]); (42601, [42600]); (42603, [42602]); (42605, [42604]); (42625, [42624]);
    (42627, [42626]); (42629, [42628]); (42631, [42630]); (42633, [42632]); (42635, [42634]);
    (42637, [42636]); (42639, [42638]); (42641, [42640]); (42643, [42642]); (42645, [42644]);
    (42647, [42646]); (42649, [42648]); (42651, [42650]); (42787, [42786]); (42789, [42788]);
    (42791, [42790]); (42793, [42792]); (42795, [42794]); (42797, [42796]); (42799, [42798]);
    (42803, [42802]); (42805, [42804]); (42807, [42806]); (42809, [42808]); (42811, [42810]);
    (42813, [42812]); (42815, [42814]); (42817, [42816]); (42819, [42818]); (42821, [42820]);
    (42823, [42822]); (42825, [42824]); (42827, [42826]); (42829, [42828]); (42831, [42830]);
    (42833, [42832]); (42835, [42834]); (42837, [42836]); (42839, [42838]); (42841, [42840]);
    (42843, [42842]); (42845, [42844]); (42847, [42846]); (42849, [42848]); (42851, [42850]);
    (42853, [42852]); (42855, [42854]); (42857, [42856]); (42859, [42858]); (42861, [42860]);
    (42863, [42862]); (42874, [42873]); (42876, [42875]); (42879, [42878]); (42881, [42880]);
    (42883, [42882]); (42885, [42884]); (42887, [42886]); (42892, [42891]); (42897, [42896]);
    (42899, [42898]); (42900, [42948]); (42903, [42902]); (42905, [42904]); (42907, [42906]);
    (42909, [42908]); (42911, [42910]); (42913, [42912]); (42915, [42914]); (42917, [42916]);
    (42919, [42918]); (42921, [42920]); (42933, [42932]); (42935, [42934]); (42937, [42936]);
    (42939, [42938]); (42941, [42940]); (42943, [42942]); (42945, [42944]); (42947, [42946]);
    (42952, [42951]); (42954, [42953]); (42961, [42960]); (42967, [42966]); (42969, [42968]);
    (42998, [42997]); (43859, [42931]); (43888, [5024]); (43889, [5025]); (43890, [5026]);
    (43891, [5027]); (43892, [5028]); (43893, [5029]); (43894, [5030]); (43895, [5031]);
    (43896, [5032]); (43897, [5033]); (43898, [5034]); (43899, [5035]); (43900, [5036]);
    (43901, [5037]); (43902, [5038]); (43903, [5039]); (43904, [5040]); (43905, [5041]);
    (43906, [5042]); (43907, [5043]); (43908, [5044]); (43909, [5045]); (43910, [5046]);
    (43911, [5047]); (43912, [5048]); (43913, [5049]); (43914, [5050]); (43915, [5051]);
    (43916, [5052]); (43917, [5053]); (43918, [5054]); (43919, [5055]); (43920, [5056]);
    (43921, [5057]); (43922, [5058]); (43923, [5059]); (43924, [5060]); (43925, [5061]);
    (43926, [5062]); (43927, [5063]); (43928, [5064]); (43929, [5065]); (43930, [5066]);
    (43931, [5067]); (43932, [5068]); (43933, [5069]); (43934, [5070]); (43935, [5071]);
    (43936, [5072]); (43937, [5073]); (43938, [5074]); (43939, [5075]); (43940, [5076]);
    (43941, [5077]); (43942, [5078]); (43943, [5079]); (43944, [5080]); (43945, [5081]);
    (43946, [5082]); (43947, [5083]); (43948, [5084]); (43949, [5085]); (43950, [5086]);
    (43951, [5087]); (43952, [5088]); (43953, [5089]); (43954, [5090]); (43955, [5091]);
    (43956, [5092]); (43957, [5093]); (43958, [5094]); (43959, [5095]); (43960, [5096]);
    (43961, [5097]); (43962, [5098]); (43963, [5099]); (43964, [5100]); (43965, [5101]);
    (43966, [5102]); (43967, [5103]); (64256, [70; 102]); (64257, [70; 105]);
    (64258, [70; 108]); (64259, [70; 102; 105]); (64260, [70; 102; 108]); (64261, [83; 116]);
    (64262, [83; 116]); (64275, [1348; 1398]); (64276, [1348; 1381]); (64277, [1348; 1387]);
    (64278, [1358; 1398]); (64279, [1348; 1389]); (65345, [65313]); (65346, [65314]);
    (65347, [65315]); (65348, [65316]); (65349, [65317]); (65350, [65318]); (65351, [65319]);
    (65352, [65320]); (65353, [65321]); (65354, [65322]); (65355, [65323]); (65356, [65324]);
    (65357, [65325]); (65358, [65326]); (65359, [65327]); (65360, [65328]); (65361, [65329]);
    (65362, [65330]); (65363, [65331]); (65364, [65332]); (65365, [65333]); (65366, [65334]);
    (65367, [65335]); (65368, [65336]); (65369, [65337]); (65370, [65338]); (66600, [66560]);
    (66601, [66561]); (66602, [66562]); (66603, [66563]); (66604, [66564]); (66605, [66565]);
    (66606, [66566]); (66607, [66567]); (66608, [66568]); (66609, [66569]); (66610, [66570]);
    (66611, [66571]); (66612, [66572]); (66613, [66573]); (66614, [66574]); (66615, [66575]);
    (66616, [66576]); (66617, [66577]); (66618, [66578]); (66619, [66579]); (66620, [66580]);
    (66621, [66581]); (66622, [66582]); (66623, [66583]); (66624, [66584]); (66625, [66585]);
    (66626, [66586]); (66627, [66587]); (66628, [66588]); (66629, [66589]); (66630, [66590]);
    (66631, [66591]); (66632, [66592]); (66633, [66593]); (66634, [66594]); (66635, [66595]);
    (66636, [66596]); (66637, [66597]); (66638, [66598]); (66639, [66599]); (66776, [66736]);
    (66777, [66737]); (66778, [66738]); (66779, [66739]); (66780, [66740]); (66781, [66741]);
    (66782, [66742]); (66783, [66743]); (66784, [66744]); (66785, [66745]); (66786, [66746]);
    (66787, [66747]); (66788, [66748]); (66789, [66749]); (66790, [66750]); (66791, [66751]);
    (66792, [66752]); (66793, [66753]); (66794, [66754]); (66795, [66755]); (66796, [66756]);
    (66797, [66757]); (66798, [66758]); (66799, [66759]); (66800, [66760]); (66801, [66761]);
    (66802, [66762]); (66803, [66763]); (66804, [66764]); (66805, [66765]); (66806, [66766]);
    (66807, [66767]); (66808, [66768]); (66809, [66769]); (66810, [66770]); (66811, [66771]);
    (66967, [66928]); (66968, [66929]); (66969, [66930]); (66970, [66931]); (66971, [66932]);
    (66972, [66933]); (66973, [66934]); (66974, [66935]); (66975, [66936]); (66976, [66937]);
    (66977, [66938]); (66979, [66940]); (66980, [66941]); (66981, [66942]); (66982, [66943]);
    (66983, [66944]); (66984, [66945]); (66985, [66946]); (66986, [66947]); (66987, [66948]);
    (66988, [66949]); (66989, [66950]); (66990, [66951]); (66991, [66952]); (66992, [66953]);
    (66993, [66954]); (66995, [66956]); (66996, [66957]); (66997, [66958]); (66998, [66959]);
    (66999, [66960]); (67000, [66961]); (67001, [66962]); (67003, [66964]); (67004, [66965]);
    (68800, [68736]); (68801, [68737]); (68802, [68738]); (68803, [68739]); (68804, [68740]);
    (68805, [68741]); (68806, [68742]); (68807, [68743]); (68808, [68744]); (68809, [68745]);
    (68810, [68746]); (68811, [68747]); (68812, [68748]); (68813, [68749]); (68814, [68750]);
    (68815, [68751]); (68816, [68752]); (68817, [68753]); (68818, [68754]); (68819, [68755]);
    (68820, [68756]); (68821, [68757]); (68822, [68758]); (68823, [68759]); (68824, [68760]);
    (68825, [68761]); (68826, [68762]); (68827, [68763]); (68828, [68764]); (68829, [68765]);
    (68830, [68766]); (68831, [68767]); (68832, [68768]); (68833, [68769]); (68834, [68770]);
    (68835, [68771]); (68836, [68772]); (68837, [68773]); (68838, [68774]); (68839, [68775]);
    (68840, [68776]); (68841, [68777]); (68842, [68778]); (68843, [68779]); (68844, [68780]);
    (68845, [68781]); (68846, [68782]); (68847, [68783]); (68848, [68784]); (68849, [68785]);
    (68850, [68786]); (71872, [71840]); (71873, [71841]); (71874, [71842]); (71875, [71843]);
    (71876, [71844]); (71877, [71845]); (71878, [71846]); (71879, [71847]); (71880, [71848]);
    (71881, [71849]); (71882, [71850]); (71883, [71851]); (71884, [71852]); (71885, [71853]);
    (71886, [71854]); (71887, [71855]); (71888, [71856]); (71889, [71857]); (71890, [71858]);
    (71891, [71859]); (71892, [71860]); (71893, [71861]); (71894, [71862]); (71895, [71863]);
    (71896, [71864]); (71897, [71865]); (71898, [71866]); (71899, [71867]); (71900, [71868]);
    (71901, [71869]); (71902, [71870]); (71903, [71871]); (93792, [93760]); (93793, [93761]);
    (93794, [93762]); (93795, [93763]); (93796, [93764]); (93797, [93765]); (93798, [93766]);
    (93799, [93767]); (93800, [93768]); (93801, [93769]); (93802, [93770]); (93803, [93771]);
    (93804, [93772]); (93805, [93773]); (93806, [93774]); (93807, [93775]); (93808, [93776]);
    (93809, [93777]); (93810, [93778]); (93811, [93779]); (93812, [93780]); (93813, [93781]);
    (93814, [93782]); (93815, [93783]); (93816, [93784]); (93817, [93785]); (93818, [93786]);
    (93819, [93787]); (93820, [93788]); (93821, [93789]); (93822, [93790]); (93823, [93791]);
    (125218, [125184]); (125219, [125185]); (125220, [125186]); (125221, [125187]);
    (125222, [125188]); (125223, [125189]); (125224, [125190]); (125225, [125191]);
    (125226, [125192]); (125227, [125193]); (125228, [125194]); (125229, [125195]);
    (125230, [125196]); (125231, [125197]); (125232, [125198]); (125233, [125199]);
    (125234, [125200]); (125235, [125201]); (125236, [125202]); (125237, [125203]);
    (125238, [125204]); (125239, [125205]); (125240, [125206]); (125241, [125207]);
    (125242, [125208]); (125243, [125209]); (125244, [125210]); (125245, [125211]);
    (125246, [125212]); (125247, [125213]); (125248, [125214]); (125249, [125215]);
    (125250, [125216]); (125251, [125217])
  ].

Definition cased_ranges : list (char * char) :=
  [
    (65, 90); (97, 122); (170, 170); (181, 181); (186, 186); (192, 214); (216, 246);
    (248, 442); (444, 447); (452, 659); (661, 696); (704, 705); (736, 740); (837, 837);
    (880, 883); (886, 887); (890, 893); (895, 895); (902, 902); (904, 906); (908, 908);
    (910, 929); (931, 1013); (1015, 1153); (1162, 1327); (1329, 1366); (1376, 1416);
    (4256, 4293); (4295, 4295); (4301, 4301); (4304, 4346); (4349, 4351); (5024, 5109);
    (5112, 5117); (7296, 7304); (7312, 7354); (7357, 7359); (7424, 7615); (7680, 7957);
    (7960, 7965); (7968, 8005); (8008, 8013); (8016, 8023); (8025, 8025); (8027, 8027);
    (8029, 8029); (8031, 8061); (8064, 8116); (8118, 8124); (8126, 8126); (8130, 8132);
    (8134, 8140); (8144, 8147); (8150, 8155); (8160, 8172); (8178, 8180); (8182, 8188);
    (8305, 8305); (8319, 8319); (8336, 8348); (8450, 8450); (8455, 8455); (8458, 8467);
    (8469, 8469); (8473, 8477); (8484, 8484); (8486, 8486); (8488, 8488); (8490, 8493);
    (8495, 8500); (8505, 8505); (8508, 8511); (8517, 8521); (8526, 8526); (8544, 8575);
    (8579, 8580); (9398, 9449); (11264, 11492); (11499, 11502); (11506, 11507); (11520, 11557);
    (11559, 11559); (11565, 11565); (42560, 42605); (42624, 42653); (42786, 42887);
    (42891, 42894); (42896, 42954); (42960, 42961); (42963, 42963); (42965, 42969);
    (42997, 42998); (43000, 43002); (43824, 43866); (43868, 43880); (43888, 43967);
    (64256, 64262); (64275, 64279); (65313, 65338); (65345, 65370); (66560, 66639);
    (66736, 66771); (66776, 66811); (66928, 66938); (66940, 66954); (66956, 66962);
    (66964, 66965); (66967, 66977); (66979, 66993); (66995, 67001); (67003, 67004);
    (67456, 67456); (67459, 67461); (67463, 67504); (67506, 67514); (68736, 68786);
    (68800, 68850); (71840, 71903); (93760, 93823); (119808, 119892); (119894, 119964);
    (119966, 119967); (119970, 119970); (119973, 119974); (119977, 119980); (119982, 119993);
    (119995, 119995); (119997, 120003); (120005, 120069); (120071, 120074); (120077, 120084);
    (120086, 120092); (120094, 120121); (120123, 120126); (120128, 120132); (120134, 120134);
    (120138, 120144); (120146, 120485); (120488, 120512); (120514, 120538); (120540, 120570);
    (120572, 120596); (120598, 120628); (120630, 120654); (120656, 120686); (120688, 120712);
    (120714, 120744); (120746, 120770); (120772, 120779); (122624, 122633); (122635, 122654);
    (125184, 125251); (127280, 127305); (127312, 127337); (127344, 127369)
  ].

Definition case_ignorable_ranges : list (char * char) :=
  [
    (39, 39); (46, 46); (58, 58); (94, 94); (96, 96); (168, 168); (173, 173); (175, 175);
    (180, 180); (183, 184); (688, 879); (884, 885); (890, 890); (900, 901); (903, 903);
    (1155, 1161); (1369, 1369); (1375, 1375); (1425, 1469); (1471, 1471); (1473, 1474);
    (1476, 1477); (1479, 1479); (1524, 1524); (1536, 1541); (1552, 1562); (1564, 1564);
    (1600, 1600); (1611, 1631); (1648, 1648); (1750, 1757); (1759, 1768); (1770, 1773);
    (1807, 1807); (1809, 1809); (1840, 1866); (1958, 1968); (2027, 2037); (2042, 2042);
    (2045, 2045); (2070, 2093); (2137, 2139); (2184, 2184); (2192, 2193); (2200, 2207);
    (2249, 2306); (2362, 2362); (2364, 2364); (2369, 2376); (2381, 2381); (2385, 2391);
    (2402, 2403); (2417, 2417); (2433, 2433); (2492, 2492); (2497, 2500); (2509, 2509);
    (2530, 2531); (2558, 2558); (2561, 2562); (2620, 2620); (2625, 2626); (2631, 2632);
    (2635, 2637); (2641, 2641); (2672, 2673); (2677, 2677); (2689, 2690); (2748, 2748);
    (2753, 2757); (2759, 2760); (2765, 2765); (2786, 2787); (2810, 2815); (2817, 2817);
    (2876, 2876); (2879, 2879); (2881, 2884); (2893, 2893); (2901, 2902); (2914, 2915);
    (2946, 2946); (3008, 3008); (3021, 3021); (3072, 3072); (3076, 3076); (3132, 3132);
    (3134, 3136); (3142, 3144); (3146, 3149); (3157, 3158); (3170, 3171); (3201, 3201);
    (3260, 3260); (3263, 3263); (3270, 3270); (3276, 3277); (3298, 3299); (3328, 3329);
    (3387, 3388); (3393, 3396); (3405, 3405); (3426, 3427); (3457, 3457); (3530, 3530);
    (3538, 3540); (3542, 3542); (3633, 3633); (3636, 3642); (3654, 3662); (3761, 3761);
    (3764, 3772); (3782, 3782); (3784, 3789); (3864, 3865); (3893, 3893); (3895, 3895);
    (3897, 3897); (3953, 3966); (3968, 3972); (3974, 3975); (3981, 3991); (3993, 4028);
    (4038, 4038); (4141, 4144); (4146, 4151); (4153, 4154); (4157, 4158); (4184, 4185);
    (4190, 4192); (4209, 4212); (4226, 4226); (4229, 4230); (4237, 4237); (4253, 4253);
    (4348, 4348); (4957, 4959); (5906, 5908); (5938, 5939); (5970, 5971); (6002, 6003);
    (6068, 6069); (6071, 6077); (6086, 6086); (6089, 6099); (6103, 6103); (6109, 6109);
    (6155, 6159); (6211, 6211); (6277, 6278); (6313, 6313); (6432, 6434); (6439, 6440);
    (6450, 6450); (6457, 6459); (6679, 6680); (6683, 6683); (6742, 6742); (6744, 6750);
    (6752, 6752); (6754, 6754); (6757, 6764); (6771, 6780); (6783, 6783); (6823, 6823);
    (6832, 6862); (6912, 6915); (6964, 6964); (6966, 6970); (6972, 6972); (6978, 6978);
    (7019, 7027); (7040, 7041); (7074, 7077); (7080, 7081); (7083, 7085); (7142, 7142);
    (7144, 7145); (7149, 7149); (7151, 7153); (7212, 7219); (7222, 7223); (7288, 7293);
    (7376, 7378); (7380, 7392); (7394, 7400); (7405, 7405); (7412, 7412); (7416, 7417);
    (7468, 7530); (7544, 7544); (7579, 7679); (8125, 8125); (8127, 8129); (8141, 8143);
    (8157, 8159); (8173, 8175); (8189, 8190); (8203, 8207); (8216, 8217); (8228, 8228);
    (8231, 8231); (8234, 8238); (8288, 8292); (8294, 8303); (8305, 8305); (8319, 8319);
    (8336, 8348); (8400, 8432); (11388, 11389); (11503, 11505); (11631, 11631); (11647, 11647);
    (11744, 11775); (11823, 11823); (12293, 12293); (12330, 12333); (12337, 12341);
    (12347, 12347); (12441, 12446); (12540, 12542); (40981, 40981); (42232, 42237);
    (42508, 42508); (42607, 42610); (42612, 42621); (42623, 42623); (42652, 42655);
    (42736, 42737); (42752, 42785); (42864, 42864); (42888, 42890); (42994, 42996);
    (43000, 43001); (43010, 43010); (43014, 43014); (43019, 43019); (43045, 43046);
    (43052, 43052); (43204, 43205); (43232, 43249); (43263, 43263); (43302, 43309);
    (43335, 43345); (43392, 43394); (43443, 43443); (43446, 43449); (43452, 43453);
    (43471, 43471); (43493, 43494); (43561, 43566); (43569, 43570); (43573, 43574);
    (43587, 43587); (43596, 43596); (43632, 43632); (43644, 43644); (43696, 43696);
    (43698, 43700); (43703, 43704); (43710, 43711); (43713, 43713); (43741, 43741);
    (43756, 43757); (43763, 43764); (43766, 43766); (43867, 43871); (43881, 43883);
    (44005, 44005); (44008, 44008); (44013, 44013); (64286, 64286); (64434, 64450);
    (65024, 65039); (65043, 65043); (65056, 65071); (65106, 65106); (65109, 65109);
    (65279, 65279); (65287, 65287); (65294, 65294); (65306, 65306); (65342, 65342);
    (65344, 65344); (65392, 65392); (65438, 65439); (65507, 65507); (65529, 65531);
    (66045, 66045); (66272, 66272); (66422, 66426); (67456, 67461); (67463, 67504);
    (67506, 67514); (68097, 68099); (68101, 68102); (68108, 68111); (68152, 68154);
    (68159, 68159); (68325, 68326); (68900, 68903); (69291, 69292); (69446, 69456);
    (69506, 69509); (69633, 69633); (69688, 69702); (69744, 69744); (69747, 69748);
    (69759, 69761); (69811, 69814); (69817, 69818); (69821, 69821); (69826, 69826);
    (69837, 69837); (69888, 69890); (69927, 69931); (69933, 69940); (70003, 70003);
    (70016, 70017); (70070, 70078); (70089, 70092); (70095, 70095); (70191, 70193);
    (70196, 70196); (70198, 70199); (70206, 70206); (70367, 70367); (70371, 70378);
    (70400, 70401); (70459, 70460); (70464, 70464); (70502, 70508); (70512, 70516);
    (70712, 70719); (70722, 70724); (70726, 70726); (70750, 70750); (70835, 70840);
    (70842, 70842); (70847, 70848); (70850, 70851); (71090, 71093); (71100, 71101);
    (71103, 71104); (71132, 71133); (71219, 71226); (71229, 71229); (71231, 71232);
    (71339, 71339); (71341, 71341); (71344, 71349); (71351, 71351); (71453, 71455);
    (71458, 71461); (71463, 71467); (71727, 71735); (71737, 71738); (71995, 71996);
    (71998, 71998); (72003, 72003); (72148, 72151); (72154, 72155); (72160, 72160);
    (72193, 72202); (72243, 72248); (72251, 72254); (72263, 72263); (72273, 72278);
    (72281, 72283); (72330, 72342); (72344, 72345); (72752, 72758); (72760, 72765);
    (72767, 72767); (72850, 72871); (72874, 72880); (72882, 72883); (72885, 72886);
    (73009, 73014); (73018, 73018); (73020, 73021); (73023, 73029); (73031, 73031);
    (73104, 73105); (73109, 73109); (73111, 73111); (73459, 73460); (78896, 78904);
    (92912, 92916); (92976, 92982); (92992, 92995); (94031, 94031); (94095, 94111);
    (94176, 94177); (94179, 94180); (110576, 110579); (110581, 110587); (110589, 110590);
    (113821, 113822); (113824, 113827); (118528, 118573); (118576, 118598); (119143, 119145);
    (119155, 119170); (119173, 119179); (119210, 119213); (119362, 119364); (121344, 121398);
    (121403, 121452); (121461, 121461); (121476, 121476); (121499, 121503); (121505, 121519);
    (122880, 122886); (122888, 122904); (122907, 122913); (122915, 122916); (122918, 122922);
    (123184, 123197); (123566, 123566); (123628, 123631); (125136, 125142); (125252, 125259);
    (127995, 127999); (917505, 917505); (917536, 917631); (917760, 917999)
  ].

(** The value of a decimal digit ([Py_UNICODE_TODECIMAL]), of any script. *)
Fixpoint decimal_from (zeros : list char) (c : char) : option N :=
  match zeros with
  | [] => None
  | z :: rest => if between z (z + 9) c then Some (c - z) else decimal_from rest c
  end.
Definition decimal_value (c : char) : option N := decimal_from decimal_zeros c.

(** The class [\d] of a [str] pattern. *)
Definition is_digit (c : char) : bool :=
  match decimal_value c with
  | Some _ => true
  | None => false
  end.

(** [_PyUnicode_ToLowerFull] and [_PyUnicode_ToTitleFull]: a character
    without an entry is its own image. *)
Definition to_lower_full (c : char) : list char := default [c] (assoc c lower_table).
Definition to_title_full (c : char) : list char := default [c] (assoc c title_table).

Definition is_cased (c : char) : bool := in_ranges c cased_ranges.
Definition is_case_ignorable (c : char) : bool := in_ranges c case_ignorable_ranges.

Arguments is_space : simpl never.
Arguments decimal_value : simpl never.
Arguments is_digit : simpl never.
Arguments to_lower_full : simpl never.
Arguments to_title_full : simpl never.
Arguments is_cased : simpl never.
Arguments is_case_ignorable : simpl never.

End Unicode.

(** ** The methods of [str] *)

Module PyStr.
Import Unicode.

Definition is_empty (s : pystr) : bool :=
  match s with Nil => true | Chr _ _ => false end.

Fixpoint lstrip (s : pystr) : pystr :=
  match s with
  | Nil => Nil
  | Chr c t => if is_space c then lstrip t else s
  end.

Fixpoint rstrip (s : pystr) : pystr :=
  match s with
  | Nil => Nil
  | Chr c t =>
      let t' := rstrip t in
      if is_space c && is_empty t' then Nil else Chr c t'
  end.

(** [s.strip()] *)
Definition strip (s : pystr) : pystr := rstrip (lstrip s).

(** The second half of the Final_Sigma test: no cased letter follows,
    case-ignorable characters aside. *)
Fixpoint no_cased_ahead (rest : pystr) : bool :=
  match rest with
  | Nil => true
  | Chr c t => if is_case_ignorable c then no_cased_ahead t else negb (is_cased c)
  end.

(** [lower_ucs4]: the lower case of [c]. A capital sigma (931) becomes a
    final sigma (962) when a cased letter stands before it and none
    after it, case-ignorable characters aside; [after_cased] says whether
    the nearest character before [c] that is not case-ignorable is
    cased, and [rest] is what follows [c]. *)
Definition lower_ucs4 (after_cased : bool) (c : char) (rest : pystr) : list char :=
  if (c =? 931)%N then [if after_cased && no_cased_ahead rest then 962%N else 963%N]
  else to_lower_full c.

(** What [after_cased] is behind the character [c]. *)
Definition cased_behind (after_cased : bool) (c : char) : bool :=
  if is_case_ignorable c then after_cased else is_cased c.

Fixpoint lower_from (after_cased : bool) (s : pystr) : pystr :=
  match s with
  | Nil => Nil
  | Chr c t => prepend (lower_ucs4 after_cased c t) (lower_from (cased_behind after_cased c) t)
  end.

(** [s.lower()] *)
Definition lower (s : pystr) : pystr := lower_from false s.

(** [s.title()]: a character that follows a cased character is
    lower-cased, any other character is title-cased. *)
Fixpoint title_from (previous_is_cased after_cased : bool) (s : pystr) : pystr :=
  match s with
  | Nil => Nil
  | Chr c t =>
      prepend (if previous_is_cased then lower_ucs4 after_cased c t else to_title_full c)
              (title_from (is_cased c) (cased_behind after_cased c) t)
  end.
Definition title (s : pystr) : pystr := title_from false false s.

(** [s.startswith(w)] *)
Fixpoint prefix (w s : pystr) : bool :=
  match w, s with
  | Nil, _ => true
  | Chr _ _, Nil => false
  | Chr c w', Chr d s' => (c =? d)%N && prefix w' s'
  end.

(** [w in s] for two strings. *)
Fixpoint contains (w s : pystr) : bool :=
  prefix w s ||
  match s with
  | Nil => false
  | Chr _ t => contains w t
  end.

(** [any(w in s for w in ws)] *)
Definition contains_any (ws : list pystr) (s : pystr) : bool :=
  existsb (fun w => contains w s) ws.

(** [s in (t1, t2, ...)] *)
Definition one_of (ts : list pystr) (s : pystr) : bool :=
  existsb (eqb s) ts.

(** [s.replace(c, '')] for a one-character [c]. *)
Fixpoint remove_char (c : char) (s : pystr) : pystr :=
  match s with
  | Nil => Nil
  | Chr d t =>
      if (c =? d)%N then remove_char c t else Chr d (remove_char c t)
  end.

Fixpoint all_chars (p : char -> bool) (s : pystr) : bool :=
  match s with
  | Nil => true
  | Chr c t => p c && all_chars p t
  end.

Fixpoint any_char (p : char -> bool) (s : pystr) : bool :=
  match s with
  | Nil => false
  | Chr c t => p c || any_char p t
  end.

Definition starts_with (p : char -> bool) (s : pystr) : bool :=
  match s with
  | Nil => false
  | Chr c _ => p c
  end.

Fixpoint ends_with (p : char -> bool) (s : pystr) : bool :=
  match s with
  | Nil => false
  | Chr c t => if is_empty t then p c else ends_with p t
  end.

(** [re.findall(cls+, s)] for a one-character class [cls]: the maximal
    runs of class characters, left to right. *)
Fixpoint findall (cls : char -> bool) (s : pystr) : list pystr :=
  match s with
  | Nil => []
  | Chr c t =>
      if cls c then
        if starts_with cls t then
          match findall cls t with
          | r :: rs => Chr c r :: rs
          | [] => [Chr c Nil]
          end
        else Chr c Nil :: findall cls t
      else findall cls t
  end.

(** [s.split()]: the maximal runs of characters that are not white space. *)
Fixpoint split_from (word : pystr) (s : pystr) : list pystr :=
  match s with
  | Nil => if is_empty word then [] else [word]
  | Chr c t =>
      if is_space c
      then (if is_empty word then [] else [word]) ++ split_from Nil t
      else split_from (word +:+ Chr c Nil) t
  end.
Definition split (s : pystr) : list pystr := split_from Nil s.

(** [sep.join(ws)] *)
Fixpoint join (sep : pystr) (ws : list pystr) : pystr :=
  match ws with
  | [] => Nil
  | [w] => w
  | w :: ws' => w +:+ sep +:+ join sep ws'
  end.

End PyStr.

(** ** Exceptions

    The subclasses of [Exception] the modelled code can raise; a
    computation that may raise returns a [result]. *)

Inductive exn :=
| RequestException
| KeyError
| AttributeError
| TypeError
| IndexError
| OverflowError
| UnicodeEncodeError
| ProgrammingError
| OtherError (msg : pystr).

Definition result (A : Type) : Type := exn + A.

Definition raise {A} (e : exn) : result A := inl e.
Definition ret {A} (a : A) : result A := inr a.
Definition bind {A B} (m : result A) (k : A -> result B) : result B :=
  match m with
  | inl e => inl e
  | inr a => k a
  end.

Notation "'do' x <- m ; k" := (bind m (fun x => k))
  (at level 10, x name, m at level 100, k at level 200).

(** What a computation returned, if it did not raise. *)
Definition returned {A} (m : result A) : option A :=
  match m with
  | inr a => Some a
  | inl _ => None
  end.

(** ** Python floats

    A finite binary64 value is kept as the rational it denotes; an empty
    numeric cell (NaN) is the [None] of [option pyfloat]. *)

Inductive pyfloat := Finite (q : Q) | PosInf | NegInf.

Definition of_Z (z : Z) : pyfloat := Finite (inject_Z z).

(** [x > k] for an integer literal [k]. *)
Definition float_gt (x : pyfloat) (k : Z) : bool :=
  match x with
  | Finite q => negb (Qle_bool q (inject_Z k))
  | PosInf => true
  | NegInf => false
  end.

(** The binary64 value nearest to a natural number (ties to even): exact
    below 2^53, a multiple of 2^e above, infinite from 2^1024 on. *)
Definition round_binary64 (n : Z) : pyfloat :=
  if (n <? 2 ^ 53)%Z then of_Z n
  else
    let e := (Z.log2 n - 52)%Z in
    let q := Z.shiftr n e in
    let r := Z.land n (Z.ones e) in
    let half := Z.shiftl 1 (e - 1) in
    let q' := if (half <? r)%Z || ((r =? half)%Z && Z.odd q) then (q + 1)%Z else q in
    let v := Z.shiftl q' e in
    if (2 ^ 1024 <=? v)%Z then PosInf else of_Z v.

(** The number a string of decimal digits, of any scripts, denotes. *)
Fixpoint digits_value (acc : Z) (s : pystr) : Z :=
  match s with
  | Nil => acc
  | Chr c t =>
      digits_value (10 * acc + Z.of_N (default 0%N (Unicode.decimal_value c)))%Z t
  end.

(** [float(s)] on the strings that reach it in this program, which hold
    decimal digits only: the empty string raises [ValueError], any other
    one is the correctly rounded value of the numeral. *)
Inductive float_result := FloatOk (x : pyfloat) | FloatValueError.

Definition float (s : pystr) : float_result :=
  if PyStr.is_empty s then FloatValueError
  else FloatOk (round_binary64 (digits_value 0 s)).

(** ** The values of a decoded JSON document

    What [response.json()] returns: [None], a [bool], an [int] of any
    size, a [float], a [str], a [list] or a [dict], the members of a dict
    in their order. *)

(** A float: a number, infinite or finite, the negative zero, or NaN. *)
Inductive jfloat := FNum (x : pyfloat) | FNegZero | FNaN.

#[warnings="-register-all"]
Inductive json :=
| JNull
| JBool (b : bool)
| JInt (z : Z)
| JFloat (x : jfloat)
| JStr (s : pystr)
| JList (items : list json)
| JDict (members : list (pystr * json)).

(** ** database.py: the raw tables *)

Module database.

(** UTF-8 has no encoding for a surrogate code point (D800 to DFFF). *)
Definition encodable (s : pystr) : bool :=
  PyStr.all_chars (fun c => negb (Unicode.between 55296 57343 c)) s.

(** A [str] bound to a [?]: sqlite3 encodes it as UTF-8. *)
Definition bind_text (s : pystr) : result pystr :=
  if encodable s then ret s else raise UnicodeEncodeError.

(** [CREATE TABLE merojob_raw (..., PRIMARY KEY (id, scraped_at))]; every
    column is declared TEXT. *)
Record merojob_row := {
  id : pystr;
  title : option pystr;
  company : option pystr;
  location : option pystr;
  categories : option pystr;
  deadline : option pystr;
  job_level : option pystr;
  vacancies : option pystr;
  salary_min : option pystr;
  salary_max : option pystr;
  currency : option pystr;
  skills : option pystr;
  job_url : option pystr;
  scraped_at : pystr
}.

(** [CREATE TABLE kumari_raw (..., PRIMARY KEY (job_id, scraped_at))] *)
Record kumari_row := {
  k_job_id : pystr;
  k_job_title : option pystr;
  k_company : option pystr;
  k_link : option pystr;
  k_salary : option pystr;
  k_experience : option pystr;
  k_industry : option pystr;
  k_job_level : option pystr;
  k_education : option pystr;
  k_scraped_at : pystr
}.

Definition merojob_key (r : merojob_row) : pystr * pystr := (id r, scraped_at r).
Definition kumari_key (r : kumari_row) : pystr * pystr := (k_job_id r, k_scraped_at r).

(** [INSERT OR IGNORE]: a row whose primary key is already stored is
    dropped without an error, any other row is appended. *)
Definition insert_or_ignore {R} (key : R -> pystr * pystr) (r : R) (tbl : list R) : list R :=
  if bool_decide (key r ∈ key <$> tbl) then tbl else tbl ++ [r].

(** The table after the rows have been offered one by one. *)
Definition insert_all {R} (key : R -> pystr * pystr) (rows : list R) (tbl : list R) : list R :=
  foldl (fun tbl r => insert_or_ignore key r tbl) tbl rows.

(** [job.get(k, d)] *)
Definition get {V} (job : gmap pystr V) (k : pystr) (d : V) : V := default d (job !! k).

(** The message of a skipped record shows its id. Standard output is
    UTF-8, as the emoji of the other messages need it to be, and cannot
    encode a lone surrogate; [repr] escapes one, so only an id that is a
    [str] can make [print] raise. The text of the exception caught is
    ASCII. *)
Definition id_prints (v : json) : bool :=
  match v with
  | JStr s => encodable s
  | _ => true
  end.

Definition print_id (v : json) : result unit :=
  if id_prints v then ret tt else raise UnicodeEncodeError.

Section Save.
(** The loop of the two save functions: [tuple] gives the row of the
    [INSERT] of one record or the exception of the [INSERT], [handler]
    is the [except] branch. *)
Context {J R : Type}.
Variable key : R -> pystr * pystr.
Variable tuple : J -> result R.
Variable handler : J -> result unit.

(** [for job in batch: try: INSERT OR IGNORE; saved += 1
    except Exception: print(...)] *)
Fixpoint save_loop (batch : list J) (tbl : list R) (saved : nat) : result (list R * nat) :=
  match batch with
  | [] => ret (tbl, saved)
  | job :: batch =>
      match tuple job with
      | inr row => save_loop batch (insert_or_ignore key row tbl) (S saved)
      | inl _ => do _ <- handler job; save_loop batch tbl saved
      end
  end.

(** The table after the call, and [saved] or the exception that leaves
    the function: [conn.commit()] comes after the loop, so an exception
    that leaves the loop leaves the table as it was. *)
Definition save (batch : list J) (tbl : list R) : list R * result nat :=
  match save_loop batch tbl 0 with
  | inr (tbl', saved) => (tbl', ret saved)
  | inl e => (tbl, raise e)
  end.
End Save.

Section Renderings.
(** [repr(v)], which is what [str(v)] returns for a float, a list and a
    dict. *)
Variable repr : json -> pystr.
(** The text SQLite converts a REAL to before it stores it in a TEXT
    column. *)
Variable real_text : jfloat -> pystr.

(** [str(v)] *)
Definition str (v : json) : pystr :=
  match v with
  | JNull => "None"
  | JBool true => "True"
  | JBool false => "False"
  | JInt z => decimal z
  | JStr s => s
  | JFloat _ | JList _ | JDict _ => repr v
  end.

(** The cell a TEXT column holds for a value bound to a [?], or the
    exception sqlite3 raises for it: an [int] outside 64 bits cannot be
    converted, a [str] with a surrogate cannot be encoded, a list and a
    dict are of no supported type; NaN is stored as NULL, [True] and
    [False] as the integers they are. *)
Definition bind_parameter (v : json) : result (option pystr) :=
  match v with
  | JNull => ret None
  | JBool b => ret (Some (if b then "1" else "0"))
  | JInt z =>
      if ((- 2 ^ 63 <=? z) && (z <? 2 ^ 63))%Z then ret (Some (decimal z))
      else raise OverflowError
  | JFloat FNaN => ret None
  | JFloat x => ret (Some (real_text x))
  | JStr s => do s <- bind_text s; ret (Some s)
  | JList _ | JDict _ => raise ProgrammingError
  end.

(** The row of one [INSERT] of [save_merojob_data]: the parameters are
    bound in their order, and the first that cannot be bound raises. The
    timestamp is an ISO date and binds. *)
Definition merojob_tuple (job : gmap pystr json) (scraped_at : pystr) : result merojob_row :=
  do id <- bind_text (str (get job "id" (JStr "")));
  do title <- bind_parameter (get job "title" (JStr "N/A"));
  do company <- bind_parameter (get job "company" (JStr "N/A"));
  do location <- bind_parameter (get job "location" (JStr "N/A"));
  do categories <- bind_parameter (get job "categories" (JStr "N/A"));
  do deadline <- bind_parameter (get job "deadline" (JStr "N/A"));
  do job_level <- bind_parameter (get job "job_level" (JStr "N/A"));
  do vacancies <- bind_text (str (get job "vacancies" (JStr "N/A")));
  do salary_min <- bind_text (str (get job "salary_min" (JStr "N/A")));
  do salary_max <- bind_text (str (get job "salary_max" (JStr "N/A")));
  do currency <- bind_parameter (get job "currency" (JStr "N/A"));
  do skills <- bind_parameter (get job "skills" (JStr ""));
  do job_url <- bind_parameter (get job "job_url" (JStr ""));
  ret {| id := id; title := title; company := company; location := location;
         categories := categories; deadline := deadline; job_level := job_level;
         vacancies := Some vacancies; salary_min := Some salary_min;
         salary_max := Some salary_max; currency := currency; skills := skills;
         job_url := job_url; scraped_at := scraped_at |}.

(** [save_merojob_data(jobs_list)], with the clock reading [scraped_at]
    taken once before the loop; the result is the table and [saved]. A
    job whose [INSERT] raises is skipped and not counted, with the
    message [Skip MeroJob id={job.get('id')}: {e}]. *)
Definition save_merojob_data (scraped_at : pystr) (jobs_list : list (gmap pystr json))
    (tbl : list merojob_row) : list merojob_row * result nat :=
  save merojob_key
       (fun job => merojob_tuple job scraped_at)
       (fun job => print_id (get job "id" JNull))
       jobs_list tbl.

(** The rows of a batch whose [INSERT] does not raise, in the order of
    the batch. *)
Definition merojob_rows (scraped_at : pystr) (jobs_list : list (gmap pystr json))
    : list merojob_row :=
  omap (fun job => returned (merojob_tuple job scraped_at)) jobs_list.
End Renderings.

(** The row of one [INSERT] of [save_kumari_data]; the values of a
    KumariJob entry are strings. *)
Definition kumari_tuple (job_id : pystr) (job : gmap pystr pystr) (scraped_at : pystr)
    : result kumari_row :=
  do job_id <- bind_text job_id;
  do job_title <- bind_text (get job "Job Title" "N/A");
  do company <- bind_text (get job "Company" "N/A");
  do link <- bind_text (get job "Link" "N/A");
  do salary <- bind_text (get job "Salary" "N/A");
  do experience <- bind_text (get job "Experience" "N/A");
  do industry <- bind_text (get job "Industry" "N/A");
  do job_level <- bind_text (get job "Job Level" "N/A");
  do education <- bind_text (get job "Education" "N/A");
  ret {| k_job_id := job_id; k_job_title := Some job_title; k_company := Some company;
         k_link := Some link; k_salary := Some salary; k_experience := Some experience;
         k_industry := Some industry; k_job_level := Some job_level;
         k_education := Some education; k_scraped_at := scraped_at |}.

(** [save_kumari_data(jobs_dict)]; [jobs_dict] is given as its items in
    insertion order. The message of a skipped entry is
    [Skip KumariJob id={job_id}: {e}]. *)
Definition save_kumari_data (scraped_at : pystr) (jobs_dict : list (pystr * gmap pystr pystr))
    (tbl : list kumari_row) : list kumari_row * result nat :=
  save kumari_key
       (fun '(job_id, job) => kumari_tuple job_id job scraped_at)
       (fun '(job_id, job) => print_id (JStr job_id))
       jobs_dict tbl.

Definition kumari_rows (scraped_at : pystr) (jobs_dict : list (pystr * gmap pystr pystr))
    : list kumari_row :=
  omap (fun item => returned (kumari_tuple item.1 item.2 scraped_at)) jobs_dict.

End database.

(** ** clean_data.py: the field normalizer and the reconciler *)

Module clean_data.
Import Unicode PyStr.

(** The abbreviation dictionary of [clean_location]. *)
Definition abbreviations : list (pystr * pystr) :=
  [ ("KTM", "Kathmandu"); ("Ktm", "Kathmandu"); ("ktm", "Kathmandu");
    ("Kathmandu Valley", "Kathmandu");
    ("PKR", "Pokhara"); ("PKR.", "Pokhara"); ("Pkr", "Pokhara");
    ("BKT", "Bhaktapur"); ("Bkt", "Bhaktapur");
    ("LLT", "Lalitpur"); ("Llt", "Lalitpur"); ("Patan", "Lalitpur");
    ("BRT", "Birgunj"); ("BTW", "Butwal") ].
Definition mapping : gmap pystr pystr := list_to_map abbreviations.

Definition clean_location (loc : option pystr) : pystr :=
  match loc with
  | None => "Unknown"
  | Some loc =>
      let loc := strip loc in
      if is_empty loc || one_of ["n/a"; "na"; ""] (lower loc) then "Unknown"
      else default loc (mapping !! loc)
  end.

(** The character class of the pattern [[\d,]+]. *)
Definition digit_or_comma (c : char) : bool := is_digit c || (c =? 44)%N.

(** [float(run.replace(',', ''))] under [try ... except ValueError: return None] *)
Definition parse_run (run : pystr) : option pyfloat :=
  match float (remove_char 44 run) with
  | FloatOk x => Some x
  | FloatValueError => None
  end.

Definition extract_salary_min (salary_str : option pystr) : option pyfloat :=
  match salary_str with
  | None => None
  | Some salary_str =>
      let nums := findall digit_or_comma salary_str in
      match nums with
      | run :: _ => parse_run run
      | [] => None
      end
  end.

Definition extract_salary_max (salary_str : option pystr) : option pyfloat :=
  match salary_str with
  | None => None
  | Some salary_str =>
      let nums := findall digit_or_comma salary_str in
      match nums with
      | _ :: run :: _ => parse_run run
      | _ => None
      end
  end.

Definition standardize_job_level (level_str : option pystr) : pystr :=
  match level_str with
  | None => "Not Specified"
  | Some level_str =>
      let level_lower := lower level_str in
      if contains_any ["entry"; "junior"; "fresher"; "fresh"; "graduate"] level_lower
      then "Entry Level"
      else if contains_any ["mid"; "intermediate"; "associate"] level_lower
      then "Mid Level"
      else if contains_any ["senior"; "sr."; "lead"; "principal"] level_lower
      then "Senior Level"
      else if contains_any ["manager"; "head"; "director"; "vp"; "chief"; "ceo"; "cto"] level_lower
      then "Management"
      else if one_of ["n/a"; "na"; ""; "not specified"] level_lower
      then "Not Specified"
      else title (strip level_str)
  end.

(** *** The pandas column operations used by [clean_and_merge] *)

(** [col.str.strip()] and [col.str.title()]: a missing cell stays missing. *)
Definition str_strip (cell : option pystr) : option pystr := strip <$> cell.
Definition str_title (cell : option pystr) : option pystr := title <$> cell.
(** [col.fillna(d)] *)
Definition fillna (d : pystr) (cell : option pystr) : pystr := default d cell.
(** [col.replace(old, new)]: a cell equal to [old] becomes [new]. *)
Definition replace (old new cell : pystr) : pystr :=
  if eqb cell old then new else cell.

(** [df[c] = scalar] fills the rows the frame has at that moment. *)
Definition broadcast (nrows : nat) (v : pystr) : list (option pystr) :=
  replicate nrows (Some v).
(** The first Series assigned to a frame without rows gives the frame its
    index; the columns it already has are padded with NaN. *)
Definition reindex (nrows : nat) (col : list (option pystr)) : list (option pystr) :=
  take nrows (col ++ replicate nrows None).

(** A row of the frame, without its date columns ([deadline],
    [scraped_at], [scrape_date]): no quality gate reads them, and they
    are added by [date_columns] below. *)
Record clean_row := {
  source : option pystr;
  job_id : pystr;
  title : option pystr;
  company : pystr;
  location : pystr;
  category : pystr;
  job_level : pystr;
  skills : pystr;
  salary_min : option pyfloat;
  salary_max : option pyfloat;
  currency : pystr;
  job_url : option pystr;
  experience : pystr;
  education : pystr
}.

(** The date columns of a row of [jobs_clean], as the strings that are
    written to the database. *)
Record date_cells := {
  deadline : pystr;
  scraped_at : pystr;
  scrape_date : pystr
}.

(** *** Data quality steps *)

(** 1. [title.notna() & (title.str.strip() != '') & (title != 'N/A')] *)
Definition has_title (r : clean_row) : bool :=
  match title r with
  | None => false
  | Some t => negb (is_empty (strip t)) && negb (eqb t "N/A")
  end.

Definition drop_missing_title (df : list clean_row) : list clean_row :=
  List.filter has_title df.

(** 2. [df.drop_duplicates(subset=['title', 'company', 'source'])] keeps
    the first row of every key; two missing cells count as equal. *)
Definition subset (r : clean_row) : option pystr * pystr * option pystr :=
  (title r, company r, source r).

Fixpoint drop_duplicates_from (seen : list (option pystr * pystr * option pystr))
    (df : list clean_row) : list clean_row :=
  match df with
  | [] => []
  | r :: df' =>
      if bool_decide (subset r ∈ seen) then drop_duplicates_from seen df'
      else r :: drop_duplicates_from (subset r :: seen) df'
  end.

Definition drop_duplicates (df : list clean_row) : list clean_row :=
  drop_duplicates_from [] df.

(** 3. [df.loc[df[c] > 10_000_000, c] = None] *)
Definition cap (x : option pyfloat) : option pyfloat :=
  match x with
  | Some v => if float_gt v 10000000 then None else Some v
  | None => None
  end.

Definition cap_row (r : clean_row) : clean_row :=
  {| source := source r; job_id := job_id r; title := title r; company := company r;
     location := location r; category := category r; job_level := job_level r;
     skills := skills r;
     salary_min := cap (salary_min r);
     salary_max := cap (salary_max r);
     currency := currency r; job_url := job_url r;
     experience := experience r; education := education r |}.

Definition cap_outliers (df : list clean_row) : list clean_row := cap_row <$> df.

(** The quality gates, in the order the function applies them. *)
Definition quality_steps (df : list clean_row) : list clean_row :=
  cap_outliers (drop_duplicates (drop_missing_title df)).

(** The frame with its date columns: row [i] gets the cells [dates i]. *)
Definition with_dates (dates : nat -> date_cells) (df : list clean_row)
    : list (clean_row * date_cells) :=
  imap (fun i r => (r, dates i)) df.

(** The database file: the two raw tables and [jobs_clean], which does
    not exist before the first successful rebuild. A raw table that does
    not exist reads as an empty one. *)
Record Db := {
  merojob_raw : list database.merojob_row;
  kumari_raw : list database.kumari_row;
  jobs_clean : option (list (clean_row * date_cells))
}.

Section Normalizer.
(** [pd.to_numeric(cell, errors='coerce')], pandas' own numeric parser. *)
Variable to_numeric : option pystr -> option pyfloat.

(** pandas' handling of dates: [pd.to_datetime(col, errors='coerce')] on
    the raw [deadline] and [scraped_at] columns while the frames are
    built and, after the quality gates, [.dt.date.astype(str)] and
    [strftime] on the rows that are left. From the raw tables and the
    frame that passed the gates it gives the date cells of every row of
    that frame, by position, or the exception pandas raises on the way. *)
Variable date_columns :
  list database.merojob_row -> list database.kumari_row -> list clean_row ->
  result (nat -> date_cells).

Definition mero_clean_row (source : option pystr) (mero : database.merojob_row) : clean_row :=
  {| source := source;
     job_id := "mj_" +:+ database.id mero;
     title := str_title (str_strip (database.title mero));
     company := fillna "Unknown Company" (str_strip (database.company mero));
     location := clean_location (database.location mero);
     category := replace "" "Unknown" (fillna "Unknown" (database.categories mero));
     job_level := standardize_job_level (database.job_level mero);
     skills := fillna "" (database.skills mero);
     salary_min := to_numeric (database.salary_min mero);
     salary_max := to_numeric (database.salary_max mero);
     currency := fillna "NPR" (database.currency mero);
     job_url := database.job_url mero;
     experience := "N/A";
     education := "N/A" |}.

(** [mero_clean]: [source] is assigned to the frame while it has no
    rows, [job_id] is the first Series assigned. *)
Definition mero_clean (mero : list database.merojob_row) : list clean_row :=
  zip_with mero_clean_row (reindex (length mero) (broadcast 0 "merojob")) mero.

Definition kumari_clean_row (source : option pystr) (kumari : database.kumari_row) : clean_row :=
  {| source := source;
     job_id := "kj_" +:+ database.k_job_id kumari;
     title := str_title (str_strip (database.k_job_title kumari));
     company := fillna "Unknown Company" (str_strip (database.k_company kumari));
     location := "Kathmandu";
     category := replace "" "Unknown" (fillna "Unknown" (database.k_industry kumari));
     job_level := standardize_job_level (database.k_job_level kumari);
     skills := "";
     salary_min := extract_salary_min (database.k_salary kumari);
     salary_max := extract_salary_max (database.k_salary kumari);
     currency := "NPR";
     job_url := database.k_link kumari;
     experience := fillna "N/A" (database.k_experience kumari);
     education := fillna "N/A" (database.k_education kumari) |}.

Definition kumari_clean (kumari : list database.kumari_row) : list clean_row :=
  zip_with kumari_clean_row (reindex (length kumari) (broadcast 0 "kumarijob")) kumari.

(** [pd.concat(cleaned_frames)]: MeroJob's rows, then KumariJob's. *)
Definition cleaned_frames (mero : list database.merojob_row)
    (kumari : list database.kumari_row) : list clean_row :=
  mero_clean mero ++ kumari_clean kumari.

(** [clean_and_merge()]: the database after the call and the frame
    returned, or the exception that leaves the function; [jobs_clean] is
    written last, so an exception leaves the database as it was. With no
    raw row at all nothing is parsed and nothing is written. *)
Definition clean_and_merge (db : Db) : result (Db * list (clean_row * date_cells)) :=
  match merojob_raw db, kumari_raw db with
  | [], [] => ret (db, [])
  | mero, kumari =>
      let df := quality_steps (cleaned_frames mero kumari) in
      do dates <- date_columns mero kumari df;
      let df := with_dates dates df in
      ret ({| merojob_raw := merojob_raw db; kumari_raw := kumari_raw db;
              jobs_clean := Some df |}, df)
  end.
End Normalizer.

End clean_data.

(** ** scrape_kumari.py: the card extractor, the merger and the coordinator *)

Module scrape_kumari.
Import PyStr.

(** *** Insertion-ordered dicts, as [jobs_map] is iterated *)

Fixpoint dict_get {V} (k : pystr) (d : list (pystr * V)) : option V :=
  match d with
  | [] => None
  | (k', v) :: d' => if eqb k k' then Some v else dict_get k d'
  end.

(** [d[k] = v]: an existing key keeps its place, a new key goes last. *)
Fixpoint dict_set {V} (k : pystr) (v : V) (d : list (pystr * V)) : list (pystr * V) :=
  match d with
  | [] => [(k, v)]
  | (k', v') :: d' =>
      if eqb k k' then (k', v) :: d' else (k', v') :: dict_set k v d'
  end.

(** *** A job card of the listing page, as BeautifulSoup presents it *)

(** [<h5>]: its text and, when it holds an [<a>], that tag's [href]
    attribute if it has one. *)
Record h5_tag := { h5_text : pystr; h5_a : option (option pystr) }.
(** The [job-info] element: its text and its [href] attribute if any. *)
Record job_info_tag := { info_text : pystr; info_href : option pystr }.

Record card := {
  data_jobid : pystr;
  h5 : option h5_tag;
  h6 : option pystr;
  job_info : option job_info_tag;
  featured_job_company_name : option pystr;
  (** the logo figure, its [<img>] if any, the image's [alt] if any *)
  featured_job_company_logo : option (option (option pystr));
  (** [<ul class="description">]: the stripped text of every [<li>] *)
  description : option (list pystr)
}.

(** Title, company and link of a card (strategies 1 and 2). Indexing an
    [<a>] that has no [href] raises [KeyError]. *)
Definition extract_fields (c : card) : result (pystr * pystr * pystr) :=
  match h5 c with
  | Some title_tag =>
      let job_title := h5_text title_tag in
      do job_link <- match h5_a title_tag with
                     | Some (Some href) => ret href
                     | Some None => raise KeyError
                     | None => ret "N/A"
                     end;
      let company := default "N/A" (h6 c) in
      ret (job_title, company, job_link)
  | None =>
      match job_info c with
      | Some title_elem =>
          let job_title := info_text title_elem in
          let job_link := default "N/A" (info_href title_elem) in
          let company :=
            match featured_job_company_name c with
            | Some name => name
            | None =>
                match featured_job_company_logo c with
                | Some (Some (Some alt)) => alt
                | _ => "N/A"
                end
            end in
          ret (job_title, company, job_link)
      | None => ret ("N/A", "N/A", "N/A")
      end
  end.

Definition is_experience (text : pystr) : bool :=
  contains "Year" text || contains "Fresher" text.
Definition is_salary (text : pystr) : bool :=
  contains "Nrs." text || contains "Negotiable" text.

(** One turn of the loop over the [<li>] items; the state is
    [(salary, experience)]. *)
Definition scan_item (st : pystr * pystr) (text : pystr) : pystr * pystr :=
  if is_experience text then (st.1, text)
  else if is_salary text then (text, st.2)
  else st.

Definition scan_description (desc_ul : option (list pystr)) : pystr * pystr :=
  match desc_ul with
  | Some items => foldl scan_item ("N/A", "N/A") items
  | None => ("N/A", "N/A")
  end.

(** [current[k]] raises [KeyError] on a missing key. *)
Definition index (current : gmap pystr pystr) (k : pystr) : result pystr :=
  match current !! k with
  | Some v => ret v
  | None => raise KeyError
  end.

Definition is_na (v : pystr) : bool := eqb v "N/A".

(** The merge of a card into the entry [current] stored under its id. *)
Definition merge (current : gmap pystr pystr) (company salary experience : pystr)
    : result (gmap pystr pystr) :=
  do company0 <- index current "Company";
  let current :=
    if is_na company0 && negb (is_na company)
    then <["Company" := company]> current else current in
  let current :=
    if is_na (database.get current "Salary" "N/A") && negb (is_na salary)
    then <["Salary" := salary]> current else current in
  let current :=
    if is_na (database.get current "Experience" "N/A") && negb (is_na experience)
    then <["Experience" := experience]> current else current in
  ret current.

Definition new_entry (job_title company job_link salary experience : pystr)
    : gmap pystr pystr :=
  <["Job Title" := job_title]>
    (<["Company" := company]>
      (<["Link" := job_link]>
        (<["Salary" := salary]>
          (<["Experience" := experience]> ∅)))).

(** The body of the [try] of one card. *)
Definition process_card (jobs_map : list (pystr * gmap pystr pystr)) (c : card)
    : result (list (pystr * gmap pystr pystr)) :=
  let job_id := data_jobid c in
  do fields <- extract_fields c;
  let '(job_title, company, job_link) := fields in
  if is_na job_title && is_na job_link then ret jobs_map
  else
    let '(salary, experience) := scan_description (description c) in
    match dict_get job_id jobs_map with
    | Some current =>
        do merged <- merge current company salary experience;
        ret (dict_set job_id merged jobs_map)
    | None =>
        ret (dict_set job_id (new_entry job_title company job_link salary experience) jobs_map)
    end.

(** The loop over the cards: [except AttributeError: continue], any
    other exception leaves the loop. *)
Fixpoint cards_loop (jobs_map : list (pystr * gmap pystr pystr)) (job_cards : list card)
    : result (list (pystr * gmap pystr pystr)) :=
  match job_cards with
  | [] => ret jobs_map
  | c :: rest =>
      match process_card jobs_map c with
      | inr jobs_map' => cards_loop jobs_map' rest
      | inl AttributeError => cards_loop jobs_map rest
      | inl e => raise e
      end
  end.

(** *** The detail pages *)

(** A detail page: the [premium-info-card] components (title text and
    value text, each possibly absent) and the rows of the
    [job-detail-box] list (left and right span texts). *)
Record detail_page := {
  info_cards : list (option pystr * option pystr);
  detail_box : option (list (option pystr * option pystr))
}.

(** One request for a detail page: a response with its status code, or
    [requests.RequestException]. *)
Inductive attempt := Response (status_code : Z) (page : detail_page) | Fails.

(** [fetch_with_retry(link, retries)]; [get i] is the outcome of the
    [i]-th request. The sleeps between attempts take time only. *)
Fixpoint fetch_from (get : nat -> attempt) (i retries : nat) : option detail_page :=
  match retries with
  | O => None
  | S retries' =>
      match get i with
      | Response status_code page =>
          if (status_code =? 200)%Z then Some page else fetch_from get (S i) retries'
      | Fails => fetch_from get (S i) retries'
      end
  end.
Definition fetch_with_retry (get : nat -> attempt) : option detail_page :=
  fetch_from get 0 3.

(** Layout A: dispatch on the exact title text. *)
Definition premium_field (job_data : gmap pystr pystr)
    (info : option pystr * option pystr) : gmap pystr pystr :=
  match info with
  | (Some title_text, Some val_text) =>
      if eqb title_text "Industry" then <["Industry" := val_text]> job_data
      else if eqb title_text "Job Level" then <["Job Level" := val_text]> job_data
      else if eqb title_text "Education" then <["Education" := val_text]> job_data
      else if eqb title_text "Desired Candidate"
           then <["Desired Candidate" := val_text]> job_data
      else if eqb title_text "Experience" then <["Experience" := val_text]> job_data
      else job_data
  | _ => job_data
  end.

(** Layout B: dispatch on a substring of the label; blanks inside the
    value are collapsed. *)
Definition basic_field (job_data : gmap pystr pystr)
    (row : option pystr * option pystr) : gmap pystr pystr :=
  match row with
  | (Some label, Some right_text) =>
      let value := join " " (split right_text) in
      if contains "Industry" label then <["Industry" := value]> job_data
      else if contains "Job Level" label then <["Job Level" := value]> job_data
      else if contains "Education" label then <["Education" := value]> job_data
      else if contains "Desired" label then <["Desired Candidate" := value]> job_data
      else if contains "Experience" label then <["Experience" := value]> job_data
      else job_data
  | _ => job_data
  end.

Definition read_detail (job_data : gmap pystr pystr) (page : detail_page)
    : gmap pystr pystr :=
  match info_cards page with
  | [] =>
      match detail_box page with
      | Some rows => foldl basic_field job_data rows
      | None => job_data
      end
  | cards => foldl premium_field job_data cards
  end.

(** What the scraper meets on the network: the listing page (its job
    cards, or the exception of the request) and, per link, the outcomes
    of the successive requests. *)
Record network := {
  main_page : result (list card);
  detail : pystr -> nat -> attempt
}.

Fixpoint deep_scrape (net : network) (jobs_map : list (pystr * gmap pystr pystr))
    : result (list (pystr * gmap pystr pystr)) :=
  match jobs_map with
  | [] => ret []
  | (job_id, job_data) :: rest =>
      do link <- index job_data "Link";
      let job_data :=
        if is_na link then job_data
        else match fetch_with_retry (detail net link) with
             | Some page => read_detail job_data page
             | None => job_data
             end in
      do rest' <- deep_scrape net rest;
      ret ((job_id, job_data) :: rest')
  end.

(** The body of the outer [try]: the table after the save and the count
    returned. *)
Definition scrape_body (net : network) (scraped_at : pystr)
    (tbl : list database.kumari_row) : result (list database.kumari_row * nat) :=
  do job_cards <- main_page net;
  do jobs_map <- cards_loop [] job_cards;
  do jobs_map <- deep_scrape net jobs_map;
  let '(tbl, saved) := database.save_kumari_data scraped_at jobs_map tbl in
  do _ <- saved;
  ret (tbl, length jobs_map).

(** [scrape_kumari_jobs()]: both handlers return 0. *)
Definition scrape_kumari_jobs (net : network) (scraped_at : pystr)
    (tbl : list database.kumari_row) : list database.kumari_row * nat :=
  match scrape_body net scraped_at tbl with
  | inr (tbl', n) => (tbl', n)
  | inl RequestException => (tbl, 0)
  | inl _ => (tbl, 0)
  end.

(** [fetch_with_retry] with its clock: the page it returns and the seconds
    it sleeps, one entry per [time.sleep]. A 429 answer to attempt [i]
    costs [2 * (i + 1)] seconds, a failed request one second, any other
    answer nothing. *)
Fixpoint fetch_log (get : nat -> attempt) (i retries : nat) : option detail_page * list Z :=
  match retries with
  | O => (None, [])
  | S retries' =>
      match get i with
      | Response status_code page =>
          if (status_code =? 200)%Z then (Some page, [])
          else if (status_code =? 429)%Z then
            let '(r, slept) := fetch_log get (S i) retries' in
            (r, (2 * (Z.of_nat i + 1))%Z :: slept)
          else fetch_log get (S i) retries'
      | Fails =>
          let '(r, slept) := fetch_log get (S i) retries' in
          (r, 1%Z :: slept)
      end
  end.

(** The five keys every entry of [jobs_map] is created with. *)
Definition listing_keys : list pystr :=
  ["Job Title"; "Company"; "Link"; "Salary"; "Experience"].

(** The keys a detail page can set. *)
Definition detail_keys : list pystr :=
  ["Industry"; "Job Level"; "Education"; "Desired Candidate"; "Experience"].

(** The page of an attempt that was answered with status 200. *)
Definition answered (a : attempt) : option detail_page :=
  match a with
  | Response status_code page => if (status_code =? 200)%Z then Some page else None
  | Fails => None
  end.

(** An entry that has the five keys it was created with. *)
Definition complete (job : gmap pystr pystr) : Prop :=
  Forall (fun k => is_Some (job !! k)) listing_keys.

(** One step of the merge: the value under [k] is replaced when it is
    "N/A" or absent and the incoming value is not "N/A". *)
Definition fill (k v : pystr) (current : gmap pystr pystr) : gmap pystr pystr :=
  if is_na (database.get current k "N/A") && negb (is_na v)
  then <[k := v]> current else current.

(** What a later card leaves of an entry: its title, its link, and every
    value that is not "N/A". *)
Definition kept (current current' : gmap pystr pystr) : Prop :=
  current' !! "Job Title" = current !! "Job Title" /\
  current' !! "Link" = current !! "Link" /\
  forall f v, current !! f = Some v -> is_na v = false -> current' !! f = Some v.

(** The state of [jobs_map] between two cards: a dict, whose entries
    are complete. *)
Definition jobs_map_ok (jobs_map : list (pystr * gmap pystr pystr)) : Prop :=
  NoDup jobs_map.*1 /\ Forall (fun item => complete item.2) jobs_map.

(** A card whose heading holds a link tag without [href]. *)
Definition missing_href (c : card) : bool :=
  match h5 c with
  | Some title_tag =>
      match h5_a title_tag with
      | Some None => true
      | _ => false
      end
  | None => false
  end.

End scrape_kumari.

(** ** merojob_scraper.py: the paginated API *)

Module merojob_scraper.
Import PyStr.

(** The value of a key among the members of a dict. *)
Fixpoint lookup (k : pystr) (members : list (pystr * json)) : option json :=
  match members with
  | [] => None
  | (k', v) :: rest => if eqb k k' then Some v else lookup k rest
  end.

(** [v.get(k, d)]: only a dict has a [get]. *)
Definition get (v : json) (k : pystr) (d : json) : result json :=
  match v with
  | JDict members => ret (default d (lookup k members))
  | _ => raise AttributeError
  end.

(** [bool(v)] *)
Definition truthy (v : json) : bool :=
  match v with
  | JNull => false
  | JBool b => b
  | JInt z => negb (z =? 0)%Z
  | JFloat (FNum (Finite q)) => negb (Qeq_bool q 0)
  | JFloat (FNum _) => true
  | JFloat FNegZero => false
  | JFloat FNaN => true
  | JStr s => negb (is_empty s)
  | JList items => match items with [] => false | _ :: _ => true end
  | JDict members => match members with [] => false | _ :: _ => true end
  end.

(** [v == "N/A"] *)
Definition equals_na (v : json) : bool :=
  match v with
  | JStr s => eqb s "N/A"
  | _ => false
  end.

(** [v[0]]: the first item of a list, the first character of a string;
    a dict decoded from JSON has no key [0], and a number cannot be
    indexed. *)
Definition first (v : json) : result json :=
  match v with
  | JList (x :: _) => ret x
  | JList [] => raise IndexError
  | JStr (Chr c _) => ret (JStr (Chr c Nil))
  | JStr Nil => raise IndexError
  | JDict _ => raise KeyError
  | JNull | JBool _ | JInt _ | JFloat _ => raise TypeError
  end.

(** The characters of a string, one string each. *)
Fixpoint characters (s : pystr) : list pystr :=
  match s with
  | Nil => []
  | Chr c t => Chr c Nil :: characters t
  end.

(** [for x in v]: the items of a list, the keys of a dict, the characters
    of a string; nothing else can be iterated. *)
Definition iterate (v : json) : result (list json) :=
  match v with
  | JList items => ret items
  | JDict members => ret (JStr <$> members.*1)
  | JStr s => ret (JStr <$> characters s)
  | JNull | JBool _ | JInt _ | JFloat _ => raise TypeError
  end.

(** The strings of a list of values, when every value is a string. *)
Fixpoint strings (items : list json) : option (list pystr) :=
  match items with
  | [] => Some []
  | JStr s :: rest => cons s <$> strings rest
  | _ :: _ => None
  end.

(** [", ".join(v)]: every item has to be a string. *)
Definition joined (v : json) : result pystr :=
  do items <- iterate v;
  match strings items with
  | Some ws => ret (join ", " ws)
  | None => raise TypeError
  end.

(** The location of a job: the client's, or the address of the first
    job location when the client has none. *)
Definition location_of (job : json) : result json :=
  do c <- get job "client" (JDict []);
  do location <- get c "location" (JStr "N/A");
  if negb (truthy location) || equals_na location then
    do job_locs <- get job "job_locations" (JList []);
    if truthy job_locs then
      do loc <- first job_locs;
      get loc "address" (JStr "N/A")
    else ret location
  else ret location.

(** ["https://www.merojob.com" + job.get("absolute_url", "")] *)
Definition url_of (job : json) : result pystr :=
  do u <- get job "absolute_url" (JStr "");
  match u with
  | JStr u => ret ("https://www.merojob.com" +:+ u)
  | _ => raise TypeError
  end.

(** The dict appended to [all_jobs] for one job; its members are
    evaluated in the order of the dict display. *)
Definition job_dict (job : json) : result (gmap pystr json) :=
  do location <- location_of job;
  do id <- get job "id" JNull;
  do title <- get job "title" (JStr "N/A");
  do c <- get job "client" (JDict []);
  do company <- get c "client_name" (JStr "N/A");
  do categories <- get job "categories" (JList []);
  do categories <- joined categories;
  do deadline <- get job "deadline" (JStr "N/A");
  do job_level <- get job "job_level" (JStr "N/A");
  do vacancies <- get job "vacancies" (JStr "N/A");
  do salary <- get job "offered_salary" (JDict []);
  do salary_min <- get salary "minimum" (JStr "N/A");
  do salary <- get job "offered_salary" (JDict []);
  do salary_max <- get salary "maximum" (JStr "N/A");
  do salary <- get job "offered_salary" (JDict []);
  do currency <- get salary "currency" (JStr "N/A");
  do skills <- get job "skills" (JList []);
  do skills <- joined skills;
  do job_url <- url_of job;
  ret (list_to_map
         [ ("id", id);
           ("title", title);
           ("company", company);
           ("location", location);
           ("categories", JStr categories);
           ("deadline", deadline);
           ("job_level", job_level);
           ("vacancies", vacancies);
           ("salary_min", salary_min);
           ("salary_max", salary_max);
           ("currency", currency);
           ("skills", JStr skills);
           ("job_url", JStr job_url) ]).

(** The loop over the results of one page. *)
Fixpoint page_jobs (all_jobs : list (gmap pystr json)) (results : list json)
    : result (list (gmap pystr json)) :=
  match results with
  | [] => ret all_jobs
  | job :: rest =>
      do d <- job_dict job;
      page_jobs (all_jobs ++ [d]) rest
  end.

(** What the API answers along the chain of [next] pointers, a finite
    chain: a request fails (or its body is no JSON), or it gives a
    document, and the answer to the request for the document's [next]
    pointer, which is made when the pointer is true. *)
Inductive feed :=
| FetchFails
| Page (data : json) (next_request : feed).

(** The [while url] loop. *)
Fixpoint pages (all_jobs : list (gmap pystr json)) (f : feed)
    : result (list (gmap pystr json)) :=
  match f with
  | FetchFails => ret all_jobs
  | Page data next_request =>
      do results <- get data "results" (JList []);
      do results <- iterate results;
      do all_jobs <- page_jobs all_jobs results;
      do url <- get data "next" JNull;
      if truthy url then pages all_jobs next_request else ret all_jobs
  end.

(** [scrape_jobs()]: what it returns or raises, and the raw table after
    the call. *)
Definition scrape_jobs (repr : json -> pystr) (real_text : jfloat -> pystr)
    (f : feed) (scraped_at : pystr) (tbl : list database.merojob_row)
    : result nat * list database.merojob_row :=
  match pages [] f with
  | inl e => (raise e, tbl)
  | inr [] => (ret 0, tbl)
  | inr all_jobs =>
      let '(tbl, saved) := database.save_merojob_data repr real_text scraped_at all_jobs tbl in
      (do _ <- saved; ret (length all_jobs), tbl)
  end.

(** The jobs the loop meets: those of every page up to the end of the
    chain, the first failed request, or the first page whose [next]
    pointer is not true; a page that cannot be read has none. *)
Definition page_results (data : json) : list json :=
  match do results <- get data "results" (JList []); iterate results with
  | inr results => results
  | inl _ => []
  end.

Fixpoint jobs_read (f : feed) : list json :=
  match f with
  | FetchFails => []
  | Page data next_request =>
      page_results data ++
      match get data "next" JNull with
      | inr url => if truthy url then jobs_read next_request else []
      | inl _ => []
      end
  end.

End merojob_scraper.

(** ** scheduler.py: the three stages of one run *)

Module scheduler.

Section Pipeline.
(** Everything a stage can change: the database file, and whatever
    else the stage touches; and the rows of the frame that
    [clean_and_merge] returns. *)
Context {World Row : Type}.

(** A stage either returns or raises, and leaves a world behind in
    both cases. *)
Variables scrape_mero scrape_kumari : World -> result nat * World.
(** [clean_and_merge()] returns a frame, or [None]. *)
Variable clean_and_merge : World -> result (option (list Row)) * World.

(** [try: n = stage() except Exception: n = 0] *)
Definition count_or_zero (r : result nat) : nat :=
  match r with
  | inr n => n
  | inl _ => 0
  end.

Definition clean_count_of (r : result (option (list Row))) : nat :=
  match r with
  | inr (Some df) => length df
  | inr None => 0
  | inl _ => 0
  end.

(** [full_pipeline()]: the counts of the summary, in the order
    MeroJob, KumariJob, clean total, and the world after the run. *)
Definition full_pipeline (w : World) : (nat * nat * nat) * World :=
  let '(r1, w1) := scrape_mero w in
  let mero_count := count_or_zero r1 in
  let '(r2, w2) := scrape_kumari w1 in
  let kumari_count := count_or_zero r2 in
  let '(r3, w3) := clean_and_merge w2 in
  let clean_count := clean_count_of r3 in
  ((mero_count, kumari_count, clean_count), w3).
End Pipeline.

(** The KumariJob stage on the database: [scrape_kumari_jobs] with the
    network it meets and the clock reading of its save. *)
Definition kumari_stage (net : scrape_kumari.network) (scraped_at : pystr)
    (db : clean_data.Db) : result nat * clean_data.Db :=
  let '(tbl, n) := scrape_kumari.scrape_kumari_jobs net scraped_at (clean_data.kumari_raw db) in
  (ret n,
   {| clean_data.merojob_raw := clean_data.merojob_raw db;
      clean_data.kumari_raw := tbl;
      clean_data.jobs_clean := clean_data.jobs_clean db |}).

(** The cleaning stage on the database: an exception of
    [clean_and_merge] leaves the database as it was. *)
Definition clean_stage (to_numeric : option pystr -> option pyfloat)
    (date_columns : list database.merojob_row -> list database.kumari_row ->
                    list clean_data.clean_row -> result (nat -> clean_data.date_cells))
    (db : clean_data.Db)
    : result (option (list (clean_data.clean_row * clean_data.date_cells))) * clean_data.Db :=
  match clean_data.clean_and_merge to_numeric date_columns db with
  | inr (db', df) => (ret (Some df), db')
  | inl e => (raise e, db)
  end.

(** The MeroJob stage on the database. *)
Definition mero_stage (repr : json -> pystr) (real_text : jfloat -> pystr)
    (f : merojob_scraper.feed) (scraped_at : pystr)
    (db : clean_data.Db) : result nat * clean_data.Db :=
  let '(r, tbl) :=
    merojob_scraper.scrape_jobs repr real_text f scraped_at (clean_data.merojob_raw db) in
  (r,
   {| clean_data.merojob_raw := tbl;
      clean_data.kumari_raw := clean_data.kumari_raw db;
      clean_data.jobs_clean := clean_data.jobs_clean db |}).

(** What one run meets outside the program: the renderings of Python and
    SQLite, the MeroJob API, the KumariJob site, the clock at the two
    saves, and the parsers of pandas. *)
Record environment := {
  repr : json -> pystr;
  real_text : jfloat -> pystr;
  api : merojob_scraper.feed;
  site : scrape_kumari.network;
  mero_at : pystr;
  kumari_at : pystr;
  to_numeric : option pystr -> option pyfloat;
  date_columns : list database.merojob_row -> list database.kumari_row ->
                 list clean_data.clean_row -> result (nat -> clean_data.date_cells)
}.

(** One run with the three stages of the program. *)
Definition run (env : environment) (db : clean_data.Db)
    : (nat * nat * nat) * clean_data.Db :=
  full_pipeline (mero_stage (repr env) (real_text env) (api env) (mero_at env))
                (kumari_stage (site env) (kumari_at env))
                (clean_stage (to_numeric env) (date_columns env)) db.

End scheduler.

(** ** The rules as the specification words them

    These definitions follow the specification's text, not the code; the
    theorems below compare the code with them. *)

Module spec.
Import PyStr.

(** "Placeholder": empty, whitespace-only, or the sentinel N/A in any
    case, with the variants "na" and "n/a". *)
Definition placeholder (v : pystr) : bool :=
  one_of [""; "n/a"; "na"] (lower (strip v)).

(** Location: "unmapped values pass through unchanged;
    missing/empty/placeholder -> Unknown". *)
Definition location (loc : option pystr) : pystr :=
  match loc with
  | None => "Unknown"
  | Some v => if placeholder v then "Unknown" else default v (clean_data.mapping !! v)
  end.

(** Job level: the four keyword groups in order, then "placeholder or
    not specified", then the trimmed, title-cased original. *)
Definition job_level (v : pystr) : pystr :=
  let l := lower v in
  if contains_any ["entry"; "junior"; "fresher"; "fresh"; "graduate"] l then "Entry Level"
  else if contains_any ["mid"; "intermediate"; "associate"] l then "Mid Level"
  else if contains_any ["senior"; "sr."; "lead"; "principal"] l then "Senior Level"
  else if contains_any ["manager"; "head"; "director"; "vp"; "chief"; "ceo"; "cto"] l
  then "Management"
  else if placeholder v || eqb l "not specified" then "Not Specified"
  else title (strip v).

(** Company: "trim; missing/empty -> Unknown Company". *)
Definition company (raw : option pystr) : pystr :=
  match raw with
  | None => "Unknown Company"
  | Some v => if is_empty (strip v) then "Unknown Company" else strip v
  end.


(** Description list: "first match wins per field per card". *)
Definition first_match (p : pystr -> bool) (items : list pystr) : pystr :=
  default "N/A" (List.find p items).

(** Dedup: "rows sharing the same (title, company, source) triple", the
    source of a row being the site it was scraped from: the frames with
    the [source] column holding the name the code assigns to it. *)
Definition frames (to_numeric : option pystr -> option pyfloat)
    (mero : list database.merojob_row) (kumari : list database.kumari_row)
    : list clean_data.clean_row :=
  (clean_data.mero_clean_row to_numeric (Some "merojob") <$> mero)
  ++ (clean_data.kumari_clean_row (Some "kumarijob") <$> kumari).

End spec.

(** ** Sample inputs *)

(** The record of the specification's end-to-end scenario, as a row of
    each raw table. *)
Definition scenario_kumari : database.kumari_row :=
  {| database.k_job_id := "42";
     database.k_job_title := Some " backend developer ";
     database.k_company := Some "";
     database.k_link := Some "N/A";
     database.k_salary := Some "Nrs. 25,000 - 35,000";
     database.k_experience := Some "N/A";
     database.k_industry := Some "N/A";
     database.k_job_level := Some "fresher";
     database.k_education := Some "N/A";
     database.k_scraped_at := "2026-01-01T00:00:00" |}.

Definition scenario_mero : database.merojob_row :=
  {| database.id := "42";
     database.title := Some " backend developer ";
     database.company := Some "";
     database.location := Some "ktm";
     database.categories := Some "";
     database.deadline := Some "N/A";
     database.job_level := Some "fresher";
     database.vacancies := Some "N/A";
     database.salary_min := Some "25000";
     database.salary_max := Some "35000";
     database.currency := Some "NPR";
     database.skills := Some "";
     database.job_url := Some "https://www.merojob.com";
     database.scraped_at := "2026-01-01T00:00:00" |}.

(** Four raw KumariJob rows: the scenario record, the same posting
    scraped again later, a posting without a title, and another posting. *)
Definition sample_kumari : list database.kumari_row :=
  [ scenario_kumari;
    {| database.k_job_id := "42";
       database.k_job_title := Some "Backend developer";
       database.k_company := Some "";
       database.k_link := Some "/job/42";
       database.k_salary := Some "Negotiable";
       database.k_experience := Some "2 Years";
       database.k_industry := Some "IT";
       database.k_job_level := Some "Mid";
       database.k_education := Some "Bachelor";
       database.k_scraped_at := "2026-01-08T00:00:00" |};
    {| database.k_job_id := "43";
       database.k_job_title := Some "N/A";
       database.k_company := Some "Acme";
       database.k_link := Some "/job/43";
       database.k_salary := Some "Nrs. 15,000,000 - 9,999,999";
       database.k_experience := Some "N/A";
       database.k_industry := Some "";
       database.k_job_level := Some "N/A";
       database.k_education := Some "N/A";
       database.k_scraped_at := "2026-01-08T00:00:00" |};
    {| database.k_job_id := "44";
       database.k_job_title := Some "Accountant";
       database.k_company := Some "Acme";
       database.k_link := Some "/job/44";
       database.k_salary := Some "Nrs. 15,000,000 - 9,999,999";
       database.k_experience := Some "N/A";
       database.k_industry := Some "";
       database.k_job_level := Some "N/A";
       database.k_education := Some "N/A";
       database.k_scraped_at := "2026-01-08T00:00:00" |} ].

(** A raw MeroJob row with the title and the company of the last
    KumariJob row above. *)
Definition accountant_mero : database.merojob_row :=
  {| database.id := "1";
     database.title := Some "Accountant";
     database.company := Some "Acme";
     database.location := Some "Pokhara";
     database.categories := Some "Accounting";
     database.deadline := Some "2026-02-01";
     database.job_level := Some "Mid Level";
     database.vacancies := Some "2";
     database.salary_min := Some "None";
     database.salary_max := Some "None";
     database.currency := Some "NPR";
     database.skills := Some "";
     database.job_url := Some "https://www.merojob.com/accountant";
     database.scraped_at := "2026-01-08T00:00:00" |}.

(** A scraped batch of each source, with one id offered twice; and a
    batch with a job that SQLite cannot store, its title being an integer
    of more than 64 bits. *)
Definition sample_jobs_list : list (gmap pystr json) :=
  [ {[ "id" := JInt 42; "title" := JStr "Backend Developer" ]};
    {[ "id" := JInt 43; "title" := JStr "Accountant" ]};
    {[ "id" := JInt 42; "title" := JStr "Backend Developer (again)" ]} ].





Definition sample_jobs_dict : list (pystr * gmap pystr pystr) :=
  [ ("42", scrape_kumari.new_entry "Backend Developer" "Acme" "/job/42" "N/A" "2 Years");
    ("43", scrape_kumari.new_entry "Accountant" "N/A" "/job/43" "Negotiable" "N/A") ].

(** A network whose listing page cannot be fetched, and one whose
    listing page has a card with a link tag without [href]. *)
Definition unreachable : scrape_kumari.network :=
  {| scrape_kumari.main_page := raise RequestException;
     scrape_kumari.detail := fun _ _ => scrape_kumari.Fails |}.

Definition card_without_href : scrape_kumari.card :=
  {| scrape_kumari.data_jobid := "7";
     scrape_kumari.h5 :=
       Some {| scrape_kumari.h5_text := "Developer"; scrape_kumari.h5_a := Some None |};
     scrape_kumari.h6 := Some "Acme";
     scrape_kumari.job_info := None;
     scrape_kumari.featured_job_company_name := None;
     scrape_kumari.featured_job_company_logo := None;
     scrape_kumari.description := None |}.

Definition plain_card (job_id job_title company : pystr) (items : list pystr)
    : scrape_kumari.card :=
  {| scrape_kumari.data_jobid := job_id;
     scrape_kumari.h5 :=
       Some {| scrape_kumari.h5_text := job_title; scrape_kumari.h5_a := None |};
     scrape_kumari.h6 := Some company;
     scrape_kumari.job_info := None;
     scrape_kumari.featured_job_company_name := None;
     scrape_kumari.featured_job_company_logo := None;
     scrape_kumari.description := Some items |}.

Definition malformed_page : scrape_kumari.network :=
  {| scrape_kumari.main_page :=
       ret [plain_card "6" "Accountant" "Acme" ["Negotiable"]; card_without_href];
     scrape_kumari.detail := fun _ _ => scrape_kumari.Fails |}.

Definition healthy_page : scrape_kumari.network :=
  {| scrape_kumari.main_page :=
       ret [plain_card "6" "Accountant" "N/A" ["Negotiable"];
            plain_card "6" "Accountant" "Acme" ["2 Years"; "Nrs. 30,000"]];
     scrape_kumari.detail := fun _ _ => scrape_kumari.Fails |}.

(** A MeroJob stage that raises. *)
Definition mero_raises (db : clean_data.Db) : result nat * clean_data.Db :=
  (raise AttributeError, db).

(** Renderings, parsers and date columns for the examples: no float, list
    or dict has to be rendered in them, no salary is a number, and the
    dates are left empty. *)
Definition no_repr (v : json) : pystr := "".
Definition no_real_text (x : jfloat) : pystr := "".
Definition no_number (cell : option pystr) : option pyfloat := None.
Definition no_dates (mero : list database.merojob_row) (kumari : list database.kumari_row)
    (df : list clean_data.clean_row) : result (nat -> clean_data.date_cells) :=
  ret (fun _ => {| clean_data.deadline := ""; clean_data.scraped_at := "";
                   clean_data.scrape_date := "" |}).
(** pandas failing on the dates. *)
Definition dates_raise (mero : list database.merojob_row) (kumari : list database.kumari_row)
    (df : list clean_data.clean_row) : result (nat -> clean_data.date_cells) :=
  raise (OtherError "ValueError").

(** API jobs: a plain one, and one whose client is [null]. *)
Definition api_job_plain (id : Z) (title : pystr) : json :=
  JDict [ ("id", JInt id);
          ("title", JStr title);
          ("client", JDict [("location", JStr ""); ("client_name", JStr "Acme")]);
          ("job_locations", JList [JDict [("address", JStr "Pokhara")];
                                   JDict [("address", JStr "KTM")]]);
          ("categories", JList [JStr "IT"; JStr "Telecom"]);
          ("deadline", JNull);
          ("vacancies", JInt 2);
          ("skills", JList []);
          ("absolute_url", JStr "/job/1") ].

Definition api_job_null_client : json :=
  JDict [ ("id", JInt 9); ("title", JStr "Clerk"); ("client", JNull) ].

(** Two pages and a third request that fails; the same chain with a
    malformed job on the second page. *)
Definition sample_feed : merojob_scraper.feed :=
  merojob_scraper.Page
    (JDict [ ("results", JList [api_job_plain 1 "Developer"; api_job_plain 2 "Tester"]);
             ("next", JStr "https://api.merojob.com/api/v1/jobs/?page=2&page_size=50") ])
    (merojob_scraper.Page
       (JDict [ ("results", JList [api_job_plain 3 "Designer"]);
                ("next", JStr "https://api.merojob.com/api/v1/jobs/?page=3&page_size=50") ])
       merojob_scraper.FetchFails).

Definition malformed_feed : merojob_scraper.feed :=
  merojob_scraper.Page
    (JDict [ ("results", JList [api_job_plain 1 "Developer"; api_job_plain 2 "Tester"]);
             ("next", JStr "https://api.merojob.com/api/v1/jobs/?page=2&page_size=50") ])
    (merojob_scraper.Page
       (JDict [ ("results", JList [api_job_null_client]); ("next", JNull) ])
       merojob_scraper.FetchFails).

(** The surroundings of a run in the examples. *)
Definition sample_environment (date_columns :
    list database.merojob_row -> list database.kumari_row ->
    list clean_data.clean_row -> result (nat -> clean_data.date_cells))
    : scheduler.environment :=
  {| scheduler.repr := no_repr;
     scheduler.real_text := no_real_text;
     scheduler.api := sample_feed;
     scheduler.site := healthy_page;
     scheduler.mero_at := "2026-02-01T00:00:00";
     scheduler.kumari_at := "2026-02-01T00:05:00";
     scheduler.to_numeric := no_number;
     scheduler.date_columns := date_columns |}.

(** * Properties *)

Import Unicode PyStr.

(** ** Strings *)

Lemma eqb_eq (s t : pystr) : eqb s t = true <-> s = t.
Proof.
  revert t. induction s as [|c s IH]; intros [|d t]; cbn; try (split; congruence).
  rewrite andb_true_iff, N.eqb_eq, IH. split; [by intros [-> ->] | by intros [= -> ->]].
Qed.

Lemma eqb_refl (s : pystr) : eqb s s = true.
Proof. by apply eqb_eq. Qed.

Lemma eqb_neq (s t : pystr) : eqb s t = false <-> s <> t.
Proof. rewrite <- eqb_eq. by destruct (eqb s t). Qed.

Lemma eqb_sym (s t : pystr) : eqb s t = eqb t s.
Proof.
  destruct (eqb t s) eqn:E.
  - apply eqb_eq in E. subst. apply eqb_refl.
  - apply eqb_neq. apply eqb_neq in E. congruence.
Qed.

Lemma is_empty_true (s : pystr) : is_empty s = true <-> s = "".
Proof. destruct s; simpl; split; congruence. Qed.

Lemma append_cons (c : char) (a b : pystr) : Chr c a +:+ b = Chr c (a +:+ b).
Proof. reflexivity. Qed.

Lemma append_nil_l (a : pystr) : "" +:+ a = a.
Proof. reflexivity. Qed.

Lemma append_assoc (a b c : pystr) : (a +:+ b) +:+ c = a +:+ (b +:+ c).
Proof. induction a as [|x a IH]; [done|]. by rewrite !append_cons, IH. Qed.

Lemma append_empty_r (a : pystr) : a +:+ "" = a.
Proof. induction a as [|x a IH]; [done|]. by rewrite append_cons, IH. Qed.

Lemma starts_with_findall (cls : char -> bool) (s : pystr) :
  starts_with cls s = true -> findall cls s <> [].
Proof.
  destruct s as [|c t]; simpl; [discriminate|].
  intros ->. destruct (starts_with cls t); [destruct (findall cls t)|]; discriminate.
Qed.

(** Characters outside the class are skipped. *)
Lemma findall_skip (cls : char -> bool) (sep s : pystr) :
  any_char cls sep = false -> findall cls (sep +:+ s) = findall cls s.
Proof.
  induction sep as [|c t IH]; simpl; [done|].
  intros [Hc Ht]%orb_false_elim. rewrite Hc. auto.
Qed.

(** A maximal run of class characters is the next match. *)
Lemma findall_run (cls : char -> bool) (run rest : pystr) :
  is_empty run = false -> all_chars cls run = true -> starts_with cls rest = false ->
  findall cls (run +:+ rest) = run :: findall cls rest.
Proof.
  induction run as [|c t IH]; [done|].
  intros _ [Hc Ht]%andb_prop Hrest. simpl. rewrite Hc.
  destruct t as [|c' t'].
  - change ("" +:+ rest) with rest. by rewrite Hrest.
  - assert (Hs : starts_with cls (Chr c' t' +:+ rest) = true).
    { simpl in *. by apply andb_prop in Ht as [-> _]. }
    rewrite Hs, IH; done.
Qed.

Lemma findall_none (cls : char -> bool) (s : pystr) :
  any_char cls s = false -> findall cls s = [].
Proof.
  induction s as [|c t IH]; simpl; [done|].
  intros [-> Ht]%orb_false_elim. auto.
Qed.

(** Every match is a non-empty string of class characters. *)
Lemma findall_runs (cls : char -> bool) (s : pystr) :
  Forall (fun run => run <> "" /\ all_chars cls run = true) (findall cls s).
Proof.
  induction s as [|c t IH]; simpl; [constructor|].
  destruct (cls c) eqn:Hc; [|done].
  destruct (starts_with cls t).
  - destruct (findall cls t) as [|r rs].
    + repeat constructor; simpl; [done|by rewrite Hc].
    + inversion IH as [|? ? [_ Hr] Hrs]; subst. constructor; [|done].
      split; [done|]. simpl. by rewrite Hc, Hr.
  - constructor; [|done]. split; [done|]. simpl. by rewrite Hc.
Qed.

Lemma remove_char_cons (c d : char) (t : pystr) :
  remove_char c (Chr d t)
  = if (c =? d)%N then remove_char c t else Chr d (remove_char c t).
Proof. reflexivity. Qed.

Lemma comma_is_no_digit : is_digit 44 = false.
Proof. vm_compute. reflexivity. Qed.

Lemma digit_or_comma_cases (c : char) :
  clean_data.digit_or_comma c = true ->
  ((44 =? c)%N = true /\ is_digit c = false) \/
  ((44 =? c)%N = false /\ is_digit c = true).
Proof.
  unfold clean_data.digit_or_comma. intros H.
  destruct (44 =? c)%N eqn:E.
  - left. apply N.eqb_eq in E. subst c. split; [done|apply comma_is_no_digit].
  - right. split; [done|]. rewrite N.eqb_sym, E, orb_false_r in H. done.
Qed.

(** Stripping the commas of a run of digits and commas leaves digits. *)
Lemma remove_comma_digits (run : pystr) :
  all_chars clean_data.digit_or_comma run = true ->
  all_chars is_digit (remove_char 44 run) = true.
Proof.
  induction run as [|c t IH]; [done|].
  intros [Hc Ht]%andb_prop. rewrite remove_char_cons.
  destruct (digit_or_comma_cases c Hc) as [[-> _]|[-> Hd]]; [auto|].
  cbn [all_chars]. rewrite Hd. auto.
Qed.

(** What is left is empty exactly when the run has no digit. *)
Lemma remove_comma_empty (run : pystr) :
  all_chars clean_data.digit_or_comma run = true ->
  is_empty (remove_char 44 run) = negb (any_char is_digit run).
Proof.
  induction run as [|c t IH]; [done|].
  intros [Hc Ht]%andb_prop. rewrite remove_char_cons. cbn [any_char].
  destruct (digit_or_comma_cases c Hc) as [[-> ->]|[-> ->]]; [auto|done].
Qed.

(** ** Salary parsing *)

Lemma parse_run_digits (run : pystr) :
  all_chars clean_data.digit_or_comma run = true ->
  clean_data.parse_run run
  = if any_char is_digit run
    then Some (round_binary64 (digits_value 0 (remove_char 44 run)))
    else None.
Proof.
  intros H. unfold clean_data.parse_run, float.
  rewrite (remove_comma_empty run H). by destruct (any_char is_digit run).
Qed.

(** C4. The salary text is cut into its maximal runs of digits and
    commas, in order, a digit being a decimal digit of any script, as the
    class [\d] has it. [salary_min] is the first run and [salary_max] the
    second, each read as a number once its commas are removed; a text
    without a run gives two nulls, and so does a run without a digit,
    without an exception. The three sample texts of the specification give
    20000.0/30000.0, null/null and 45000.0/null, and a salary in
    Devanagari digits is read like the same salary in ASCII digits. *)
Theorem salary_runs_in_order :
  (forall s : pystr,
      clean_data.extract_salary_min (Some s)
      = head (findall clean_data.digit_or_comma s) ≫= clean_data.parse_run
      /\ clean_data.extract_salary_max (Some s)
         = (findall clean_data.digit_or_comma s !! 1%nat) ≫= clean_data.parse_run) /\
  (forall sep run rest : pystr,
      any_char clean_data.digit_or_comma sep = false ->
      is_empty run = false ->
      all_chars clean_data.digit_or_comma run = true ->
      starts_with clean_data.digit_or_comma rest = false ->
      findall clean_data.digit_or_comma (sep +:+ run +:+ rest)
      = run :: findall clean_data.digit_or_comma rest) /\
  (forall s : pystr,
      any_char clean_data.digit_or_comma s = false ->
      clean_data.extract_salary_min (Some s) = None
      /\ clean_data.extract_salary_max (Some s) = None) /\
  (forall s run : pystr,
      run ∈ findall clean_data.digit_or_comma s ->
      all_chars is_digit (remove_char 44 run) = true
      /\ clean_data.parse_run run
         = if any_char is_digit run
           then Some (round_binary64 (digits_value 0 (remove_char 44 run)))
           else None) /\
  (forall c : char,
      clean_data.digit_or_comma c = (is_digit c || (c =? 44)%N) /\
      (is_digit c = true <-> exists d, decimal_value c = Some d)) /\
  clean_data.extract_salary_min None = None /\
  clean_data.extract_salary_max None = None /\
  clean_data.extract_salary_min (Some "Nrs. 20,000 - 30,000") = Some (of_Z 20000) /\
  clean_data.extract_salary_max (Some "Nrs. 20,000 - 30,000") = Some (of_Z 30000) /\
  clean_data.extract_salary_min (Some "Negotiable") = None /\
  clean_data.extract_salary_max (Some "Negotiable") = None /\
  clean_data.extract_salary_min (Some "Nrs. 45,000") = Some (of_Z 45000) /\
  clean_data.extract_salary_max (Some "Nrs. 45,000") = None /\
  clean_data.extract_salary_min (Some ", 500") = None /\
  clean_data.extract_salary_max (Some ", 500") = Some (of_Z 500) /\
  clean_data.extract_salary_min (Some "रु. २५,००० - ३५,०००") = Some (of_Z 25000) /\
  clean_data.extract_salary_max (Some "रु. २५,००० - ३५,०००") = Some (of_Z 35000) /\
  decimal_value <$> to_list "0९٣²" = [Some 0%N; Some 9%N; Some 3%N; None] /\
  clean_data.extract_salary_min (Some "x² + 1٢") = Some (of_Z 12).
Proof.
  split; [|split; [|split; [|split; [|split]]]].
  - intros s. unfold clean_data.extract_salary_min, clean_data.extract_salary_max.
    destruct (findall clean_data.digit_or_comma s) as [|r [|r' rs]]; done.
  - intros sep run rest Hsep Hne Hrun Hrest.
    rewrite findall_skip by done. by apply findall_run.
  - intros s Hs. unfold clean_data.extract_salary_min, clean_data.extract_salary_max.
    by rewrite (findall_none _ _ Hs).
  - intros s run Hin.
    pose proof (findall_runs clean_data.digit_or_comma s) as Hall.
    rewrite Forall_forall in Hall. destruct (Hall run Hin) as [_ Hrun].
    split; [by apply remove_comma_digits | by apply parse_run_digits].
  - intros c. split; [reflexivity|]. unfold is_digit.
    destruct (decimal_value c) as [d|]; split; try done; eauto. by intros [? ?].
  - repeat split; vm_compute; reflexivity.
Qed.

Lemma salary_runs_in_order_witness :
  findall clean_data.digit_or_comma ("Nrs. " +:+ "45,000" +:+ " monthly")
  = "45,000" :: findall clean_data.digit_or_comma " monthly".
Proof.
  apply (proj1 (proj2 salary_runs_in_order)); vm_compute; reflexivity.
Defined.

(** ** Company *)

(** C1. The normalized company is the trimmed raw company, and a missing
    (NULL) company becomes "Unknown Company"; an empty company is left
    empty, although the rule of the specification, and the [category]
    column two lines below, replace it. On the scenario record the row has
    the title, location, level and salaries the specification lists, and
    the company "". *)
Theorem company_empty_string_is_kept :
  (forall to_numeric src mero,
      clean_data.company (clean_data.mero_clean_row to_numeric src mero)
      = match database.company mero with
        | None => "Unknown Company"
        | Some v => strip v
        end) /\
  (forall src kumari,
      clean_data.company (clean_data.kumari_clean_row src kumari)
      = match database.k_company kumari with
        | None => "Unknown Company"
        | Some v => strip v
        end) /\
  spec.company (Some "") = "Unknown Company" /\
  (forall to_numeric,
      clean_data.company <$> clean_data.mero_clean to_numeric [scenario_mero] = [""]) /\
  clean_data.company <$> clean_data.kumari_clean [scenario_kumari] = [""] /\
  (forall to_numeric,
      (fun r => (clean_data.title r, clean_data.location r, clean_data.job_level r,
                 clean_data.category r))
        <$> clean_data.mero_clean to_numeric [scenario_mero]
      = [(Some "Backend Developer", "Kathmandu", "Entry Level", "Unknown")]) /\
  (fun r => (clean_data.title r, clean_data.location r, clean_data.job_level r,
             clean_data.salary_min r, clean_data.salary_max r))
    <$> clean_data.kumari_clean [scenario_kumari]
  = [(Some "Backend Developer", "Kathmandu", "Entry Level",
      Some (of_Z 25000), Some (of_Z 35000))].
Proof.
  repeat match goal with |- _ /\ _ => split end.
  - intros ? ? mero. simpl. by destruct (database.company mero).
  - intros ? kumari. simpl. by destruct (database.k_company kumari).
  - vm_compute. reflexivity.
  - intros. vm_compute. reflexivity.
  - vm_compute. reflexivity.
  - intros. vm_compute. reflexivity.
  - vm_compute. reflexivity.
Qed.

(** ** Location *)

Lemma abbreviations_NoDup : NoDup (clean_data.abbreviations.*1).
Proof. apply (bool_decide_unpack _). vm_compute. exact I. Qed.

Lemma mapping_lookup (k v : pystr) :
  clean_data.mapping !! k = Some v <-> (k, v) ∈ clean_data.abbreviations.
Proof.
  unfold clean_data.mapping. symmetry.
  apply elem_of_list_to_map, abbreviations_NoDup.
Qed.

Lemma lower_empty (s : pystr) : is_empty s = true -> lower s = "".
Proof. by intros ->%is_empty_true. Qed.

(** The test of [clean_location] on the trimmed value is the placeholder
    test of the specification. *)
Lemma location_test_is_placeholder (loc : pystr) :
  is_empty (strip loc) || one_of ["n/a"; "na"; ""] (lower (strip loc))
  = spec.placeholder loc.
Proof.
  unfold spec.placeholder.
  destruct (is_empty (strip loc)) eqn:E.
  - by rewrite (lower_empty _ E).
  - unfold one_of. cbn [existsb orb].
    destruct (eqb (lower (strip loc)) "n/a"),
             (eqb (lower (strip loc)) "na"),
             (eqb (lower (strip loc)) ""); reflexivity.
Qed.

(** C6, as stated: an unmapped, non-placeholder value would come out
    unchanged. A value with a blank around it does not. *)
Lemma location_unchanged_counterexample :
  spec.placeholder " Biratnagar" = false /\
  clean_data.mapping !! " Biratnagar" = None /\
  spec.location (Some " Biratnagar") = " Biratnagar" /\
  clean_data.clean_location (Some " Biratnagar") = "Biratnagar" /\
  clean_data.clean_location (Some " Biratnagar") <> spec.location (Some " Biratnagar").
Proof. repeat split; vm_compute; congruence. Qed.

(** C6, amended. A missing value and a placeholder (empty, blank, "n/a"
    or "na" in any case) give "Unknown"; any other value is trimmed, of
    the white space of [str.strip], the no-break space included, and
    looked up, case-sensitively, in the dictionary of fourteen
    abbreviations, and an unmapped value comes out trimmed and otherwise
    unchanged. "KTM" gives "Kathmandu", "PKR." gives "Pokhara",
    "Biratnagar" stays, "" gives "Unknown". *)
Theorem location_trimmed_then_mapped :
  clean_data.clean_location None = "Unknown" /\
  (forall loc : pystr,
      clean_data.clean_location (Some loc)
      = if spec.placeholder loc then "Unknown"
        else default (strip loc) (clean_data.mapping !! strip loc)) /\
  (forall k v : pystr,
      clean_data.mapping !! k = Some v <->
      (k, v) ∈ [ ("KTM", "Kathmandu"); ("Ktm", "Kathmandu"); ("ktm", "Kathmandu");
                 ("Kathmandu Valley", "Kathmandu");
                 ("PKR", "Pokhara"); ("PKR.", "Pokhara"); ("Pkr", "Pokhara");
                 ("BKT", "Bhaktapur"); ("Bkt", "Bhaktapur");
                 ("LLT", "Lalitpur"); ("Llt", "Lalitpur"); ("Patan", "Lalitpur");
                 ("BRT", "Birgunj"); ("BTW", "Butwal") ]) /\
  (forall c : char,
      is_space c = true <->
      c ∈ [9; 10; 11; 12; 13; 28; 29; 30; 31; 32; 133; 160; 5760; 8192; 8193; 8194;
           8195; 8196; 8197; 8198; 8199; 8200; 8201; 8202; 8232; 8233; 8239; 8287;
           12288]%N) /\
  clean_data.clean_location (Some "KTM") = "Kathmandu" /\
  clean_data.clean_location (Some "PKR.") = "Pokhara" /\
  clean_data.clean_location (Some "Biratnagar") = "Biratnagar" /\
  clean_data.clean_location (Some "") = "Unknown" /\
  clean_data.clean_location (Some "   ") = "Unknown" /\
  clean_data.clean_location (Some " N/a ") = "Unknown" /\
  clean_data.clean_location (Some "kathmandu valley") = "kathmandu valley" /\
  clean_data.clean_location (Some " KTM ") = "Kathmandu" /\
  clean_data.clean_location (Some " Biratnagar") = "Biratnagar" /\
  clean_data.clean_location (Some (Chr 160 "KTM")) = "Kathmandu" /\
  clean_data.clean_location (Some (Chr 133 (Chr 12288 "Patan" +:+ Chr 8239 ""))) = "Lalitpur".
Proof.
  split; [reflexivity|]. split; [|split; [|split]].
  - intros loc. unfold clean_data.clean_location. cbv zeta.
    by rewrite location_test_is_placeholder.
  - intros k v. apply mapping_lookup.
  - intros c. unfold is_space, between.
    rewrite !orb_true_iff, !andb_true_iff, !N.leb_le, !N.eqb_eq, !elem_of_cons, elem_of_nil.
    lia.
  - repeat split; vm_compute; reflexivity.
Qed.

(** ** Job level *)

(** C5. The four keyword groups are tried on the lower-cased level in
    the order entry, mid, senior, management, and the first group with a
    keyword inside the text decides; a missing level is "Not Specified",
    and the four examples of the specification hold. Without a keyword, a
    level is "Not Specified" when its lower-cased text is exactly "n/a",
    "na", "" or "not specified", and is trimmed and title-cased otherwise.
    That test is made on the text as it stands, although the fall-back
    behind it trims and [clean_location] trims before the same test: a
    placeholder with white space around it is missed, a blank level
    comes out as the empty string and " n/a" as "N/A", where the rule of
    the specification gives "Not Specified". On a level without
    surrounding white space the code is the rule. *)
Theorem job_level_placeholder_not_trimmed :
  (forall s : pystr,
      let l := lower s in
      let entry := contains_any ["entry"; "junior"; "fresher"; "fresh"; "graduate"] l in
      let mid := contains_any ["mid"; "intermediate"; "associate"] l in
      let senior := contains_any ["senior"; "sr."; "lead"; "principal"] l in
      let management :=
        contains_any ["manager"; "head"; "director"; "vp"; "chief"; "ceo"; "cto"] l in
      let unspecified := one_of ["n/a"; "na"; ""; "not specified"] l in
      let level := clean_data.standardize_job_level (Some s) in
      (entry = true -> level = "Entry Level") /\
      (entry = false -> mid = true -> level = "Mid Level") /\
      (entry = false -> mid = false -> senior = true -> level = "Senior Level") /\
      (entry = false -> mid = false -> senior = false -> management = true ->
       level = "Management") /\
      (entry = false -> mid = false -> senior = false -> management = false ->
       unspecified = true -> level = "Not Specified") /\
      (entry = false -> mid = false -> senior = false -> management = false ->
       unspecified = false -> level = title (strip s)) /\
      (strip s = s -> level = spec.job_level s)) /\
  clean_data.standardize_job_level None = "Not Specified" /\
  clean_data.standardize_job_level (Some "Senior Software Engineer") = "Senior Level" /\
  clean_data.standardize_job_level (Some "Fresher / Entry") = "Entry Level" /\
  clean_data.standardize_job_level (Some "Chief Operating Officer") = "Management" /\
  clean_data.standardize_job_level (Some "Blockchain Specialist") = "Blockchain Specialist" /\
  clean_data.standardize_job_level (Some "Senior Associate") = "Mid Level" /\
  clean_data.standardize_job_level (Some "N/A") = "Not Specified" /\
  clean_data.standardize_job_level (Some "élan vital") = "Élan Vital" /\
  spec.placeholder "   " = true /\
  spec.job_level "   " = "Not Specified" /\
  clean_data.standardize_job_level (Some "   ") = "" /\
  spec.placeholder " n/a" = true /\
  spec.job_level " n/a" = "Not Specified" /\
  clean_data.standardize_job_level (Some " n/a") = "N/A" /\
  clean_data.clean_location (Some "   ") = "Unknown" /\
  clean_data.clean_location (Some " n/a") = "Unknown".
Proof.
  split.
  - intros s. cbv zeta.
    unfold clean_data.standardize_job_level, spec.job_level. cbv zeta.
    repeat match goal with |- _ /\ _ => split end.
    1-6: by repeat (intros ->).
    intros Hs. unfold spec.placeholder. rewrite Hs.
    repeat match goal with |- context [if ?b then _ else _] =>
      lazymatch b with
      | contains_any _ _ => destruct b; [reflexivity|]
      end
    end.
    unfold one_of. cbn [existsb orb].
    destruct (eqb (lower s) "n/a"), (eqb (lower s) "na"),
             (eqb (lower s) ""), (eqb (lower s) "not specified");
      reflexivity.
  - repeat split; vm_compute; reflexivity.
Qed.

Lemma job_level_placeholder_not_trimmed_witness :
  clean_data.standardize_job_level (Some "Sr. Team Lead") = "Senior Level".
Proof.
  apply (proj1 (proj2 (proj2 (proj1 job_level_placeholder_not_trimmed "Sr. Team Lead"))));
    vm_compute; reflexivity.
Defined.

(** ** The description list of a card *)

(** A salary item that the loop records: it has a salary keyword and no
    experience keyword. *)
Lemma scan_item_fst (st : pystr * pystr) (text : pystr) :
  (scrape_kumari.scan_item st text).1
  = if negb (scrape_kumari.is_experience text) && scrape_kumari.is_salary text
    then text else st.1.
Proof.
  unfold scrape_kumari.scan_item.
  destruct (scrape_kumari.is_experience text), (scrape_kumari.is_salary text); done.
Qed.

Lemma scan_item_snd (st : pystr * pystr) (text : pystr) :
  (scrape_kumari.scan_item st text).2
  = if scrape_kumari.is_experience text then text else st.2.
Proof.
  unfold scrape_kumari.scan_item.
  destruct (scrape_kumari.is_experience text), (scrape_kumari.is_salary text); done.
Qed.

Lemma default_last_cons {A} (d x : A) (l : list A) :
  default d (last (x :: l)) = default x (last l).
Proof. rewrite last_cons. by destruct (last l). Qed.

(** Overwriting a variable on every match leaves the last match in it. *)
Lemma foldl_keeps_last {S} (f : S -> pystr -> S) (get : S -> pystr)
    (p : pystr -> bool) (items : list pystr) :
  (forall st x, get (f st x) = if p x then x else get st) ->
  forall st, get (foldl f st items) = default (get st) (last (List.filter p items)).
Proof.
  intros Hf. induction items as [|x items IH]; intros st; [done|].
  cbn [foldl List.filter]. rewrite IH, Hf.
  destruct (p x); [by rewrite default_last_cons | done].
Qed.

(** C2, as stated: the first matching item would be kept. With two
    matching items the second one is. *)
Lemma first_match_counterexample :
  let items := ["1 Year"; "Nrs. 10,000"; "Negotiable"; "3 Years"] in
  spec.first_match scrape_kumari.is_experience items = "1 Year" /\
  (scrape_kumari.scan_description (Some items)).2 = "3 Years" /\
  spec.first_match scrape_kumari.is_salary items = "Nrs. 10,000" /\
  (scrape_kumari.scan_description (Some items)).1 = "Negotiable" /\
  (scrape_kumari.scan_description (Some items)).2
    <> spec.first_match scrape_kumari.is_experience items /\
  (scrape_kumari.scan_description (Some items)).1
    <> spec.first_match scrape_kumari.is_salary items.
Proof. repeat split; vm_compute; congruence. Qed.

(** C2, amended. The experience text of a card is the last list item that
    contains "Year" or "Fresher"; the salary text is the last list item
    that contains "Nrs." or "Negotiable" and neither "Year" nor "Fresher"
    (an item with keywords of both kinds is experience only). A field
    without such an item, and a card without a description list, keep
    "N/A". *)
Theorem scan_description_last_match :
  (forall items : list pystr,
      scrape_kumari.scan_description (Some items)
      = (default "N/A"
           (last (List.filter
                    (fun text => negb (scrape_kumari.is_experience text)
                                 && scrape_kumari.is_salary text) items)),
         default "N/A" (last (List.filter scrape_kumari.is_experience items)))) /\
  scrape_kumari.scan_description None = ("N/A", "N/A") /\
  scrape_kumari.scan_description (Some ["2 Years"; "Nrs. 30,000"]) = ("Nrs. 30,000", "2 Years") /\
  scrape_kumari.scan_description (Some ["Nrs. 50,000 per Year"]) = ("N/A", "Nrs. 50,000 per Year").
Proof.
  split; [|repeat split; vm_compute; reflexivity].
  intros items. unfold scrape_kumari.scan_description.
  rewrite (surjective_pairing (foldl _ _ _)). f_equal.
  - apply (foldl_keeps_last scrape_kumari.scan_item fst). apply scan_item_fst.
  - apply (foldl_keeps_last scrape_kumari.scan_item snd). apply scan_item_snd.
Qed.

(** ** The merge of two cards with one id *)

Lemma is_na_true (v : pystr) : scrape_kumari.is_na v = true <-> v = "N/A".
Proof. apply eqb_eq. Qed.







(** ** The quality gates *)

Lemma float_gt_lt (q : Q) (k : Z) : float_gt (Finite q) k = true <-> (inject_Z k < q)%Q.
Proof.
  unfold float_gt. rewrite negb_true_iff, <- not_true_iff_false, Qle_bool_iff.
  split; [apply Qnot_le_lt | apply Qlt_not_le].
Qed.

Lemma float_gt_le (q : Q) (k : Z) : float_gt (Finite q) k = false <-> (q <= inject_Z k)%Q.
Proof. unfold float_gt. by rewrite negb_false_iff, Qle_bool_iff. Qed.

Lemma cap_bounded (x : option pyfloat) (v : pyfloat) :
  clean_data.cap x = Some v -> x = Some v /\ float_gt v 10000000 = false.
Proof.
  destruct x as [u|]; unfold clean_data.cap; [|done].
  destruct (float_gt u 10000000) eqn:E; [done|]. by intros [= <-].
Qed.

(** C7. A salary bound strictly above 10,000,000 becomes null and a bound
    at or below it is left as it is, for [salary_min] and for
    [salary_max] separately and with no other column touched; every row
    of the reconciled table is a row capped in this way, so no bound
    above the threshold is left. 15,000,000 becomes null, 9,999,999
    stays, and one row can lose one bound and keep the other. *)
Theorem salary_outliers_capped :
  (forall q : Q, (inject_Z 10000000 < q)%Q -> clean_data.cap (Some (Finite q)) = None) /\
  (forall q : Q, (q <= inject_Z 10000000)%Q ->
                 clean_data.cap (Some (Finite q)) = Some (Finite q)) /\
  clean_data.cap (Some PosInf) = None /\
  clean_data.cap (Some NegInf) = Some NegInf /\
  clean_data.cap None = None /\
  (forall r : clean_data.clean_row,
      clean_data.salary_min (clean_data.cap_row r) = clean_data.cap (clean_data.salary_min r) /\
      clean_data.salary_max (clean_data.cap_row r) = clean_data.cap (clean_data.salary_max r) /\
      clean_data.subset (clean_data.cap_row r) = clean_data.subset r /\
      clean_data.job_id (clean_data.cap_row r) = clean_data.job_id r) /\
  (forall df : list clean_data.clean_row,
      clean_data.quality_steps df
      = clean_data.cap_row
          <$> clean_data.drop_duplicates (clean_data.drop_missing_title df)) /\
  (forall (df : list clean_data.clean_row) (r : clean_data.clean_row) (v : pyfloat),
      r ∈ clean_data.quality_steps df ->
      clean_data.salary_min r = Some v \/ clean_data.salary_max r = Some v ->
      float_gt v 10000000 = false) /\
  clean_data.cap (Some (of_Z 15000000)) = None /\
  clean_data.cap (Some (of_Z 9999999)) = Some (of_Z 9999999) /\
  clean_data.cap (Some (of_Z 10000000)) = Some (of_Z 10000000) /\
  clean_data.cap (Some (of_Z 10000001)) = None /\
  (fun r => (clean_data.job_id r, clean_data.salary_min r, clean_data.salary_max r))
    <$> clean_data.quality_steps (clean_data.kumari_clean sample_kumari)
  = [("kj_42", Some (of_Z 25000), Some (of_Z 35000));
     ("kj_44", None, Some (of_Z 9999999))].
Proof.
  repeat match goal with |- _ /\ _ => split end.
  - intros q Hq. unfold clean_data.cap. by rewrite (proj2 (float_gt_lt q 10000000) Hq).
  - intros q Hq. unfold clean_data.cap. by rewrite (proj2 (float_gt_le q 10000000) Hq).
  - reflexivity.
  - reflexivity.
  - reflexivity.
  - intros r. by destruct r.
  - reflexivity.
  - intros df r v Hr Hv. unfold clean_data.quality_steps, clean_data.cap_outliers in Hr.
    apply list_elem_of_fmap in Hr as (r0 & -> & _).
    destruct Hv as [Hv|Hv]; simpl in Hv; by apply cap_bounded in Hv as [_ ?].
  - reflexivity.
  - reflexivity.
  - reflexivity.
  - reflexivity.
  - vm_compute. reflexivity.
Qed.

Lemma salary_outliers_capped_witness :
  clean_data.cap (Some (Finite (inject_Z 15000000))) = None /\
  clean_data.cap (Some (Finite (inject_Z 9999999))) = Some (Finite (inject_Z 9999999)).
Proof.
  split.
  - apply (proj1 salary_outliers_capped). reflexivity.
  - apply (proj1 (proj2 salary_outliers_capped)). vm_compute. discriminate.
Defined.

(** *** Duplicates *)

Lemma drop_duplicates_from_elem seen df r :
  r ∈ clean_data.drop_duplicates_from seen df -> r ∈ df /\ clean_data.subset r ∉ seen.
Proof.
  revert seen. induction df as [|x df IH]; intros seen; simpl.
  - by intros ?%elem_of_nil.
  - case_bool_decide as Hx.
    + intros [? ?]%IH. split; [by right|done].
    + intros [->|Hr]%elem_of_cons; [split; [by left|done]|].
      apply IH in Hr as [? Hns]. split; [by right|].
      intros ?. apply Hns. by right.
Qed.

Lemma drop_duplicates_from_NoDup seen df :
  NoDup (clean_data.subset <$> clean_data.drop_duplicates_from seen df).
Proof.
  revert seen. induction df as [|x df IH]; intros seen; simpl; [constructor|].
  case_bool_decide as Hx; [apply IH|].
  rewrite fmap_cons. constructor; [|apply IH].
  intros (r & Hk & Hr)%list_elem_of_fmap.
  apply drop_duplicates_from_elem in Hr as [_ Hns]. apply Hns. rewrite <- Hk. by left.
Qed.

Lemma drop_duplicates_from_key seen df r :
  r ∈ df ->
  clean_data.subset r ∈ seen \/
  clean_data.subset r ∈ clean_data.subset <$> clean_data.drop_duplicates_from seen df.
Proof.
  revert seen. induction df as [|x df IH]; intros seen; simpl.
  - by intros ?%elem_of_nil.
  - intros [->|Hr]%elem_of_cons.
    + case_bool_decide as Hx; [by left|]. right. rewrite fmap_cons. by left.
    + case_bool_decide as Hx.
      * by apply IH.
      * destruct (IH (clean_data.subset x :: seen) Hr) as [[->|?]%elem_of_cons|?].
        -- right. rewrite fmap_cons. by left.
        -- by left.
        -- right. rewrite fmap_cons. by right.
Qed.

Lemma drop_duplicates_from_sublist seen df :
  clean_data.drop_duplicates_from seen df `sublist_of` df.
Proof.
  revert seen. induction df as [|x df IH]; intros seen; simpl; [constructor|].
  case_bool_decide; [by apply sublist_cons | by apply sublist_skip].
Qed.

(** A surviving row is the first row of the frame with its key. *)
Lemma drop_duplicates_from_first seen df r :
  r ∈ clean_data.drop_duplicates_from seen df ->
  List.find (fun x => bool_decide (clean_data.subset x = clean_data.subset r)) df = Some r.
Proof.
  revert seen. induction df as [|x df IH]; intros seen; simpl.
  - by intros ?%elem_of_nil.
  - case_bool_decide as Hx.
    + intros Hr. pose proof (drop_duplicates_from_elem _ _ _ Hr) as [_ Hns].
      rewrite bool_decide_eq_false_2 by congruence. by eapply IH.
    + intros [->|Hr]%elem_of_cons; [by rewrite bool_decide_eq_true_2|].
      pose proof (drop_duplicates_from_elem _ _ _ Hr) as [_ Hns].
      rewrite bool_decide_eq_false_2; [by eapply IH|].
      intros E. apply Hns. rewrite <- E. by left.
Qed.

Lemma has_title_true (r : clean_data.clean_row) :
  clean_data.has_title r = true <->
  exists t, clean_data.title r = Some t /\ strip t <> "" /\ t <> "N/A".
Proof.
  unfold clean_data.has_title. destruct (clean_data.title r) as [t|].
  - rewrite andb_true_iff, !negb_true_iff, <- !not_true_iff_false,
      is_empty_true, eqb_eq.
    split; [intros [? ?]; by exists t | intros (? & [= <-] & ? & ?); done].
  - split; [done | intros (? & ? & _); done].
Qed.

(** The [source] column of both per-source frames holds no value. *)
Lemma source_column_empty to_numeric mero kumari :
  clean_data.source <$> clean_data.cleaned_frames to_numeric mero kumari
  = replicate (length mero + length kumari) None.
Proof.
  assert (Hzip : forall {R} (f : option pystr -> R -> clean_data.clean_row) (rows : list R),
             (forall s x, clean_data.source (f s x) = s) ->
             clean_data.source <$> zip_with f (replicate (length rows) None) rows
             = replicate (length rows) None).
  { intros R f rows Hf. induction rows as [|x rows IH]; [done|].
    cbn [length replicate zip_with]. rewrite fmap_cons, Hf. f_equal. apply IH. }
  unfold clean_data.cleaned_frames, clean_data.mero_clean, clean_data.kumari_clean.
  unfold clean_data.reindex, clean_data.broadcast in *. simpl in *.
  rewrite fmap_app, !take_replicate, !Nat.min_id, replicate_add.
  f_equal; by apply Hzip.
Qed.

(** C8. Rows whose title is missing, blank or "N/A" are dropped first,
    and among the remaining rows, taken in concatenation order (MeroJob's
    rows before KumariJob's), the rows of one (title, company, source)
    key leave exactly one row, the first of them. But the [source] cell of
    every row is empty: the name of the source is assigned to a frame
    that has no rows yet, so the key is (title, company) alone and a
    KumariJob row is dropped as the duplicate of a MeroJob row with its
    title and company. With MeroJob's "Accountant" at "Acme" before it,
    KumariJob's "Accountant" at "Acme" is lost, where the rule of the
    specification, with the source in the key, keeps both. *)
Theorem duplicates_merged_across_sources :
  (forall df : list clean_data.clean_row,
      let kept := clean_data.drop_missing_title df in
      let out := clean_data.drop_duplicates kept in
      (forall r, r ∈ kept <->
                 r ∈ df /\ exists t, clean_data.title r = Some t /\ strip t <> "" /\ t <> "N/A") /\
      kept `sublist_of` df /\
      out `sublist_of` kept /\
      NoDup (clean_data.subset <$> out) /\
      (forall r, r ∈ kept -> clean_data.subset r ∈ clean_data.subset <$> out) /\
      (forall r, r ∈ out ->
                 List.find (fun x => bool_decide (clean_data.subset x = clean_data.subset r)) kept
                 = Some r) /\
      clean_data.quality_steps df = clean_data.cap_row <$> out) /\
  (forall r, clean_data.subset r
             = (clean_data.title r, clean_data.company r, clean_data.source r)) /\
  (forall to_numeric mero kumari,
      clean_data.cleaned_frames to_numeric mero kumari
      = (clean_data.mero_clean to_numeric mero ++ clean_data.kumari_clean kumari)%list /\
      forall r, r ∈ clean_data.cleaned_frames to_numeric mero kumari ->
                clean_data.source r = None) /\
  (forall to_numeric,
      (fun r => (clean_data.job_id r, clean_data.title r, clean_data.company r,
                 clean_data.source r))
        <$> clean_data.quality_steps
              (clean_data.cleaned_frames to_numeric [accountant_mero] sample_kumari)
      = [ ("mj_1", Some "Accountant", "Acme", None);
          ("kj_42", Some "Backend Developer", "", None) ]) /\
  (forall to_numeric,
      (fun r => (clean_data.job_id r, clean_data.title r, clean_data.company r,
                 clean_data.source r))
        <$> clean_data.quality_steps (spec.frames to_numeric [accountant_mero] sample_kumari)
      = [ ("mj_1", Some "Accountant", "Acme", Some "merojob");
          ("kj_42", Some "Backend Developer", "", Some "kumarijob");
          ("kj_44", Some "Accountant", "Acme", Some "kumarijob") ]).
Proof.
  split; [|split; [|split; [|split]]].
  - intros df. cbv zeta. repeat match goal with |- _ /\ _ => split end.
    + intros r. unfold clean_data.drop_missing_title.
      rewrite list_elem_of_In, filter_In, <- list_elem_of_In, has_title_true. done.
    + unfold clean_data.drop_missing_title.
      induction df as [|x df IH]; simpl; [constructor|].
      destruct (clean_data.has_title x); [by apply sublist_skip | by apply sublist_cons].
    + apply drop_duplicates_from_sublist.
    + apply drop_duplicates_from_NoDup.
    + intros r Hr.
      destruct (drop_duplicates_from_key [] _ r Hr) as [?%elem_of_nil|?]; done.
    + intros r Hr. by eapply drop_duplicates_from_first.
    + reflexivity.
  - reflexivity.
  - intros to_numeric mero kumari. split; [reflexivity|]. intros r Hr.
    assert (Hs : clean_data.source r
                   ∈ clean_data.source <$> clean_data.cleaned_frames to_numeric mero kumari)
      by by apply list_elem_of_fmap_2.
    rewrite source_column_empty in Hs. by apply elem_of_replicate in Hs as [Hs _].
  - intros to_numeric. vm_compute. reflexivity.
  - intros to_numeric. vm_compute. reflexivity.
Qed.

Lemma duplicates_merged_across_sources_witness :
  clean_data.source (clean_data.kumari_clean_row None scenario_kumari) = None.
Proof.
  apply (proj2 (proj1 (proj2 (proj2 duplicates_merged_across_sources))
                  no_number [accountant_mero] sample_kumari)).
  apply (list_elem_of_lookup_2 _ 1). vm_compute. reflexivity.
Defined.

(** ** The raw tables *)

Section InsertOrIgnore.
Context {R : Type} (key : R -> pystr * pystr).

Lemma insert_or_ignore_present (r : R) (tbl : list R) :
  key r ∈ key <$> tbl -> database.insert_or_ignore key r tbl = tbl.
Proof. intros H. unfold database.insert_or_ignore. by rewrite bool_decide_eq_true_2. Qed.

Lemma insert_or_ignore_absent (r : R) (tbl : list R) :
  key r ∉ key <$> tbl -> database.insert_or_ignore key r tbl = (tbl ++ [r])%list.
Proof. intros H. unfold database.insert_or_ignore. by rewrite bool_decide_eq_false_2. Qed.

Lemma insert_or_ignore_prefix (r : R) (tbl : list R) :
  tbl `prefix_of` database.insert_or_ignore key r tbl.
Proof.
  unfold database.insert_or_ignore. case_bool_decide; [done|]. by apply prefix_app_r.
Qed.

Lemma insert_or_ignore_key (r : R) (tbl : list R) :
  key r ∈ key <$> database.insert_or_ignore key r tbl.
Proof.
  unfold database.insert_or_ignore. case_bool_decide; [done|].
  rewrite fmap_app, elem_of_app. right. simpl. by left.
Qed.

(** The primary key stays unique. *)
Lemma insert_or_ignore_NoDup (r : R) (tbl : list R) :
  NoDup (key <$> tbl) -> NoDup (key <$> database.insert_or_ignore key r tbl).
Proof.
  intros H. unfold database.insert_or_ignore. case_bool_decide as Hin; [done|].
  rewrite fmap_app. apply NoDup_app. split; [done|]. split.
  - intros k Hk [->|[]%elem_of_nil]%elem_of_cons. done.
  - simpl. apply NoDup_singleton.
Qed.

Lemma insert_all_prefix (rows tbl : list R) : tbl `prefix_of` database.insert_all key rows tbl.
Proof.
  revert tbl. induction rows as [|r rows IH]; intros tbl; simpl; [done|].
  etrans; [apply (insert_or_ignore_prefix r)|apply IH].
Qed.

Lemma insert_all_NoDup (rows tbl : list R) :
  NoDup (key <$> tbl) -> NoDup (key <$> database.insert_all key rows tbl).
Proof.
  revert tbl. induction rows as [|r rows IH]; intros tbl H; simpl; [done|].
  by apply IH, insert_or_ignore_NoDup.
Qed.

Lemma insert_all_keys (rows tbl : list R) (r : R) :
  r ∈ rows -> key r ∈ key <$> database.insert_all key rows tbl.
Proof.
  revert tbl. induction rows as [|x rows IH]; intros tbl; simpl.
  - by intros ?%elem_of_nil.
  - intros [->|Hr]%elem_of_cons; [|by apply IH].
    destruct (insert_all_prefix rows (database.insert_or_ignore key x tbl)) as [k ->].
    rewrite fmap_app, elem_of_app. left. apply insert_or_ignore_key.
Qed.

(** Rows whose keys are all stored change nothing. *)
Lemma insert_all_present (rows tbl : list R) :
  (forall r, r ∈ rows -> key r ∈ key <$> tbl) -> database.insert_all key rows tbl = tbl.
Proof.
  induction rows as [|x rows IH]; intros H; simpl; [done|].
  rewrite insert_or_ignore_present by (apply H; by left).
  apply IH. intros r Hr. apply H. by right.
Qed.

Lemma insert_all_twice (rows tbl : list R) :
  database.insert_all key rows (database.insert_all key rows tbl) = database.insert_all key rows tbl.
Proof. apply insert_all_present. intros r Hr. by apply insert_all_keys. Qed.

(** Under a unique key, a stored key has exactly one row. *)
Lemma one_row_per_key (tbl : list R) (k : pystr * pystr) :
  NoDup (key <$> tbl) -> k ∈ key <$> tbl ->
  length (List.filter (fun r => bool_decide (key r = k)) tbl) = 1.
Proof.
  induction tbl as [|x tbl IH]; simpl.
  - by intros _ ?%elem_of_nil.
  - intros [Hx Hnd]%NoDup_cons Hk. case_bool_decide as E.
    + simpl. f_equal. subst k.
      clear IH Hk Hnd. induction tbl as [|y tbl IH]; simpl; [done|].
      apply not_elem_of_cons in Hx as [Hne Hx].
      rewrite bool_decide_eq_false_2 by done. by apply IH.
    + apply IH; [done|]. apply elem_of_cons in Hk as [?|?]; [congruence|done].
Qed.

(** A key of the table is a key of every table that begins with it. *)
Lemma prefix_key (tbl tbl' : list R) (k : pystr * pystr) :
  tbl `prefix_of` tbl' -> k ∈ key <$> tbl -> k ∈ key <$> tbl'.
Proof. intros [rest ->] Hk. rewrite fmap_app, elem_of_app. by left. Qed.
End InsertOrIgnore.

(** ** The saves *)

Section SaveLoop.
Context {J R : Type} (key : R -> pystr * pystr).
Context (tuple : J -> result R) (handler : J -> result unit).
(** [ok job]: the handler of [job] returns. A handler that raises does
    so for a record whose [INSERT] raised, with the exception [e0]. *)
Context (ok : J -> bool) (e0 : exn).
Hypothesis handler_returns : forall job, ok job = true -> handler job = inr tt.
Hypothesis handler_raises :
  forall job, ok job = false -> (exists e, tuple job = inl e) /\ handler job = inl e0.

Lemma save_loop_rows (batch : list J) (tbl : list R) (saved : nat) :
  database.save_loop key tuple handler batch tbl saved
  = if forallb ok batch
    then inr (database.insert_all key (omap (fun job => returned (tuple job)) batch) tbl,
              saved + length (omap (fun job => returned (tuple job)) batch))
    else inl e0.
Proof.
  revert tbl saved. induction batch as [|job batch IH]; intros tbl saved.
  - cbn. by rewrite Nat.add_0_r.
  - cbn [database.save_loop forallb omap list_omap].
    destruct (ok job) eqn:Hjob; cbn [andb].
    + destruct (tuple job) as [e|row]; cbn [returned].
      * rewrite (handler_returns _ Hjob). cbn [bind]. apply IH.
      * rewrite IH. destruct (forallb ok batch); [|done].
        cbn [length database.insert_all foldl]. by rewrite Nat.add_succ_r.
    + destruct (handler_raises _ Hjob) as [[e ->] ->]. done.
Qed.

Lemma save_rows (batch : list J) (tbl : list R) :
  database.save key tuple handler batch tbl
  = if forallb ok batch
    then (database.insert_all key (omap (fun job => returned (tuple job)) batch) tbl,
          inr (length (omap (fun job => returned (tuple job)) batch)))
    else (tbl, inl e0).
Proof.
  unfold database.save. rewrite save_loop_rows. by destruct (forallb ok batch).
Qed.
End SaveLoop.

Lemma save_ext {J R} (key : R -> pystr * pystr) (tuple tuple' : J -> result R)
    (handler handler' : J -> result unit) (batch : list J) (tbl : list R) :
  (forall job, tuple job = tuple' job) ->
  (forall job, handler job = handler' job) ->
  database.save key tuple handler batch tbl = database.save key tuple' handler' batch tbl.
Proof.
  intros Ht Hh. unfold database.save.
  assert (E : forall saved tbl,
             database.save_loop key tuple handler batch tbl saved
             = database.save_loop key tuple' handler' batch tbl saved).
  { induction batch as [|job batch IH]; intros saved tbl'; [done|].
    cbn [database.save_loop]. rewrite Ht, Hh.
    destruct (tuple' job); [|apply IH]. destruct (handler' job); [done|].
    cbn [bind]. apply IH. }
  by rewrite E.
Qed.

(** [save_merojob_data] raises when it skips a job whose id is a string
    that cannot be printed, and then stores nothing; otherwise it offers
    the rows of the jobs that SQLite can bind and counts them. *)
Lemma save_merojob_data_rows repr real_text (scraped_at : pystr)
    (jobs_list : list (gmap pystr json)) (tbl : list database.merojob_row) :
  database.save_merojob_data repr real_text scraped_at jobs_list tbl
  = if forallb (fun job => database.id_prints (database.get job "id" JNull)) jobs_list
    then (database.insert_all database.merojob_key
            (database.merojob_rows repr real_text scraped_at jobs_list) tbl,
          inr (length (database.merojob_rows repr real_text scraped_at jobs_list)))
    else (tbl, inl UnicodeEncodeError).
Proof.
  unfold database.save_merojob_data, database.merojob_rows.
  apply (save_rows database.merojob_key
           (fun job => database.merojob_tuple repr real_text job scraped_at)).
  - intros job Hjob. unfold database.print_id. by rewrite Hjob.
  - intros job Hjob. unfold database.print_id. rewrite Hjob. split; [|done].
    exists UnicodeEncodeError. unfold database.merojob_tuple, database.get in *.
    destruct (job !! "id") as [[| | | |s| |]|]; try done.
    cbn in Hjob. unfold database.bind_text.
    change (database.str repr (default (JStr "") (Some (JStr s)))) with s.
    by rewrite Hjob.
Qed.

Lemma save_kumari_data_rows (scraped_at : pystr)
    (jobs_dict : list (pystr * gmap pystr pystr)) (tbl : list database.kumari_row) :
  database.save_kumari_data scraped_at jobs_dict tbl
  = if forallb (fun item => database.encodable item.1) jobs_dict
    then (database.insert_all database.kumari_key
            (database.kumari_rows scraped_at jobs_dict) tbl,
          inr (length (database.kumari_rows scraped_at jobs_dict)))
    else (tbl, inl UnicodeEncodeError).
Proof.
  unfold database.save_kumari_data, database.kumari_rows.
  etrans; [|apply (save_rows database.kumari_key
                     (fun item => database.kumari_tuple item.1 item.2 scraped_at)
                     (fun item => database.print_id (JStr item.1)))].
  - apply save_ext; by intros [job_id job].
  - intros [job_id job] Hjob. cbn [fst] in *.
    unfold database.print_id, database.id_prints. by rewrite Hjob.
  - intros [job_id job] Hjob. cbn [fst snd] in *.
    unfold database.print_id, database.id_prints. rewrite Hjob.
    split; [|done]. exists UnicodeEncodeError.
    unfold database.kumari_tuple, database.bind_text. by rewrite Hjob.
Qed.

(** The key of the row of a job is its id, as a string, and the
    timestamp of the save. *)
Lemma merojob_tuple_key repr real_text (job : gmap pystr json) (scraped_at : pystr)
    (row : database.merojob_row) :
  database.merojob_tuple repr real_text job scraped_at = inr row ->
  database.merojob_key row
  = (database.str repr (database.get job "id" (JStr "")), scraped_at).
Proof.
  unfold database.merojob_tuple, database.bind_text.
  destruct (database.encodable (database.str repr (database.get job "id" (JStr ""))));
    cbn [bind ret raise]; [|done].
  repeat match goal with
         | |- bind ?m _ = inr _ -> _ => destruct m; cbn [bind ret raise]; [done|]
         | |- bind (if ?b then _ else _) _ = inr _ -> _ => destruct b; cbn [bind ret raise]
         end.
  all: try done.
  by intros [= <-].
Qed.

Lemma kumari_tuple_key (job_id : pystr) (job : gmap pystr pystr) (scraped_at : pystr)
    (row : database.kumari_row) :
  database.kumari_tuple job_id job scraped_at = inr row ->
  database.kumari_key row = (job_id, scraped_at).
Proof.
  unfold database.kumari_tuple, database.bind_text.
  destruct (database.encodable job_id); cbn [bind ret raise]; [|done].
  repeat match goal with
         | |- bind (if ?b then _ else _) _ = inr _ -> _ => destruct b; cbn [bind ret raise]
         end.
  all: try done.
  by intros [= <-].
Qed.

Lemma elem_of_merojob_rows repr real_text scraped_at jobs_list job row :
  job ∈ jobs_list ->
  database.merojob_tuple repr real_text job scraped_at = inr row ->
  row ∈ database.merojob_rows repr real_text scraped_at jobs_list.
Proof.
  intros Hjob Hrow. unfold database.merojob_rows. apply list_elem_of_omap.
  exists job. split; [done|]. by rewrite Hrow.
Qed.

Lemma elem_of_kumari_rows scraped_at jobs_dict job_id job row :
  (job_id, job) ∈ jobs_dict ->
  database.kumari_tuple job_id job scraped_at = inr row ->
  row ∈ database.kumari_rows scraped_at jobs_dict.
Proof.
  intros Hjob Hrow. unfold database.kumari_rows. apply list_elem_of_omap.
  exists (job_id, job). split; [done|]. cbn. by rewrite Hrow.
Qed.

Lemma forallb_Forall {A} (f : A -> bool) (l : list A) :
  Forall (fun x => f x = true) l -> forallb f l = true.
Proof. induction 1 as [|x l Hx _ IH]; [done|]. cbn. by rewrite Hx, IH. Qed.

Lemma forallb_Exists {A} (f : A -> bool) (l : list A) :
  forallb f l = false -> Exists (fun x => f x = false) l.
Proof.
  induction l as [|x l IH]; [done|]. cbn. destruct (f x) eqn:Hx; cbn.
  - intros H. right. by apply IH.
  - intros _. by left.
Qed.

(** The table after a save: the batch that was offered is empty when the
    save raised. *)
Lemma save_merojob_data_table repr real_text (scraped_at : pystr)
    (jobs_list : list (gmap pystr json)) (tbl : list database.merojob_row) :
  (database.save_merojob_data repr real_text scraped_at jobs_list tbl).1
  = database.insert_all database.merojob_key
      (if forallb (fun job => database.id_prints (database.get job "id" JNull)) jobs_list
       then database.merojob_rows repr real_text scraped_at jobs_list else []) tbl.
Proof. rewrite save_merojob_data_rows. by destruct (forallb _ _). Qed.

Lemma save_kumari_data_table (scraped_at : pystr)
    (jobs_dict : list (pystr * gmap pystr pystr)) (tbl : list database.kumari_row) :
  (database.save_kumari_data scraped_at jobs_dict tbl).1
  = database.insert_all database.kumari_key
      (if forallb (fun item => database.encodable item.1) jobs_dict
       then database.kumari_rows scraped_at jobs_dict else []) tbl.
Proof. rewrite save_kumari_data_rows. by destruct (forallb _ _). Qed.

(** A job whose key is stored leaves the table as it is; when SQLite can
    bind it, the save returns and counts it. *)
Lemma save_merojob_data_collision repr real_text (scraped_at : pystr)
    (job : gmap pystr json) (tbl : list database.merojob_row) :
  (database.str repr (database.get job "id" (JStr "")), scraped_at)
    ∈ database.merojob_key <$> tbl ->
  (database.save_merojob_data repr real_text scraped_at [job] tbl).1 = tbl /\
  (forall row,
      database.merojob_tuple repr real_text job scraped_at = inr row ->
      database.save_merojob_data repr real_text scraped_at [job] tbl = (tbl, inr 1)).
Proof.
  intros Hin. unfold database.save_merojob_data, database.save.
  cbn [database.save_loop].
  destruct (database.merojob_tuple repr real_text job scraped_at) as [e|row] eqn:Hrow.
  - split; [|done]. by destruct (database.print_id _) as [?|[]].
  - rewrite insert_or_ignore_present
      by by rewrite (merojob_tuple_key _ _ _ _ _ Hrow).
    cbn. split; [done|]. by intros ? [= <-].
Qed.

Lemma save_kumari_data_collision (scraped_at job_id : pystr) (job : gmap pystr pystr)
    (tbl : list database.kumari_row) :
  (job_id, scraped_at) ∈ database.kumari_key <$> tbl ->
  (database.save_kumari_data scraped_at [(job_id, job)] tbl).1 = tbl /\
  (forall row,
      database.kumari_tuple job_id job scraped_at = inr row ->
      database.save_kumari_data scraped_at [(job_id, job)] tbl = (tbl, inr 1)).
Proof.
  intros Hin. unfold database.save_kumari_data, database.save.
  cbn [database.save_loop].
  destruct (database.kumari_tuple job_id job scraped_at) as [e|row] eqn:Hrow.
  - split; [|done]. by destruct (database.print_id _) as [?|[]].
  - rewrite insert_or_ignore_present by by rewrite (kumari_tuple_key _ _ _ _ Hrow).
    cbn. split; [done|]. by intros ? [= <-].
Qed.

(** C9. On a raw table whose primary key (native id, ingestion timestamp)
    is unique, saving a batch keeps the stored rows as they are and in
    place and keeps the key unique, so a key that was stored has exactly
    one row afterwards, the one it had. A record whose key is already
    stored changes nothing, whether SQLite can bind its values or not, and
    is no error: the save of a record that can be bound returns and
    counts it. Saving the same batch again with the same timestamp gives
    the same table. When the save returns, every record of the batch that
    SQLite can bind has exactly one row for its key. The save raises in
    one case only, when it skips a record whose id holds a lone surrogate,
    which the message of the skip cannot print; nothing is stored then.
    This holds for both raw tables. *)
Theorem natural_key_idempotence (repr : json -> pystr) (real_text : jfloat -> pystr)
    (scraped_at : pystr)
    (jobs_list : list (gmap pystr json))
    (jobs_dict : list (pystr * gmap pystr pystr))
    (merojob_raw : list database.merojob_row) (kumari_raw : list database.kumari_row) :
  NoDup (database.merojob_key <$> merojob_raw) ->
  NoDup (database.kumari_key <$> kumari_raw) ->
  let mero := database.save_merojob_data repr real_text scraped_at jobs_list merojob_raw in
  let kumari := database.save_kumari_data scraped_at jobs_dict kumari_raw in
  (merojob_raw `prefix_of` mero.1 /\
   NoDup (database.merojob_key <$> mero.1) /\
   (forall k, k ∈ database.merojob_key <$> merojob_raw ->
      length (List.filter (fun r => bool_decide (database.merojob_key r = k)) mero.1) = 1) /\
   (forall job,
      (database.str repr (database.get job "id" (JStr "")), scraped_at)
        ∈ database.merojob_key <$> merojob_raw ->
      (database.save_merojob_data repr real_text scraped_at [job] merojob_raw).1
      = merojob_raw /\
      forall row,
        database.merojob_tuple repr real_text job scraped_at = inr row ->
        database.save_merojob_data repr real_text scraped_at [job] merojob_raw
        = (merojob_raw, inr 1)) /\
   (database.save_merojob_data repr real_text scraped_at jobs_list mero.1).1 = mero.1 /\
   (Forall (fun job => database.id_prints (database.get job "id" JNull) = true) jobs_list ->
    exists saved, mero.2 = inr saved) /\
   (forall saved job row,
      mero.2 = inr saved -> job ∈ jobs_list ->
      database.merojob_tuple repr real_text job scraped_at = inr row ->
      length (List.filter
                (fun r => bool_decide
                   (database.merojob_key r
                    = (database.str repr (database.get job "id" (JStr "")), scraped_at)))
                mero.1) = 1) /\
   (forall e,
      mero.2 = inl e ->
      mero.1 = merojob_raw /\
      Exists (fun job => exists s, job !! "id" = Some (JStr s) /\ database.encodable s = false)
             jobs_list)) /\
  (kumari_raw `prefix_of` kumari.1 /\
   NoDup (database.kumari_key <$> kumari.1) /\
   (forall k, k ∈ database.kumari_key <$> kumari_raw ->
      length (List.filter (fun r => bool_decide (database.kumari_key r = k)) kumari.1) = 1) /\
   (forall job_id job,
      (job_id, scraped_at) ∈ database.kumari_key <$> kumari_raw ->
      (database.save_kumari_data scraped_at [(job_id, job)] kumari_raw).1 = kumari_raw /\
      forall row,
        database.kumari_tuple job_id job scraped_at = inr row ->
        database.save_kumari_data scraped_at [(job_id, job)] kumari_raw
        = (kumari_raw, inr 1)) /\
   (database.save_kumari_data scraped_at jobs_dict kumari.1).1 = kumari.1 /\
   (Forall (fun item => database.encodable item.1 = true) jobs_dict ->
    exists saved, kumari.2 = inr saved) /\
   (forall saved job_id job row,
      kumari.2 = inr saved -> (job_id, job) ∈ jobs_dict ->
      database.kumari_tuple job_id job scraped_at = inr row ->
      length (List.filter
                (fun r => bool_decide (database.kumari_key r = (job_id, scraped_at)))
                kumari.1) = 1) /\
   (forall e,
      kumari.2 = inl e ->
      kumari.1 = kumari_raw /\
      Exists (fun item => database.encodable item.1 = false) jobs_dict)).
Proof.
  intros Hm Hk. cbv zeta.
  split; repeat match goal with |- _ /\ _ => split end.
  - rewrite save_merojob_data_table. apply insert_all_prefix.
  - rewrite save_merojob_data_table. by apply insert_all_NoDup.
  - intros k Hin. rewrite save_merojob_data_table.
    apply one_row_per_key; [by apply insert_all_NoDup|].
    eapply prefix_key; [apply insert_all_prefix|done].
  - intros job. apply save_merojob_data_collision.
  - rewrite !save_merojob_data_table. apply insert_all_twice.
  - intros Hall. rewrite save_merojob_data_rows, forallb_Forall by done. by eexists.
  - intros saved job row. rewrite save_merojob_data_rows.
    destruct (forallb _ jobs_list); [|done]. cbn [fst snd]. intros _ Hjob Hrow.
    apply one_row_per_key; [by apply insert_all_NoDup|].
    rewrite <- (merojob_tuple_key _ _ _ _ _ Hrow).
    apply insert_all_keys. by eapply elem_of_merojob_rows.
  - intros e. rewrite save_merojob_data_rows.
    destruct (forallb _ jobs_list) eqn:Hall; [done|]. cbn [fst snd]. intros _.
    split; [done|]. apply forallb_Exists in Hall.
    eapply Exists_impl; [exact Hall|]. intros job. cbn beta.
    unfold database.get. destruct (job !! "id") as [[| | | |s| |]|]; try done.
    cbn. by exists s.
  - rewrite save_kumari_data_table. apply insert_all_prefix.
  - rewrite save_kumari_data_table. by apply insert_all_NoDup.
  - intros k Hin. rewrite save_kumari_data_table.
    apply one_row_per_key; [by apply insert_all_NoDup|].
    eapply prefix_key; [apply insert_all_prefix|done].
  - intros job_id job. apply save_kumari_data_collision.
  - rewrite !save_kumari_data_table. apply insert_all_twice.
  - intros Hall. rewrite save_kumari_data_rows, forallb_Forall by done. by eexists.
  - intros saved job_id job row. rewrite save_kumari_data_rows.
    destruct (forallb _ jobs_dict); [|done]. cbn [fst snd]. intros _ Hjob Hrow.
    apply one_row_per_key; [by apply insert_all_NoDup|].
    rewrite <- (kumari_tuple_key _ _ _ _ Hrow).
    apply insert_all_keys. by eapply elem_of_kumari_rows.
  - intros e. rewrite save_kumari_data_rows.
    destruct (forallb _ jobs_dict) eqn:Hall; [done|]. cbn [fst snd]. intros _.
    split; [done|]. by apply forallb_Exists in Hall.
Qed.

Lemma natural_key_idempotence_witness :
  let t0 := "2026-01-01T00:00:00" in
  let merojob_raw' :=
    (database.save_merojob_data no_repr no_real_text t0 sample_jobs_list []).1 in
  let kumari_raw' := (database.save_kumari_data t0 sample_jobs_dict sample_kumari).1 in
  (database.save_merojob_data no_repr no_real_text t0 sample_jobs_list merojob_raw').1
  = merojob_raw' /\
  (database.save_kumari_data t0 sample_jobs_dict kumari_raw').1 = kumari_raw'.
Proof.
  cbv zeta.
  assert (Hm : NoDup (database.merojob_key <$> @nil database.merojob_row))
    by (apply (bool_decide_unpack _); vm_compute; exact I).
  assert (Hk : NoDup (database.kumari_key <$> sample_kumari))
    by (apply (bool_decide_unpack _); vm_compute; exact I).
  pose proof (natural_key_idempotence no_repr no_real_text "2026-01-01T00:00:00"
                sample_jobs_list sample_jobs_dict [] sample_kumari Hm Hk) as H.
  cbv zeta in H. split; [apply H | apply H].
Defined.

(** ** The stages of a run *)

Lemma scrape_kumari_jobs_raises net scraped_at tbl e :
  scrape_kumari.scrape_body net scraped_at tbl = inl e ->
  scrape_kumari.scrape_kumari_jobs net scraped_at tbl = (tbl, 0).
Proof. unfold scrape_kumari.scrape_kumari_jobs. intros ->. by destruct e. Qed.

Lemma scrape_body_main_page net scraped_at tbl e :
  scrape_kumari.main_page net = inl e ->
  scrape_kumari.scrape_body net scraped_at tbl = inl e.
Proof. unfold scrape_kumari.scrape_body. by intros ->. Qed.

(** C10. A stage that raises is counted 0 in the summary and the run goes
    on: whatever the three stages do, [full_pipeline] returns, its world
    is the one the cleaning stage leaves after the KumariJob stage after
    the MeroJob stage, and the count of a stage that raised is 0. The
    KumariJob scraper returns 0 itself, with the raw table untouched,
    whenever an exception leaves the body of its [try], a failed request
    for the listing page being one case; so its stage never raises. *)
Theorem failed_stage_counts_zero {World Row : Type}
    (scrape_mero scrape_kumari : World -> result nat * World)
    (clean_and_merge : World -> result (option (list Row)) * World)
    (w : World) :
  let run := scheduler.full_pipeline scrape_mero scrape_kumari clean_and_merge w in
  let w1 := (scrape_mero w).2 in
  let w2 := (scrape_kumari w1).2 in
  run.2 = (clean_and_merge w2).2 /\
  run.1 = (scheduler.count_or_zero (scrape_mero w).1,
           scheduler.count_or_zero (scrape_kumari w1).1,
           scheduler.clean_count_of (clean_and_merge w2).1) /\
  (forall e, (scrape_mero w).1 = inl e -> run.1.1.1 = 0) /\
  (forall e, (scrape_kumari w1).1 = inl e -> run.1.1.2 = 0) /\
  (forall e, (clean_and_merge w2).1 = inl e -> run.1.2 = 0) /\
  (forall net scraped_at tbl e,
      scrape_kumari.scrape_body net scraped_at tbl = inl e ->
      scrape_kumari.scrape_kumari_jobs net scraped_at tbl = (tbl, 0)) /\
  (forall net scraped_at tbl e,
      scrape_kumari.main_page net = inl e ->
      scrape_kumari.scrape_kumari_jobs net scraped_at tbl = (tbl, 0)) /\
  (forall net scraped_at db,
      exists n, (scheduler.kumari_stage net scraped_at db).1 = inr n) /\
  scrape_kumari.scrape_kumari_jobs unreachable "2026-01-01T00:00:00" sample_kumari
  = (sample_kumari, 0) /\
  scrape_kumari.scrape_body malformed_page "2026-01-01T00:00:00" sample_kumari = inl KeyError /\
  scrape_kumari.scrape_kumari_jobs malformed_page "2026-01-01T00:00:00" sample_kumari
  = (sample_kumari, 0) /\
  (scrape_kumari.scrape_kumari_jobs healthy_page "2026-01-01T00:00:00" []).2 = 1.
Proof.
  cbv zeta. unfold scheduler.full_pipeline.
  destruct (scrape_mero w) as [r1 w1]. cbn [fst snd].
  destruct (scrape_kumari w1) as [r2 w2]. cbn [fst snd].
  destruct (clean_and_merge w2) as [r3 w3]. cbn [fst snd].
  repeat match goal with |- _ /\ _ => split end.
  - reflexivity.
  - reflexivity.
  - by intros e ->.
  - by intros e ->.
  - by intros e ->.
  - apply scrape_kumari_jobs_raises.
  - intros net scraped_at tbl e He.
    by eapply scrape_kumari_jobs_raises, scrape_body_main_page.
  - intros net scraped_at db. unfold scheduler.kumari_stage.
    destruct (scrape_kumari.scrape_kumari_jobs _ _ _) as [tbl n]. by exists n.
  - reflexivity.
  - vm_compute. reflexivity.
  - vm_compute. reflexivity.
  - vm_compute. reflexivity.
Qed.

Lemma failed_stage_counts_zero_witness :
  let run := scheduler.full_pipeline mero_raises
               (scheduler.kumari_stage unreachable "2026-01-01T00:00:00")
               (scheduler.clean_stage no_number no_dates)
               {| clean_data.merojob_raw := []; clean_data.kumari_raw := sample_kumari;
                  clean_data.jobs_clean := None |} in
  run.1.1.1 = 0 /\ run.1 = (0, 0, 2).
Proof.
  cbv zeta. split.
  - eapply (failed_stage_counts_zero mero_raises
              (scheduler.kumari_stage unreachable "2026-01-01T00:00:00")
              (scheduler.clean_stage no_number no_dates)).
    reflexivity.
  - etrans.
    + apply (failed_stage_counts_zero mero_raises
               (scheduler.kumari_stage unreachable "2026-01-01T00:00:00")
               (scheduler.clean_stage no_number no_dates)).
    + vm_compute. reflexivity.
Defined.

(** * Further properties of the code *)

(** ** Trimming and title case *)

Lemma rstrip_idempotent (s : pystr) : rstrip (rstrip s) = rstrip s.
Proof.
  induction s as [|c t IH]; [done|]. cbn [rstrip].
  destruct (is_space c && is_empty (rstrip t)) eqn:E; [done|].
  cbn [rstrip]. by rewrite IH, E.
Qed.

Lemma lstrip_starts (s : pystr) : starts_with is_space (lstrip s) = false.
Proof.
  induction s as [|c t IH]; [done|]. cbn [lstrip].
  destruct (is_space c) eqn:E; [done|]. cbn [starts_with]. done.
Qed.

Lemma lstrip_fixed (s : pystr) : starts_with is_space s = false -> lstrip s = s.
Proof. destruct s as [|c t]; [done|]. cbn [starts_with lstrip]. by intros ->. Qed.

Lemma rstrip_starts (s : pystr) :
  starts_with is_space s = false -> starts_with is_space (rstrip s) = false.
Proof.
  destruct s as [|c t]; [done|]. cbn [starts_with rstrip]. intros Hc.
  rewrite Hc. cbn [andb starts_with]. exact Hc.
Qed.

Lemma strip_starts (s : pystr) : starts_with is_space (strip s) = false.
Proof. apply rstrip_starts, lstrip_starts. Qed.

Lemma rstrip_ends (s : pystr) : ends_with is_space (rstrip s) = false.
Proof.
  induction s as [|c t IH]; [done|]. cbn [rstrip].
  destruct (is_space c) eqn:Hc, (is_empty (rstrip t)) eqn:Ht; cbn [andb]; try done.
  all: cbn [ends_with]; by rewrite Ht.
Qed.

Lemma rstrip_fixed (s : pystr) : ends_with is_space s = false -> rstrip s = s.
Proof.
  induction s as [|c t IH]; [done|]. cbn [ends_with rstrip].
  destruct (is_empty t) eqn:Ht.
  - apply is_empty_true in Ht. subst t. by intros ->.
  - intros H. rewrite (IH H), Ht. by rewrite andb_false_r.
Qed.

Lemma strip_ends (s : pystr) : ends_with is_space (strip s) = false.
Proof. apply rstrip_ends. Qed.

(** [strip] of a trimmed string is the string. *)
Lemma strip_idempotent (s : pystr) : strip (strip s) = strip s.
Proof.
  unfold strip at 1. rewrite (lstrip_fixed (strip s)) by apply strip_starts.
  apply rstrip_idempotent.
Qed.

(** A string without white space at either end is trimmed. *)
Lemma strip_fixed (s : pystr) :
  starts_with is_space s = false -> ends_with is_space s = false -> strip s = s.
Proof. intros Hs He. unfold strip. by rewrite lstrip_fixed, rstrip_fixed. Qed.

Lemma assoc_elem (c : char) (table : list (char * list char)) (m : list char) :
  assoc c table = Some m -> (c, m) ∈ table.
Proof.
  induction table as [|[k m'] table IH]; cbn [assoc]; [done|].
  destruct (c =? k)%N eqn:E.
  - apply N.eqb_eq in E. subst k. intros [= ->]. by left.
  - destruct (c <? k)%N; [done|]. intros H. right. by apply IH.
Qed.

(** No case mapping is empty, and none holds white space. *)
Lemma case_tables_hold_no_space :
  forallb (fun e : char * list char =>
             negb (bool_decide (e.2 = [])) && forallb (fun x => negb (is_space x)) e.2)
          (lower_table ++ title_table) = true.
Proof. vm_compute. reflexivity. Qed.

Lemma table_image (c : char) (table : list (char * list char)) :
  forallb (fun e : char * list char =>
             negb (bool_decide (e.2 = [])) && forallb (fun x => negb (is_space x)) e.2)
          table = true ->
  default [c] (assoc c table) <> [] /\
  (is_space c = false -> Forall (fun x => is_space x = false) (default [c] (assoc c table))).
Proof.
  intros Htable. destruct (assoc c table) as [m|] eqn:E; cbn [default from_option id].
  - apply assoc_elem in E. rewrite forallb_forall in Htable.
    apply list_elem_of_In, Htable in E. cbn [snd] in E.
    apply andb_prop in E as [Hne Hall]. split.
    + apply negb_true_iff, bool_decide_eq_false in Hne. done.
    + intros _. rewrite forallb_forall in Hall. apply Forall_forall.
      intros x Hx. apply list_elem_of_In, Hall in Hx. by apply negb_true_iff in Hx.
  - split; [done|]. intros Hc. by repeat constructor.
Qed.

(** The image of a character under [str.lower] and [str.title] is not
    empty, and that of a character other than white space holds no white
    space. *)
Lemma case_image (previous_is_cased after_cased : bool) (c : char) (rest : pystr) :
  let image :=
    if previous_is_cased then lower_ucs4 after_cased c rest else to_title_full c in
  image <> [] /\ (is_space c = false -> Forall (fun x => is_space x = false) image).
Proof.
  pose proof case_tables_hold_no_space as Htables.
  rewrite forallb_app in Htables. apply andb_prop in Htables as [Hlower Htitle].
  cbv zeta. destruct previous_is_cased.
  - unfold lower_ucs4. destruct (c =? 931)%N.
    + split; [done|]. intros _.
      destruct (after_cased && no_cased_ahead rest); by repeat constructor.
    + by apply table_image.
  - by apply table_image.
Qed.

Lemma prepend_starts (p : char -> bool) (m : list char) (t : pystr) :
  m <> [] -> Forall (fun x => p x = false) m -> starts_with p (prepend m t) = false.
Proof. destruct m as [|x m]; [done|]. intros _ Hm. by inversion Hm. Qed.

Lemma prepend_empty (m : list char) (t : pystr) :
  m <> [] -> is_empty (prepend m t) = false.
Proof. by destruct m. Qed.

Lemma prepend_ends (p : char -> bool) (m : list char) (t : pystr) :
  m <> [] ->
  (is_empty t = true -> Forall (fun x => p x = false) m) ->
  ends_with p t = false ->
  ends_with p (prepend m t) = false.
Proof.
  intros Hne Hm Ht. induction m as [|x m IH]; [done|].
  change (prepend (x :: m) t) with (Chr x (prepend m t)). cbn [ends_with].
  destruct m as [|y m].
  - change (prepend [] t) with t. destruct (is_empty t) eqn:E; [|done].
    specialize (Hm eq_refl). by inversion Hm.
  - rewrite prepend_empty by done. apply IH; [done|].
    intros E. specialize (Hm E). by inversion Hm.
Qed.

Lemma title_from_empty (b a : bool) (s : pystr) : is_empty (title_from b a s) = is_empty s.
Proof.
  destruct s as [|c t]; [done|]. cbn [title_from is_empty].
  apply prepend_empty, case_image.
Qed.

Lemma title_from_starts (b a : bool) (s : pystr) :
  starts_with is_space s = false -> starts_with is_space (title_from b a s) = false.
Proof.
  destruct s as [|c t]; [done|]. cbn [title_from starts_with]. intros Hc.
  destruct (case_image b a c t) as [Hne Hall]. apply prepend_starts; auto.
Qed.

Lemma title_from_ends (b a : bool) (s : pystr) :
  ends_with is_space s = false -> ends_with is_space (title_from b a s) = false.
Proof.
  revert b a. induction s as [|c t IH]; intros b a; [done|].
  cbn [title_from ends_with]. intros H.
  destruct (case_image b a c t) as [Hne Hall].
  apply prepend_ends; [done| |].
  - rewrite title_from_empty. intros Ht. rewrite Ht in H. auto.
  - destruct (is_empty t) eqn:Ht; [|by apply IH].
    apply is_empty_true in Ht. by subst t.
Qed.

(** The title case of a trimmed string is trimmed. *)
Lemma strip_title_strip (s : pystr) : strip (title (strip s)) = title (strip s).
Proof.
  apply strip_fixed.
  - apply title_from_starts, strip_starts.
  - apply title_from_ends, strip_ends.
Qed.

Lemma title_empty (s : pystr) : title s = "" -> s = "".
Proof.
  intros H. apply is_empty_true. unfold title in H.
  rewrite <- (title_from_empty false false s), H. done.
Qed.

(** ** The normalized columns *)

Lemma mapped_values (k v : pystr) :
  clean_data.mapping !! k = Some v ->
  v ∈ ["Kathmandu"; "Pokhara"; "Bhaktapur"; "Lalitpur"; "Birgunj"; "Butwal"].
Proof.
  intros H%mapping_lookup. unfold clean_data.abbreviations in H.
  repeat (apply elem_of_cons in H as [[= -> ->]|H];
          [apply (bool_decide_unpack _); vm_compute; exact I|]).
  by apply elem_of_nil in H.
Qed.

Lemma clean_location_cases (loc : pystr) :
  clean_data.clean_location (Some loc) = "Unknown" \/
  clean_data.clean_location (Some loc)
    ∈ ["Kathmandu"; "Pokhara"; "Bhaktapur"; "Lalitpur"; "Birgunj"; "Butwal"] \/
  (clean_data.clean_location (Some loc) = strip loc /\
   spec.placeholder loc = false /\ clean_data.mapping !! strip loc = None).
Proof.
  unfold clean_data.clean_location. cbv zeta. rewrite location_test_is_placeholder.
  destruct (spec.placeholder loc) eqn:E; [by left|]. right.
  destruct (clean_data.mapping !! strip loc) as [v|] eqn:Hm.
  - left. by eapply mapped_values.
  - by right.
Qed.

(** Normalizing a normalized location changes nothing. *)
Theorem clean_location_idempotent (loc : option pystr) :
  clean_data.clean_location (Some (clean_data.clean_location loc))
  = clean_data.clean_location loc.
Proof.
  destruct loc as [loc|]; [|vm_compute; reflexivity].
  destruct (clean_location_cases loc) as [->|[H|(-> & Hp & Hm)]].
  - vm_compute. reflexivity.
  - repeat (apply elem_of_cons in H as [->|H]; [vm_compute; reflexivity|]).
    by apply elem_of_nil in H.
  - unfold clean_data.clean_location. cbv zeta.
    rewrite location_test_is_placeholder.
    unfold spec.placeholder in *. rewrite !strip_idempotent, Hp, Hm. done.
Qed.

(** A normalized location is never empty. *)
Lemma clean_location_nonempty (loc : option pystr) : clean_data.clean_location loc <> "".
Proof.
  destruct loc as [loc|]; [|done].
  destruct (clean_location_cases loc) as [->|[H|(-> & Hp & Hm)]]; [done| |].
  - intros E. rewrite E in H.
    repeat (apply elem_of_cons in H as [[=]|H]). by apply elem_of_nil in H.
  - intros E. unfold spec.placeholder in Hp. rewrite E in Hp. vm_compute in Hp. done.
Qed.

Lemma replace_nonempty (cell : pystr) : clean_data.replace "" "Unknown" cell <> "".
Proof.
  unfold clean_data.replace. destruct (eqb cell "") eqn:E; [done|].
  by apply eqb_neq in E.
Qed.

Lemma elem_of_mero_clean to_numeric mero r :
  r ∈ clean_data.mero_clean to_numeric mero ->
  exists src m, r = clean_data.mero_clean_row to_numeric src m /\ m ∈ mero.
Proof.
  unfold clean_data.mero_clean. intros (src & m & -> & _ & Hm)%elem_of_zip_with. eauto.
Qed.

Lemma elem_of_kumari_clean kumari r :
  r ∈ clean_data.kumari_clean kumari ->
  exists src k, r = clean_data.kumari_clean_row src k /\ k ∈ kumari.
Proof.
  unfold clean_data.kumari_clean. intros (src & k & -> & _ & Hk)%elem_of_zip_with. eauto.
Qed.

Lemma elem_of_quality_steps df r :
  r ∈ clean_data.quality_steps df ->
  exists r0, r = clean_data.cap_row r0 /\ r0 ∈ df /\ clean_data.has_title r0 = true.
Proof.
  unfold clean_data.quality_steps, clean_data.cap_outliers.
  intros (r0 & -> & Hr0)%list_elem_of_fmap. exists r0. split; [done|].
  apply drop_duplicates_from_elem in Hr0 as [Hr0 _].
  unfold clean_data.drop_missing_title in Hr0.
  by rewrite list_elem_of_In, filter_In, <- list_elem_of_In in Hr0.
Qed.

(** Every row of the rebuilt table has a title that is present, trimmed
    of the white space [str.strip] removes, not empty and not "N/A", a
    location and a category that are not empty, and salary bounds of at
    most 10,000,000. *)
Theorem clean_rows_invariant to_numeric mero kumari r :
  r ∈ clean_data.quality_steps (clean_data.cleaned_frames to_numeric mero kumari) ->
  (exists t, clean_data.title r = Some t /\ strip t = t /\ t <> "" /\ t <> "N/A") /\
  clean_data.location r <> "" /\
  clean_data.category r <> "" /\
  (forall v, clean_data.salary_min r = Some v -> float_gt v 10000000 = false) /\
  (forall v, clean_data.salary_max r = Some v -> float_gt v 10000000 = false).
Proof.
  intros (r0 & -> & Hin & Ht)%elem_of_quality_steps.
  apply has_title_true in Ht as (t & Ht & Hne & Hna).
  assert (Hrow : (exists raw, t = title (strip raw)) /\
                 clean_data.location r0 <> "" /\ clean_data.category r0 <> "").
  { unfold clean_data.cleaned_frames in Hin. apply elem_of_app in Hin as [Hin|Hin].
    - apply elem_of_mero_clean in Hin as (src & m & -> & _). cbn in *.
      destruct (database.title m) as [raw|]; [|done]. cbn in Ht. injection Ht as <-.
      split; [by exists raw|]. split; [apply clean_location_nonempty|apply replace_nonempty].
    - apply elem_of_kumari_clean in Hin as (src & k & -> & _). cbn in *.
      destruct (database.k_job_title k) as [raw|]; [|done]. cbn in Ht. injection Ht as <-.
      split; [by exists raw|]. split; [done|apply replace_nonempty]. }
  destruct Hrow as ((raw & ->) & Hloc & Hcat).
  split; [|split; [|split; [|split]]].
  - exists (title (strip raw)). split; [by destruct r0|].
    split; [apply strip_title_strip|]. split; [|done].
    intros E. apply Hne. by rewrite E.
  - by destruct r0.
  - by destruct r0.
  - intros v Hv. destruct r0; cbn in Hv. by apply cap_bounded in Hv as [_ ?].
  - intros v Hv. destruct r0; cbn in Hv. by apply cap_bounded in Hv as [_ ?].
Qed.

Lemma clean_rows_invariant_witness :
  let r := clean_data.cap_row
             (clean_data.mero_clean_row no_number None scenario_mero) in
  (exists t, clean_data.title r = Some t /\ strip t = t /\ t <> "" /\ t <> "N/A") /\
  clean_data.location r <> "" /\
  clean_data.category r <> "" /\
  (forall v, clean_data.salary_min r = Some v -> float_gt v 10000000 = false) /\
  (forall v, clean_data.salary_max r = Some v -> float_gt v 10000000 = false).
Proof.
  apply (clean_rows_invariant no_number [scenario_mero] sample_kumari).
  apply (list_elem_of_lookup_2 _ 0). vm_compute. reflexivity.
Defined.

(** The job ids of a frame carry the prefix of their source and the
    native id behind it, so a MeroJob row and a KumariJob row never share
    a job id, and two rows of one source share it only with the native
    id. *)
Theorem job_id_prefixes to_numeric mero kumari :
  (forall r, r ∈ clean_data.mero_clean to_numeric mero ->
             exists m, m ∈ mero /\ clean_data.job_id r = "mj_" +:+ database.id m) /\
  (forall r, r ∈ clean_data.kumari_clean kumari ->
             exists k, k ∈ kumari /\ clean_data.job_id r = "kj_" +:+ database.k_job_id k) /\
  (forall r1 r2, r1 ∈ clean_data.mero_clean to_numeric mero ->
                 r2 ∈ clean_data.kumari_clean kumari ->
                 clean_data.job_id r1 <> clean_data.job_id r2) /\
  (forall a b : pystr, "mj_" +:+ a = "mj_" +:+ b -> a = b) /\
  (forall a b : pystr, "kj_" +:+ a = "kj_" +:+ b -> a = b).
Proof.
  repeat match goal with |- _ /\ _ => split end.
  - intros r (src & m & -> & Hm)%elem_of_mero_clean. by exists m.
  - intros r (src & k & -> & Hk)%elem_of_kumari_clean. by exists k.
  - intros r1 r2 (? & m & -> & _)%elem_of_mero_clean (? & k & -> & _)%elem_of_kumari_clean.
    cbn. intros [=].
  - by intros a b [=].
  - by intros a b [=].
Qed.

Lemma job_id_prefixes_witness :
  exists k, k ∈ sample_kumari /\
            clean_data.job_id (clean_data.kumari_clean_row None scenario_kumari)
            = "kj_" +:+ database.k_job_id k.
Proof.
  apply (proj1 (proj2 (job_id_prefixes no_number [scenario_mero] sample_kumari))).
  apply (list_elem_of_lookup_2 _ 0). vm_compute. reflexivity.
Defined.

(** ** The quality gates, applied again *)

Lemma cap_idempotent (x : option pyfloat) : clean_data.cap (clean_data.cap x) = clean_data.cap x.
Proof.
  destruct x as [v|]; [|done]. unfold clean_data.cap.
  destruct (float_gt v 10000000) eqn:E; [done|]. by rewrite E.
Qed.

Lemma cap_row_idempotent (r : clean_data.clean_row) :
  clean_data.cap_row (clean_data.cap_row r) = clean_data.cap_row r.
Proof. destruct r. unfold clean_data.cap_row. cbn. by rewrite !cap_idempotent. Qed.

Lemma filter_fixed {A} (p : A -> bool) (l : list A) :
  (forall x, x ∈ l -> p x = true) -> List.filter p l = l.
Proof.
  induction l as [|x l IH]; intros H; [done|]. cbn.
  rewrite (H x) by by left. f_equal. apply IH. intros y Hy. apply H. by right.
Qed.

(** A frame whose keys are all different and unseen has no duplicate to
    drop. *)
Lemma drop_duplicates_from_fixed seen df :
  NoDup (clean_data.subset <$> df) ->
  (forall r, r ∈ df -> clean_data.subset r ∉ seen) ->
  clean_data.drop_duplicates_from seen df = df.
Proof.
  revert seen. induction df as [|x df IH]; intros seen Hnd Hseen; [done|].
  rewrite fmap_cons in Hnd. apply NoDup_cons in Hnd as [Hx Hnd].
  cbn [clean_data.drop_duplicates_from].
  rewrite bool_decide_eq_false_2 by (apply Hseen; by left).
  f_equal. apply IH; [done|].
  intros r Hr [E|Hin]%elem_of_cons.
  - apply Hx. rewrite <- E. by apply list_elem_of_fmap_2.
  - apply (Hseen r); [by right|done].
Qed.

(** The quality gates are idempotent: a frame that went through them goes
    through them again unchanged. *)
Theorem quality_steps_idempotent (df : list clean_data.clean_row) :
  clean_data.quality_steps (clean_data.quality_steps df) = clean_data.quality_steps df.
Proof.
  set (d := clean_data.drop_duplicates (clean_data.drop_missing_title df)).
  assert (Hq : clean_data.quality_steps df = clean_data.cap_row <$> d) by reflexivity.
  assert (Hkeys : clean_data.subset <$> (clean_data.cap_row <$> d) = clean_data.subset <$> d).
  { rewrite <- list_fmap_compose. apply list_fmap_ext. by intros _ [] _. }
  rewrite Hq. unfold clean_data.quality_steps at 1.
  unfold clean_data.drop_missing_title. rewrite filter_fixed.
  - unfold clean_data.drop_duplicates. rewrite drop_duplicates_from_fixed.
    + unfold clean_data.cap_outliers. rewrite <- list_fmap_compose.
      apply list_fmap_ext. intros _ r _. apply cap_row_idempotent.
    + rewrite Hkeys. apply drop_duplicates_from_NoDup.
    + intros r _. apply not_elem_of_nil.
  - intros r (r0 & -> & Hr0)%list_elem_of_fmap.
    apply drop_duplicates_from_elem in Hr0 as [Hr0 _].
    unfold clean_data.drop_missing_title in Hr0.
    rewrite list_elem_of_In, filter_In in Hr0. destruct Hr0 as [_ Hr0].
    by destruct r0.
Qed.

(** The [source] column is empty in both frames, so the duplicate gate
    compares title and company only: the rebuilt table holds every
    (title, company) pair once, whichever sources offered it. *)
Theorem duplicates_across_sources to_numeric mero kumari :
  (forall r, r ∈ clean_data.quality_steps (clean_data.cleaned_frames to_numeric mero kumari) ->
             clean_data.source r = None) /\
  NoDup ((fun r => (clean_data.title r, clean_data.company r))
           <$> clean_data.quality_steps (clean_data.cleaned_frames to_numeric mero kumari)).
Proof.
  assert (Hsrc : forall r,
             r ∈ clean_data.quality_steps (clean_data.cleaned_frames to_numeric mero kumari) ->
             clean_data.source r = None).
  { intros r (r0 & -> & Hin & _)%elem_of_quality_steps.
    assert (Hs : clean_data.source r0
                   ∈ clean_data.source <$> clean_data.cleaned_frames to_numeric mero kumari)
      by by apply list_elem_of_fmap_2.
    rewrite source_column_empty in Hs. apply elem_of_replicate in Hs as [Hs _].
    by destruct r0. }
  split; [done|].
  set (Q := clean_data.quality_steps (clean_data.cleaned_frames to_numeric mero kumari)) in *.
  assert (HQ : NoDup (clean_data.subset <$> Q)).
  { unfold Q, clean_data.quality_steps, clean_data.cap_outliers.
    rewrite <- list_fmap_compose.
    rewrite (list_fmap_ext _ clean_data.subset); [apply drop_duplicates_from_NoDup|].
    by intros _ [] _. }
  apply (NoDup_fmap_1 (fun p : option pystr * pystr => (p, @None pystr))).
  rewrite <- list_fmap_compose.
  rewrite (list_fmap_ext _ clean_data.subset Q); [done|].
  intros i r Hr. cbn. unfold clean_data.subset.
  rewrite (Hsrc r); [done|]. by eapply list_elem_of_lookup_2.
Qed.

Lemma duplicates_across_sources_witness :
  clean_data.source
    (clean_data.cap_row (clean_data.mero_clean_row no_number None scenario_mero))
  = None.
Proof.
  apply (proj1 (duplicates_across_sources no_number [scenario_mero] sample_kumari)).
  apply (list_elem_of_lookup_2 _ 0). vm_compute. reflexivity.
Defined.

(** ** The retry loop *)

Lemma fetch_from_Some get i n page :
  scrape_kumari.fetch_from get i n = Some page <->
  exists j, j < n /\ scrape_kumari.answered (get (i + j)) = Some page /\
            forall k, k < j -> scrape_kumari.answered (get (i + k)) = None.
Proof.
  revert i. induction n as [|n IH]; intros i; cbn [scrape_kumari.fetch_from].
  - split; [done|]. intros (j & Hj & _). lia.
  - assert (Hstep : scrape_kumari.answered (get i) = None ->
              (scrape_kumari.fetch_from get (S i) n = Some page <->
               exists j, j < S n /\ scrape_kumari.answered (get (i + j)) = Some page /\
                         forall k, k < j -> scrape_kumari.answered (get (i + k)) = None)).
    { intros Hi. rewrite IH. split.
      - intros (j & Hj & Hok & Hbefore). exists (S j). split; [lia|].
        split; [by replace (i + S j) with (S i + j) by lia|].
        intros [|k] Hk; [by rewrite Nat.add_0_r|].
        replace (i + S k) with (S i + k) by lia. apply Hbefore. lia.
      - intros ([|j] & Hj & Hok & Hbefore).
        + rewrite Nat.add_0_r in Hok. congruence.
        + exists j. split; [lia|]. split; [by replace (S i + j) with (i + S j) by lia|].
          intros k Hk. replace (S i + k) with (i + S k) by lia. apply Hbefore. lia. }
    destruct (get i) as [c p|] eqn:Hg; [|by apply Hstep].
    destruct (c =? 200)%Z eqn:Hc; [|apply Hstep; cbn; by rewrite Hc].
    split.
    + intros [= <-]. exists 0. rewrite Nat.add_0_r, Hg. cbn. rewrite Hc.
      split; [lia|]. split; [done|]. intros k Hk. lia.
    + intros ([|j] & Hj & Hok & Hbefore).
      * rewrite Nat.add_0_r, Hg in Hok. cbn in Hok. rewrite Hc in Hok. congruence.
      * specialize (Hbefore 0 ltac:(lia)). rewrite Nat.add_0_r, Hg in Hbefore.
        cbn in Hbefore. by rewrite Hc in Hbefore.
Qed.

Lemma fetch_from_None get i n :
  scrape_kumari.fetch_from get i n = None <->
  forall j, j < n -> scrape_kumari.answered (get (i + j)) = None.
Proof.
  revert i. induction n as [|n IH]; intros i; cbn [scrape_kumari.fetch_from].
  - split; [intros _ j Hj; lia|done].
  - assert (Hstep : scrape_kumari.answered (get i) = None ->
              (scrape_kumari.fetch_from get (S i) n = None <->
               forall j, j < S n -> scrape_kumari.answered (get (i + j)) = None)).
    { intros Hi. rewrite IH. split.
      - intros H [|j] Hj; [by rewrite Nat.add_0_r|].
        replace (i + S j) with (S i + j) by lia. apply H. lia.
      - intros H j Hj. replace (S i + j) with (i + S j) by lia. apply H. lia. }
    destruct (get i) as [c p|] eqn:Hg; [|by apply Hstep].
    destruct (c =? 200)%Z eqn:Hc; [|apply Hstep; cbn; by rewrite Hc].
    split; [done|]. intros H. specialize (H 0 ltac:(lia)).
    rewrite Nat.add_0_r, Hg in H. cbn in H. by rewrite Hc in H.
Qed.

(** [fetch_with_retry] makes at most three requests: it returns the page
    of the first of them that is answered with status 200, and nothing
    when none is; what a fourth request would meet plays no part. *)
Theorem fetch_with_retry_first_ok (get : nat -> scrape_kumari.attempt) :
  (forall page,
      scrape_kumari.fetch_with_retry get = Some page <->
      exists j, j < 3 /\ scrape_kumari.answered (get j) = Some page /\
                forall k, k < j -> scrape_kumari.answered (get k) = None) /\
  (scrape_kumari.fetch_with_retry get = None <->
   forall j, j < 3 -> scrape_kumari.answered (get j) = None) /\
  (forall get' : nat -> scrape_kumari.attempt,
      (forall j, j < 3 -> get' j = get j) ->
      scrape_kumari.fetch_with_retry get' = scrape_kumari.fetch_with_retry get).
Proof.
  unfold scrape_kumari.fetch_with_retry. split; [|split].
  - intros page. apply fetch_from_Some.
  - apply fetch_from_None.
  - intros get' H. cbn. rewrite !H by lia.
    destruct (get 0) as [c0 p0|]; [destruct (c0 =? 200)%Z; [done|]|];
      (destruct (get 1) as [c1 p1|]; [destruct (c1 =? 200)%Z; [done|]|]);
      (destruct (get 2) as [c2 p2|]; [destruct (c2 =? 200)%Z; done|done]).
Qed.

Lemma fetch_with_retry_first_ok_witness :
  let page := {| scrape_kumari.info_cards := []; scrape_kumari.detail_box := None |} in
  let get := fun i => match i with
                      | 0 => scrape_kumari.Fails
                      | 1 => scrape_kumari.Response 429 page
                      | _ => scrape_kumari.Response 200 page
                      end in
  scrape_kumari.fetch_with_retry
    (fun i => if (i <? 3)%nat then get i else scrape_kumari.Fails)
  = scrape_kumari.fetch_with_retry get.
Proof.
  cbv zeta.
  apply (proj2 (proj2 (fetch_with_retry_first_ok _))).
  intros [|[|[|j]]] Hj; [reflexivity|reflexivity|reflexivity|lia].
Defined.

Lemma fetch_log_spec get i n :
  (scrape_kumari.fetch_log get i n).1 = scrape_kumari.fetch_from get i n /\
  length (scrape_kumari.fetch_log get i n).2 <= n /\
  (foldr Z.add 0 (scrape_kumari.fetch_log get i n).2
   <= Z.of_nat n * (2 * Z.of_nat i + Z.of_nat n + 1))%Z /\
  (scrape_kumari.answered (get i) <> None -> (scrape_kumari.fetch_log get i n).2 = []).
Proof.
  revert i. induction n as [|n IH]; intros i.
  - cbn. repeat split; try done; lia.
  - cbn [scrape_kumari.fetch_log scrape_kumari.fetch_from].
    destruct (IH (S i)) as (H1 & H2 & H3 & _).
    destruct (scrape_kumari.fetch_log get (S i) n) as [r slept] eqn:E. cbn [fst snd] in *.
    destruct (get i) as [c p|] eqn:Hg; cbn [scrape_kumari.answered].
    + destruct (c =? 200)%Z eqn:Hc; [cbn; repeat split; try done; lia|].
      destruct (c =? 429)%Z; cbn [fst snd length foldr].
      * repeat split; [done|lia|nia|done].
      * cbn [fst snd]. repeat split; [done|lia|nia|done].
    + cbn [fst snd length foldr]. repeat split; [done|lia|nia|done].
Qed.

(** The waiting of [fetch_with_retry]: the loop with its sleeps returns
    what the loop returns, sleeps at most three times and at most twelve
    seconds in all, and does not sleep when the first request is answered
    with status 200. *)
Theorem fetch_backoff_bounded (get : nat -> scrape_kumari.attempt) :
  (scrape_kumari.fetch_log get 0 3).1 = scrape_kumari.fetch_with_retry get /\
  length (scrape_kumari.fetch_log get 0 3).2 <= 3 /\
  (foldr Z.add 0 (scrape_kumari.fetch_log get 0 3).2 <= 12)%Z /\
  (scrape_kumari.answered (get 0) <> None -> (scrape_kumari.fetch_log get 0 3).2 = []) /\
  (scrape_kumari.fetch_log
     (fun _ => scrape_kumari.Response 429
                 {| scrape_kumari.info_cards := []; scrape_kumari.detail_box := None |})
     0 3).2 = [2; 4; 6]%Z.
Proof.
  destruct (fetch_log_spec get 0 3) as (H1 & H2 & H3 & H4).
  repeat split; try done; lia.
Qed.

Lemma fetch_backoff_bounded_witness :
  (scrape_kumari.fetch_log
     (fun _ => scrape_kumari.Response 200
                 {| scrape_kumari.info_cards := []; scrape_kumari.detail_box := None |})
     0 3).2 = [].
Proof.
  apply (proj1 (proj2 (proj2 (proj2 (fetch_backoff_bounded _))))).
  vm_compute. discriminate.
Defined.

(** ** [jobs_map] *)

Section Dict.
Context {V : Type}.
Implicit Types (d : list (pystr * V)) (k : pystr) (v : V).

Lemma dict_get_None k d : scrape_kumari.dict_get k d = None <-> k ∉ d.*1.
Proof.
  induction d as [|[k' v'] d IH]; cbn.
  - split; [intros _; apply not_elem_of_nil|done].
  - rewrite not_elem_of_cons. destruct (eqb k k') eqn:E.
    + apply eqb_eq in E. split; [done|]. by intros [? _].
    + apply eqb_neq in E. rewrite IH. tauto.
Qed.

Lemma dict_get_elem k v d : scrape_kumari.dict_get k d = Some v -> (k, v) ∈ d.
Proof.
  induction d as [|[k' v'] d IH]; cbn; [done|].
  destruct (eqb k k') eqn:E.
  - apply eqb_eq in E. intros [= ->]. subst. by left.
  - intros H. right. by apply IH.
Qed.

Lemma dict_set_present k v v0 d :
  scrape_kumari.dict_get k d = Some v0 -> (scrape_kumari.dict_set k v d).*1 = d.*1.
Proof.
  induction d as [|[k' v'] d IH]; cbn; [done|].
  destruct (eqb k k') eqn:E; [done|]. intros H. cbn. f_equal. by apply IH.
Qed.

Lemma dict_set_absent k v d :
  scrape_kumari.dict_get k d = None -> scrape_kumari.dict_set k v d = (d ++ [(k, v)])%list.
Proof.
  induction d as [|[k' v'] d IH]; cbn; [done|].
  destruct (eqb k k') eqn:E; [done|]. intros H. f_equal. by apply IH.
Qed.

Lemma dict_get_set_eq k v d : scrape_kumari.dict_get k (scrape_kumari.dict_set k v d) = Some v.
Proof.
  induction d as [|[k' v'] d IH]; cbn.
  - by rewrite eqb_refl.
  - destruct (eqb k k') eqn:E; cbn; by rewrite E.
Qed.

Lemma dict_get_set_ne k k' v d :
  k <> k' ->
  scrape_kumari.dict_get k' (scrape_kumari.dict_set k v d) = scrape_kumari.dict_get k' d.
Proof.
  intros Hne. induction d as [|[k0 v0] d IH]; cbn.
  - apply eqb_neq in Hne. by rewrite eqb_sym, Hne.
  - destruct (eqb k k0) eqn:E; cbn.
    + apply eqb_eq in E. subst k0.
      apply eqb_neq in Hne. by rewrite eqb_sym, Hne.
    + by rewrite IH.
Qed.

(** Storing what is stored changes nothing. *)
Lemma dict_set_same k v d : scrape_kumari.dict_get k d = Some v -> scrape_kumari.dict_set k v d = d.
Proof.
  induction d as [|[k' v'] d IH]; cbn; [done|].
  destruct (eqb k k') eqn:E.
  - by intros [= ->].
  - intros H. f_equal. by apply IH.
Qed.

Lemma dict_set_Forall (P : pystr * V -> Prop) k v d :
  P (k, v) -> Forall P d -> Forall P (scrape_kumari.dict_set k v d).
Proof.
  intros Hkv. induction d as [|[k' v'] d IH]; cbn; intros Hd.
  - by constructor.
  - apply Forall_cons in Hd as [Hh Hd]. destruct (eqb k k') eqn:E.
    + apply eqb_eq in E. subst k'. by constructor.
    + constructor; [done|by apply IH].
Qed.

Lemma dict_set_length k v d :
  length d <= length (scrape_kumari.dict_set k v d) <= S (length d).
Proof.
  induction d as [|[k' v'] d IH]; cbn; [lia|].
  destruct (eqb k k'); cbn; lia.
Qed.

Lemma dict_set_NoDup k v d : NoDup d.*1 -> NoDup (scrape_kumari.dict_set k v d).*1.
Proof.
  intros H. destruct (scrape_kumari.dict_get k d) as [v0|] eqn:E.
  - by rewrite (dict_set_present _ _ _ _ E).
  - rewrite (dict_set_absent _ _ _ E), fmap_app. apply NoDup_app. split; [done|].
    split; [|apply NoDup_singleton].
    intros x Hx ->%list_elem_of_singleton. by apply dict_get_None in E.
Qed.

Lemma dict_set_prefix k v d : d.*1 `prefix_of` (scrape_kumari.dict_set k v d).*1.
Proof.
  destruct (scrape_kumari.dict_get k d) as [v0|] eqn:E.
  - by rewrite (dict_set_present _ _ _ _ E).
  - rewrite (dict_set_absent _ _ _ E), fmap_app. by apply prefix_app_r.
Qed.
End Dict.

(** ** The cards of the listing page *)

Lemma extract_fields_href (c : scrape_kumari.card) :
  if scrape_kumari.missing_href c
  then scrape_kumari.extract_fields c = inl KeyError
  else exists fields, scrape_kumari.extract_fields c = inr fields.
Proof.
  unfold scrape_kumari.missing_href, scrape_kumari.extract_fields.
  destruct (scrape_kumari.h5 c) as [[text [[href|]|]]|]; cbn; eauto.
  destruct (scrape_kumari.job_info c); eauto.
Qed.

Lemma new_entry_complete job_title company job_link salary experience :
  scrape_kumari.complete
    (scrape_kumari.new_entry job_title company job_link salary experience).
Proof.
  unfold scrape_kumari.complete, scrape_kumari.listing_keys, scrape_kumari.new_entry.
  repeat constructor; by simplify_map_eq.
Qed.

Lemma complete_lookup (current : gmap pystr pystr) (k : pystr) :
  scrape_kumari.complete current -> k ∈ scrape_kumari.listing_keys -> is_Some (current !! k).
Proof. unfold scrape_kumari.complete. rewrite Forall_forall. auto. Qed.

(** What the merge leaves in an entry: a key it had stays, and no key but
    the company, the salary and the experience changes its value. *)
Lemma merge_keeps (current merged : gmap pystr pystr) company salary experience :
  scrape_kumari.merge current company salary experience = inr merged ->
  (forall k, is_Some (current !! k) -> is_Some (merged !! k)) /\
  (forall k, k <> "Company" -> k <> "Salary" -> k <> "Experience" ->
             merged !! k = current !! k).
Proof.
  unfold scrape_kumari.merge, scrape_kumari.index.
  destruct (current !! "Company") as [c0|]; [|done]. cbn [bind ret].
  intros [= <-]. split.
  - intros k Hk.
    repeat match goal with
           | |- context [if ?b then _ else _] => destruct b
           end; rewrite ?lookup_insert_is_Some'; tauto.
  - intros k H1 H2 H3.
    repeat match goal with
           | |- context [if ?b then _ else _] => destruct b
           end; by rewrite ?lookup_insert_ne by done.
Qed.

Lemma merge_complete (current : gmap pystr pystr) company salary experience :
  scrape_kumari.complete current ->
  exists merged,
    scrape_kumari.merge current company salary experience = inr merged /\
    scrape_kumari.complete merged.
Proof.
  intros Hc.
  destruct (complete_lookup current "Company" Hc) as [c0 Hc0].
  { apply (bool_decide_unpack _). vm_compute. exact I. }
  destruct (scrape_kumari.merge current company salary experience) as [e|merged] eqn:E.
  - unfold scrape_kumari.merge, scrape_kumari.index in E. by rewrite Hc0 in E.
  - exists merged. split; [done|].
    apply merge_keeps in E as [Hk _].
    unfold scrape_kumari.complete in *. eapply Forall_impl; [exact Hc|]. cbn. auto.
Qed.

Lemma process_card_ok jobs_map (c : scrape_kumari.card) :
  scrape_kumari.jobs_map_ok jobs_map ->
  if scrape_kumari.missing_href c
  then scrape_kumari.process_card jobs_map c = inl KeyError
  else exists jobs_map',
      scrape_kumari.process_card jobs_map c = inr jobs_map' /\
      scrape_kumari.jobs_map_ok jobs_map' /\
      jobs_map.*1 `prefix_of` jobs_map'.*1 /\
      length jobs_map' <= S (length jobs_map).
Proof.
  intros [Hnd Hall]. unfold scrape_kumari.process_card.
  pose proof (extract_fields_href c) as Hx.
  destruct (scrape_kumari.missing_href c); [by rewrite Hx|].
  destruct Hx as [[[job_title company] job_link] ->]. cbn [bind].
  destruct (scrape_kumari.is_na job_title && scrape_kumari.is_na job_link).
  { exists jobs_map. repeat split; try done. lia. }
  destruct (scrape_kumari.scan_description _) as [salary experience].
  destruct (scrape_kumari.dict_get (scrape_kumari.data_jobid c) jobs_map)
    as [current|] eqn:Hget.
  - assert (Hcur : scrape_kumari.complete current).
    { apply dict_get_elem in Hget. rewrite Forall_forall in Hall. apply (Hall _ Hget). }
    destruct (merge_complete current company salary experience Hcur) as (merged & -> & Hm).
    cbn [bind ret]. eexists. split; [reflexivity|]. repeat split.
    + by apply dict_set_NoDup.
    + by apply dict_set_Forall.
    + apply dict_set_prefix.
    + apply dict_set_length.
  - cbn [ret]. eexists. split; [reflexivity|]. repeat split.
    + by apply dict_set_NoDup.
    + apply dict_set_Forall; [apply new_entry_complete|done].
    + apply dict_set_prefix.
    + apply dict_set_length.
Qed.

Lemma cards_loop_ok jobs_map (job_cards : list scrape_kumari.card) :
  scrape_kumari.jobs_map_ok jobs_map ->
  if existsb scrape_kumari.missing_href job_cards
  then scrape_kumari.cards_loop jobs_map job_cards = inl KeyError
  else exists jobs_map',
      scrape_kumari.cards_loop jobs_map job_cards = inr jobs_map' /\
      scrape_kumari.jobs_map_ok jobs_map' /\
      jobs_map.*1 `prefix_of` jobs_map'.*1 /\
      length jobs_map' <= length jobs_map + length job_cards.
Proof.
  revert jobs_map. induction job_cards as [|c cs IH]; intros jobs_map Hok.
  - cbn. exists jobs_map. repeat split; try apply Hok; [done|lia].
  - cbn [existsb scrape_kumari.cards_loop].
    pose proof (process_card_ok jobs_map c Hok) as Hc.
    destruct (scrape_kumari.missing_href c); [by rewrite Hc|].
    destruct Hc as (m1 & -> & Hok1 & Hpre1 & Hlen1). cbn [orb].
    specialize (IH m1 Hok1).
    destruct (existsb scrape_kumari.missing_href cs); [done|].
    destruct IH as (m2 & -> & Hok2 & Hpre2 & Hlen2).
    exists m2. repeat split; try apply Hok2; [by etrans|cbn; lia].
Qed.

(** A card without a usable link tag is the only thing that stops the
    loop over the cards: with such a card on the page the loop raises
    [KeyError]; without one it returns a map whose ids are all different,
    whose entries all have the five listing keys, and which has at most
    one entry per card. *)
Theorem cards_loop_outcome (job_cards : list scrape_kumari.card) :
  (existsb scrape_kumari.missing_href job_cards = true ->
   scrape_kumari.cards_loop [] job_cards = inl KeyError) /\
  (existsb scrape_kumari.missing_href job_cards = false ->
   exists jobs_map,
     scrape_kumari.cards_loop [] job_cards = inr jobs_map /\
     NoDup jobs_map.*1 /\
     Forall (fun item => scrape_kumari.complete item.2) jobs_map /\
     length jobs_map <= length job_cards).
Proof.
  assert (H0 : scrape_kumari.jobs_map_ok []) by (split; constructor).
  pose proof (cards_loop_ok [] job_cards H0) as H.
  destruct (existsb scrape_kumari.missing_href job_cards).
  - split; [done|discriminate].
  - split; [discriminate|]. intros _.
    destruct H as (m & Hm & [Hnd Hall] & _ & Hlen). exists m. by repeat split.
Qed.

Lemma cards_loop_outcome_witness :
  scrape_kumari.cards_loop [] [plain_card "6" "Accountant" "Acme" ["Negotiable"];
                               card_without_href] = inl KeyError.
Proof. apply (proj1 (cards_loop_outcome _)). reflexivity. Defined.

(** The merge is three fill steps. *)
Lemma merge_fill (current : gmap pystr pystr) company salary experience :
  scrape_kumari.merge current company salary experience
  = match current !! "Company" with
    | Some _ =>
        inr (scrape_kumari.fill "Experience" experience
               (scrape_kumari.fill "Salary" salary
                  (scrape_kumari.fill "Company" company current)))
    | None => inl KeyError
    end.
Proof.
  unfold scrape_kumari.merge, scrape_kumari.index, scrape_kumari.fill, database.get.
  destruct (current !! "Company") as [c0|]; reflexivity.
Qed.

Lemma fill_get_ne (k k' v d : pystr) (current : gmap pystr pystr) :
  k <> k' ->
  database.get (scrape_kumari.fill k v current) k' d = database.get current k' d.
Proof.
  intros Hne. unfold scrape_kumari.fill, database.get.
  destruct (_ && _); [by rewrite lookup_insert_ne|done].
Qed.

Lemma fill_idempotent (k v : pystr) (current : gmap pystr pystr) :
  scrape_kumari.fill k v (scrape_kumari.fill k v current) = scrape_kumari.fill k v current.
Proof.
  unfold scrape_kumari.fill, database.get.
  destruct (scrape_kumari.is_na (default "N/A" (current !! k))
            && negb (scrape_kumari.is_na v)) eqn:E.
  - rewrite lookup_insert_eq. cbn [default from_option id].
    apply andb_prop in E as [_ Hv]. apply negb_true_iff in Hv. by rewrite Hv.
  - by rewrite E.
Qed.

Lemma fill_commute (k k' v v' : pystr) (current : gmap pystr pystr) :
  k <> k' ->
  scrape_kumari.fill k v (scrape_kumari.fill k' v' current)
  = scrape_kumari.fill k' v' (scrape_kumari.fill k v current).
Proof.
  intros Hne. unfold scrape_kumari.fill at 1 3.
  rewrite !fill_get_ne by done.
  unfold scrape_kumari.fill.
  destruct (scrape_kumari.is_na (database.get current k "N/A") && _),
           (scrape_kumari.is_na (database.get current k' "N/A") && _); try done.
  by apply insert_insert_ne.
Qed.

Lemma fill_is_Some (k k' v : pystr) (current : gmap pystr pystr) :
  is_Some (current !! k') -> is_Some (scrape_kumari.fill k v current !! k').
Proof.
  unfold scrape_kumari.fill. destruct (_ && _); [|done].
  rewrite lookup_insert_is_Some'. auto.
Qed.

(** Merging the same card once more changes nothing. *)
Lemma merge_idempotent (current merged : gmap pystr pystr) company salary experience :
  scrape_kumari.merge current company salary experience = inr merged ->
  scrape_kumari.merge merged company salary experience = inr merged.
Proof.
  rewrite !merge_fill. destruct (current !! "Company") as [c0|] eqn:HC; [|done].
  intros [= <-].
  assert (Hs : is_Some (scrape_kumari.fill "Experience" experience
                          (scrape_kumari.fill "Salary" salary
                             (scrape_kumari.fill "Company" company current)) !! "Company"))
    by (do 3 apply fill_is_Some; by rewrite HC).
  destruct Hs as [c1 ->]. f_equal.
  rewrite (fill_commute "Company" "Experience") by done.
  rewrite (fill_commute "Company" "Salary") by done.
  rewrite fill_idempotent.
  rewrite (fill_commute "Salary" "Experience") by done.
  by rewrite !fill_idempotent.
Qed.

Lemma fill_same (k v : pystr) (current : gmap pystr pystr) :
  current !! k = Some v -> scrape_kumari.fill k v current = current.
Proof.
  intros H. unfold scrape_kumari.fill, database.get. rewrite H. cbn [default from_option id].
  by destruct (scrape_kumari.is_na v).
Qed.

(** Merging a card into the entry made from it changes nothing. *)
Lemma merge_new_entry job_title company job_link salary experience :
  scrape_kumari.merge
    (scrape_kumari.new_entry job_title company job_link salary experience)
    company salary experience
  = inr (scrape_kumari.new_entry job_title company job_link salary experience).
Proof.
  rewrite merge_fill.
  assert (HC : scrape_kumari.new_entry job_title company job_link salary experience
               !! "Company" = Some company) by by simplify_map_eq.
  assert (HS : scrape_kumari.new_entry job_title company job_link salary experience
               !! "Salary" = Some salary) by by simplify_map_eq.
  assert (HE : scrape_kumari.new_entry job_title company job_link salary experience
               !! "Experience" = Some experience) by by simplify_map_eq.
  rewrite HC. f_equal. by rewrite (fill_same "Company"), (fill_same "Salary"), fill_same.
Qed.

(** A card that the page shows twice leaves, the second time, the map as
    the first time left it: a card processed without an exception can be
    processed again with the same result. *)
Theorem process_card_idempotent jobs_map jobs_map' (c : scrape_kumari.card) :
  scrape_kumari.process_card jobs_map c = inr jobs_map' ->
  scrape_kumari.process_card jobs_map' c = inr jobs_map'.
Proof.
  unfold scrape_kumari.process_card.
  destruct (scrape_kumari.extract_fields c) as [e|[[job_title company] job_link]];
    cbn [bind]; [done|].
  destruct (scrape_kumari.is_na job_title && scrape_kumari.is_na job_link);
    [by intros [= <-]|].
  destruct (scrape_kumari.scan_description _) as [salary experience].
  destruct (scrape_kumari.dict_get (scrape_kumari.data_jobid c) jobs_map)
    as [current|] eqn:Hget.
  - destruct (scrape_kumari.merge current company salary experience)
      as [e|merged] eqn:Hm; cbn [bind ret]; [done|].
    intros [= <-]. rewrite dict_get_set_eq, (merge_idempotent _ _ _ _ _ Hm). cbn [bind ret].
    f_equal. apply dict_set_same, dict_get_set_eq.
  - cbn [ret]. intros [= <-]. rewrite dict_get_set_eq, merge_new_entry. cbn [bind ret].
    f_equal. apply dict_set_same, dict_get_set_eq.
Qed.

Lemma process_card_idempotent_witness :
  let c := plain_card "6" "Accountant" "Acme" ["2 Years"; "Nrs. 30,000"] in
  let jobs_map' :=
    [("6", scrape_kumari.new_entry "Accountant" "Acme" "N/A" "Nrs. 30,000" "2 Years")] in
  scrape_kumari.process_card jobs_map' c = inr jobs_map'.
Proof.
  cbv zeta.
  apply (process_card_idempotent
           [("6", scrape_kumari.new_entry "Accountant" "N/A" "N/A" "N/A" "2 Years")]).
  reflexivity.
Defined.

Lemma kept_refl (current : gmap pystr pystr) : scrape_kumari.kept current current.
Proof. by repeat split. Qed.

Lemma kept_trans (a b c : gmap pystr pystr) :
  scrape_kumari.kept a b -> scrape_kumari.kept b c -> scrape_kumari.kept a c.
Proof.
  intros (H1 & H2 & H3) (H1' & H2' & H3'). repeat split; [congruence|congruence|].
  intros f v Hf Hv. apply H3'; [|done]. by apply H3.
Qed.

Lemma fill_kept (k x : pystr) (current : gmap pystr pystr) :
  k <> "Job Title" -> k <> "Link" ->
  scrape_kumari.kept current (scrape_kumari.fill k x current).
Proof.
  intros Ht Hl. unfold scrape_kumari.fill, database.get.
  destruct (scrape_kumari.is_na (default "N/A" (current !! k)) && _) eqn:E;
    [|apply kept_refl].
  apply andb_prop in E as [E _].
  repeat split; [by rewrite lookup_insert_ne|by rewrite lookup_insert_ne|].
  intros f v Hf Hv. destruct (decide (k = f)) as [->|Hne].
  - rewrite Hf in E. cbn [default from_option id] in E. congruence.
  - by rewrite lookup_insert_ne.
Qed.

Lemma merge_kept (current merged : gmap pystr pystr) company salary experience :
  scrape_kumari.merge current company salary experience = inr merged ->
  scrape_kumari.kept current merged.
Proof.
  rewrite merge_fill. destruct (current !! "Company"); [|done]. intros [= <-].
  eapply kept_trans; [|apply fill_kept; done].
  eapply kept_trans; [|apply fill_kept; done].
  by apply fill_kept.
Qed.

Lemma process_card_kept jobs_map jobs_map' (c : scrape_kumari.card) k current :
  scrape_kumari.process_card jobs_map c = inr jobs_map' ->
  scrape_kumari.dict_get k jobs_map = Some current ->
  exists current',
    scrape_kumari.dict_get k jobs_map' = Some current' /\
    scrape_kumari.kept current current'.
Proof.
  unfold scrape_kumari.process_card.
  destruct (scrape_kumari.extract_fields c) as [e|[[job_title company] job_link]];
    cbn [bind]; [done|].
  destruct (scrape_kumari.is_na job_title && scrape_kumari.is_na job_link).
  { intros [= <-] Hk. exists current. split; [done|apply kept_refl]. }
  destruct (scrape_kumari.scan_description _) as [salary experience].
  intros Hp Hk.
  destruct (decide (scrape_kumari.data_jobid c = k)) as [Heq|Hne].
  - subst k. rewrite Hk in Hp.
    destruct (scrape_kumari.merge current company salary experience)
      as [e|merged] eqn:Hm; cbn [bind ret] in Hp; [done|].
    injection Hp as <-. exists merged. split; [apply dict_get_set_eq|by eapply merge_kept].
  - exists current. split; [|apply kept_refl].
    destruct (scrape_kumari.dict_get (scrape_kumari.data_jobid c) jobs_map) as [cur0|].
    + destruct (scrape_kumari.merge cur0 company salary experience)
        as [e|merged]; cbn [bind ret] in Hp; [done|].
      injection Hp as <-. by rewrite dict_get_set_ne.
    + cbn [ret] in Hp. injection Hp as <-. by rewrite dict_get_set_ne.
Qed.

Lemma process_card_prefix jobs_map jobs_map' (c : scrape_kumari.card) :
  scrape_kumari.process_card jobs_map c = inr jobs_map' ->
  jobs_map.*1 `prefix_of` jobs_map'.*1.
Proof.
  unfold scrape_kumari.process_card.
  destruct (scrape_kumari.extract_fields c) as [e|[[job_title company] job_link]];
    cbn [bind]; [done|].
  destruct (scrape_kumari.is_na job_title && scrape_kumari.is_na job_link);
    [by intros [= <-]|].
  destruct (scrape_kumari.scan_description _) as [salary experience].
  destruct (scrape_kumari.dict_get (scrape_kumari.data_jobid c) jobs_map) as [current|].
  - destruct (scrape_kumari.merge current company salary experience) as [e|merged];
      cbn [bind ret]; [done|]. intros [= <-]. apply dict_set_prefix.
  - cbn [ret]. intros [= <-]. apply dict_set_prefix.
Qed.

Lemma cards_loop_prefix (job_cards : list scrape_kumari.card) jobs_map jobs_map' :
  scrape_kumari.cards_loop jobs_map job_cards = inr jobs_map' ->
  jobs_map.*1 `prefix_of` jobs_map'.*1.
Proof.
  revert jobs_map. induction job_cards as [|c cs IH]; intros jobs_map.
  - cbn. by intros [= <-].
  - cbn [scrape_kumari.cards_loop].
    destruct (scrape_kumari.process_card jobs_map c) as [e|m1] eqn:Hp.
    + destruct e; try done. apply IH.
    + intros Hloop. etrans; [by eapply process_card_prefix|by apply IH].
Qed.

(** The first card of an id decides its title and its link, and no value
    other than "N/A" is ever replaced by a later card: across the loop
    every entry keeps its title, its link and its values that are not
    "N/A", and the ids keep their order of first appearance. *)
Theorem cards_loop_first_card_wins (job_cards : list scrape_kumari.card)
    jobs_map jobs_map' k current :
  scrape_kumari.cards_loop jobs_map job_cards = inr jobs_map' ->
  scrape_kumari.dict_get k jobs_map = Some current ->
  jobs_map.*1 `prefix_of` jobs_map'.*1 /\
  exists current',
    scrape_kumari.dict_get k jobs_map' = Some current' /\
    current' !! "Job Title" = current !! "Job Title" /\
    current' !! "Link" = current !! "Link" /\
    (forall f v, current !! f = Some v -> v <> "N/A" -> current' !! f = Some v).
Proof.
  assert (H : scrape_kumari.cards_loop jobs_map job_cards = inr jobs_map' ->
              scrape_kumari.dict_get k jobs_map = Some current ->
              exists current',
                scrape_kumari.dict_get k jobs_map' = Some current' /\
                scrape_kumari.kept current current').
  { revert jobs_map current. induction job_cards as [|c cs IH]; intros jobs_map current.
    - cbn. intros [= <-] Hk. exists current. split; [done|apply kept_refl].
    - cbn [scrape_kumari.cards_loop].
      destruct (scrape_kumari.process_card jobs_map c) as [e|m1] eqn:Hp.
      + destruct e; try done. apply IH.
      + intros Hloop Hk.
        destruct (process_card_kept _ _ _ _ _ Hp Hk) as (c1 & Hk1 & Hkept1).
        destruct (IH _ _ Hloop Hk1) as (c2 & Hk2 & Hkept2).
        exists c2. split; [done|by eapply kept_trans]. }
  intros Hloop Hk. split; [by eapply cards_loop_prefix|].
  destruct (H Hloop Hk) as (current' & Hk' & Ht & Hl & Hv).
  exists current'. repeat split; try done.
  intros f v Hf Hna. apply Hv; [done|].
  destruct (scrape_kumari.is_na v) eqn:E; [|done]. by apply is_na_true in E.
Qed.

Lemma cards_loop_first_card_wins_witness :
  ["6"] `prefix_of` ["6"] /\
  exists current',
    scrape_kumari.dict_get "6"
      [("6", scrape_kumari.new_entry "Accountant" "Acme" "N/A" "Negotiable" "2 Years")]
    = Some current' /\
    current' !! "Job Title"
    = scrape_kumari.new_entry "Accountant" "N/A" "N/A" "Negotiable" "N/A" !! "Job Title" /\
    current' !! "Link"
    = scrape_kumari.new_entry "Accountant" "N/A" "N/A" "Negotiable" "N/A" !! "Link" /\
    (forall f v,
        scrape_kumari.new_entry "Accountant" "N/A" "N/A" "Negotiable" "N/A" !! f = Some v ->
        v <> "N/A" -> current' !! f = Some v).
Proof.
  apply (cards_loop_first_card_wins
           [plain_card "6" "Bookkeeper" "Acme" ["2 Years"; "Nrs. 30,000"]]
           [("6", scrape_kumari.new_entry "Accountant" "N/A" "N/A" "Negotiable" "N/A")]
           [("6", scrape_kumari.new_entry "Accountant" "Acme" "N/A" "Negotiable" "2 Years")]
           "6").
  - reflexivity.
  - reflexivity.
Defined.

(** ** The detail pages *)

Lemma not_detail_key (k : pystr) :
  k ∉ scrape_kumari.detail_keys ->
  "Industry" <> k /\ "Job Level" <> k /\ "Education" <> k /\
  "Desired Candidate" <> k /\ "Experience" <> k.
Proof.
  unfold scrape_kumari.detail_keys. rewrite !not_elem_of_cons.
  intros (? & ? & ? & ? & ? & _). repeat split; congruence.
Qed.

Lemma premium_field_keeps job info (k : pystr) :
  k ∉ scrape_kumari.detail_keys -> scrape_kumari.premium_field job info !! k = job !! k.
Proof.
  intros (? & ? & ? & ? & ?)%not_detail_key. unfold scrape_kumari.premium_field.
  destruct info as [[title_text|] [val_text|]]; try done.
  repeat match goal with
         | |- context [if ?b then _ else _] => destruct b
         end; by rewrite ?lookup_insert_ne.
Qed.

Lemma basic_field_keeps job row (k : pystr) :
  k ∉ scrape_kumari.detail_keys -> scrape_kumari.basic_field job row !! k = job !! k.
Proof.
  intros (? & ? & ? & ? & ?)%not_detail_key. unfold scrape_kumari.basic_field.
  destruct row as [[label|] [right_text|]]; try done. cbv zeta.
  repeat match goal with
         | |- context [if ?b then _ else _] => destruct b
         end; by rewrite ?lookup_insert_ne.
Qed.

Lemma foldl_lookup_keeps {X} (f : gmap pystr pystr -> X -> gmap pystr pystr)
    (k : pystr) (l : list X) (job : gmap pystr pystr) :
  (forall job x, f job x !! k = job !! k) -> foldl f job l !! k = job !! k.
Proof.
  intros Hf. revert job. induction l as [|x l IH]; intros job; [done|].
  cbn. by rewrite IH, Hf.
Qed.

Lemma read_detail_keeps job page (k : pystr) :
  k ∉ scrape_kumari.detail_keys -> scrape_kumari.read_detail job page !! k = job !! k.
Proof.
  intros Hk. unfold scrape_kumari.read_detail.
  destruct (scrape_kumari.info_cards page) as [|info infos].
  - destruct (scrape_kumari.detail_box page) as [rows|]; [|done].
    apply foldl_lookup_keeps. intros. by apply basic_field_keeps.
  - apply foldl_lookup_keeps. intros. by apply premium_field_keeps.
Qed.

Lemma deep_scrape_ids net jobs_map :
  Forall (fun item => scrape_kumari.complete item.2) jobs_map ->
  exists jobs_map',
    scrape_kumari.deep_scrape net jobs_map = inr jobs_map' /\ jobs_map'.*1 = jobs_map.*1.
Proof.
  induction jobs_map as [|[job_id job_data] rest IH]; intros Hall; [by exists []|].
  apply Forall_cons in Hall as [Hc Hall]. destruct (IH Hall) as (rest' & Hr & Hk).
  cbn [scrape_kumari.deep_scrape].
  destruct (complete_lookup job_data "Link" Hc) as [link Hlink].
  { apply (bool_decide_unpack _). vm_compute. exact I. }
  unfold scrape_kumari.index. rewrite Hlink. cbn [bind ret]. rewrite Hr. cbn [bind ret].
  eexists. split; [reflexivity|]. cbn. by rewrite Hk.
Qed.

(** The detail pass keeps the map in shape: on a map with complete
    entries it raises nothing, keeps the ids and their order, and changes
    no key of an entry other than Industry, Job Level, Education, Desired
    Candidate and Experience; when no detail page can be fetched the map
    comes back as it was. *)
Theorem deep_scrape_keeps net (jobs_map : list (pystr * gmap pystr pystr)) :
  Forall (fun item => scrape_kumari.complete item.2) jobs_map ->
  exists jobs_map',
    scrape_kumari.deep_scrape net jobs_map = inr jobs_map' /\
    jobs_map'.*1 = jobs_map.*1 /\
    Forall2 (fun old new => forall k, k ∉ scrape_kumari.detail_keys ->
                                      new.2 !! k = old.2 !! k) jobs_map jobs_map' /\
    ((forall link j, j < 3 -> scrape_kumari.answered (scrape_kumari.detail net link j) = None) ->
     jobs_map' = jobs_map).
Proof.
  induction jobs_map as [|[job_id job_data] rest IH]; intros Hall.
  - exists []. cbn. repeat split; constructor.
  - apply Forall_cons in Hall as [Hc Hall]. destruct (IH Hall) as (rest' & Hr & Hk & H2 & Hsame).
    cbn [scrape_kumari.deep_scrape].
    destruct (complete_lookup job_data "Link" Hc) as [link Hlink].
    { apply (bool_decide_unpack _). vm_compute. exact I. }
    unfold scrape_kumari.index. rewrite Hlink. cbn [bind ret]. rewrite Hr. cbn [bind ret].
    eexists. split; [reflexivity|]. split; [cbn; by rewrite Hk|]. split.
    + constructor; [|done]. cbn [snd]. intros k Hnk.
      destruct (scrape_kumari.is_na link); [done|].
      destruct (scrape_kumari.fetch_with_retry (scrape_kumari.detail net link));
        [by apply read_detail_keeps|done].
    + intros Hnone. rewrite (Hsame Hnone).
      destruct (scrape_kumari.is_na link); [done|].
      assert (E : scrape_kumari.fetch_with_retry (scrape_kumari.detail net link) = None).
      { apply fetch_from_None. intros j Hj. by apply Hnone. }
      by rewrite E.
Qed.

Lemma deep_scrape_keeps_witness :
  exists jobs_map',
    scrape_kumari.deep_scrape unreachable sample_jobs_dict = inr jobs_map' /\
    jobs_map'.*1 = sample_jobs_dict.*1 /\
    Forall2 (fun old new => forall k, k ∉ scrape_kumari.detail_keys ->
                                      new.2 !! k = old.2 !! k) sample_jobs_dict jobs_map' /\
    ((forall link j, j < 3 ->
        scrape_kumari.answered (scrape_kumari.detail unreachable link j) = None) ->
     jobs_map' = sample_jobs_dict).
Proof.
  apply (deep_scrape_keeps unreachable sample_jobs_dict).
  unfold sample_jobs_dict.
  constructor; [apply new_entry_complete|].
  constructor; [apply new_entry_complete|constructor].
Defined.

(** ** Collapsing blanks *)

Lemma any_char_append (p : char -> bool) (a b : pystr) :
  any_char p (a +:+ b) = any_char p a || any_char p b.
Proof.
  induction a as [|x a IH]; [done|].
  rewrite append_cons. cbn [any_char]. by rewrite IH, orb_assoc.
Qed.

(** Every word of [split] is a non-empty pystr without a blank. *)
Lemma split_from_words (word s : pystr) :
  any_char is_space word = false ->
  Forall (fun w => is_empty w = false /\ any_char is_space w = false) (split_from word s).
Proof.
  revert word. induction s as [|c t IH]; intros word Hw; cbn [split_from].
  - destruct (is_empty word) eqn:E; repeat constructor; done.
  - destruct (is_space c) eqn:Hc.
    + apply Forall_app. split; [|by apply IH].
      destruct (is_empty word) eqn:E; repeat constructor; done.
    + apply IH. rewrite any_char_append, Hw. cbn [any_char]. by rewrite Hc.
Qed.

Lemma split_from_word (word w rest : pystr) :
  any_char is_space w = false ->
  split_from word (w +:+ rest) = split_from (word +:+ w) rest.
Proof.
  revert word. induction w as [|c t IH]; intros word.
  - intros _. by rewrite append_empty_r, append_nil_l.
  - cbn [any_char]. intros [Hc Ht]%orb_false_elim.
    rewrite append_cons. cbn [split_from]. rewrite Hc, IH by done.
    by rewrite append_assoc, append_cons, append_nil_l.
Qed.

(** Joining words with one blank and splitting again gives the words. *)
Lemma split_join (ws : list pystr) :
  Forall (fun w => is_empty w = false /\ any_char is_space w = false) ws ->
  split (join " " ws) = ws.
Proof.
  unfold split. induction ws as [|w ws IH]; intros Hws; [done|].
  apply Forall_cons in Hws as [[Hne Hsp] Hws].
  destruct ws as [|w' ws'].
  - cbn [join]. rewrite <- (append_empty_r w) at 1.
    rewrite split_from_word, append_nil_l by done.
    cbn [split_from]. by rewrite Hne.
  - change (join " " (w :: w' :: ws')) with (w +:+ " " +:+ join " " (w' :: ws')).
    rewrite split_from_word, append_nil_l, append_cons, append_nil_l by done.
    cbn [split_from]. change (is_space 32) with true. cbv iota.
    rewrite Hne. cbn [app]. f_equal. by apply IH.
Qed.

Lemma collapse_idempotent (s : pystr) :
  join " " (split (join " " (split s))) = join " " (split s).
Proof.
  rewrite split_join; [done|]. by apply split_from_words.
Qed.

Lemma foldl_basic_field (rows : list (option pystr * option pystr))
    (job : gmap pystr pystr) (k v : pystr) :
  foldl scrape_kumari.basic_field job rows !! k = Some v ->
  job !! k = Some v \/ join " " (split v) = v.
Proof.
  revert job. induction rows as [|row rows IH]; intros job; cbn [foldl]; [by left|].
  intros [H|H]%IH; [|by right].
  unfold scrape_kumari.basic_field in H. destruct row as [[label|] [right_text|]]; try by left.
  cbv zeta in H.
  repeat match type of H with
         | context [if ?b then _ else _] => destruct b
         end;
    try (by left);
    match type of H with
    | <[?k' := _]> _ !! _ = _ =>
        destruct (decide (k = k')) as [->|Hne];
        [rewrite lookup_insert_eq in H; injection H as <-; right; apply collapse_idempotent
        |rewrite lookup_insert_ne in H by done; by left]
    end.
Qed.

(** A value taken from the two-span layout has its white space collapsed,
    where white space is what [str.split] splits at, the no-break space
    and the other Unicode spaces included: its words are the words of the
    raw text, joined by single blanks, so collapsing it again changes
    nothing; and every value that the reading of such a page leaves under
    a key is either the value the entry had or a collapsed one. *)
Theorem detail_values_collapsed :
  (forall raw : pystr,
      Forall (fun w => is_empty w = false /\ any_char is_space w = false) (split raw) /\
      split (join " " (split raw)) = split raw /\
      join " " (split (join " " (split raw))) = join " " (split raw)) /\
  (forall (job : gmap pystr pystr) (rows : list (option pystr * option pystr))
          (k v : pystr),
      scrape_kumari.read_detail job
        {| scrape_kumari.info_cards := []; scrape_kumari.detail_box := Some rows |} !! k
      = Some v ->
      job !! k = Some v \/ join " " (split v) = v) /\
  join " " (split "  Bachelor   in
 Computer  Science ") = "Bachelor in Computer Science" /\
  join " " (split ("IT" +:+ Chr 160 (Chr 8195 "and") +:+ Chr 12288 "Telecom"))
  = "IT and Telecom".
Proof.
  split; [|split; [|split]].
  - intros raw.
    assert (Hw : Forall (fun w => is_empty w = false /\ any_char is_space w = false)
                   (split raw)) by by apply split_from_words.
    split; [done|]. split; [by apply split_join|apply collapse_idempotent].
  - intros job rows k v. unfold scrape_kumari.read_detail. cbn. apply foldl_basic_field.
  - vm_compute. reflexivity.
  - vm_compute. reflexivity.
Qed.

Lemma detail_values_collapsed_witness :
  scrape_kumari.new_entry "Developer" "Acme" "/job/7" "N/A" "N/A" !! "Industry"
  = Some "IT and Telecom" \/
  join " " (split "IT and Telecom") = "IT and Telecom".
Proof.
  apply (proj1 (proj2 detail_values_collapsed)
           (scrape_kumari.new_entry "Developer" "Acme" "/job/7" "N/A" "N/A")
           [(Some "Industry Type", Some "IT  and   Telecom")] "Industry").
  vm_compute. reflexivity.
Defined.


(** ** One scrape of KumariJob *)

(** Whatever the scrape meets, the table afterwards is the table before
    with some batch of rows inserted. *)
Lemma scrape_kumari_jobs_table net (scraped_at : pystr) (tbl : list database.kumari_row) :
  exists rows,
    (scrape_kumari.scrape_kumari_jobs net scraped_at tbl).1
    = database.insert_all database.kumari_key rows tbl.
Proof.
  unfold scrape_kumari.scrape_kumari_jobs, scrape_kumari.scrape_body.
  destruct (scrape_kumari.main_page net) as [e|job_cards]; cbn [bind];
    [exists []; by destruct e|].
  destruct (scrape_kumari.cards_loop [] job_cards) as [e|m]; cbn [bind];
    [exists []; by destruct e|].
  destruct (scrape_kumari.deep_scrape net m) as [e|m']; cbn [bind ret];
    [exists []; by destruct e|].
  rewrite save_kumari_data_rows. destruct (forallb _ m'); cbn [bind ret raise].
  - by eexists.
  - by exists [].
Qed.

(** What the scrape does once the detail pass has returned. *)
Lemma scrape_kumari_jobs_saves net (scraped_at : pystr) (tbl : list database.kumari_row)
    job_cards jobs_map jobs_map' :
  scrape_kumari.main_page net = inr job_cards ->
  scrape_kumari.cards_loop [] job_cards = inr jobs_map ->
  scrape_kumari.deep_scrape net jobs_map = inr jobs_map' ->
  scrape_kumari.scrape_kumari_jobs net scraped_at tbl
  = if forallb (fun item => database.encodable item.1) jobs_map'
    then (database.insert_all database.kumari_key
            (database.kumari_rows scraped_at jobs_map') tbl,
          length jobs_map')
    else (tbl, 0).
Proof.
  intros Hmain Hm Hm'.
  unfold scrape_kumari.scrape_kumari_jobs, scrape_kumari.scrape_body.
  rewrite Hmain. cbn [bind]. rewrite Hm. cbn [bind]. rewrite Hm'. cbn [bind ret].
  rewrite save_kumari_data_rows. by destruct (forallb _ jobs_map').
Qed.

Lemma forallb_fst {A B} (f : A -> bool) (l : list (A * B)) :
  forallb (fun item => f item.1) l = forallb f l.*1.
Proof. induction l as [|[a b] l IH]; [done|]. cbn. by rewrite IH. Qed.

(** [scrape_kumari_jobs] only appends to the raw table and keeps its key
    unique. When the listing page is fetched, the count it returns is at
    most the number of cards; with a card whose link tag has no [href] it
    stores nothing and returns 0; otherwise the loop over the cards and
    the detail pass return, with the same ids, and the scrape returns the
    number of different ids, whatever the save could store, and every
    entry that SQLite can bind has a row with its id and the timestamp of
    the save. One case is left: an id with a lone surrogate makes the
    save raise, and the scrape stores nothing and returns 0. *)
Theorem scrape_kumari_jobs_result net (scraped_at : pystr)
    (tbl : list database.kumari_row) :
  let tbl' := (scrape_kumari.scrape_kumari_jobs net scraped_at tbl).1 in
  let n := (scrape_kumari.scrape_kumari_jobs net scraped_at tbl).2 in
  tbl `prefix_of` tbl' /\
  (NoDup (database.kumari_key <$> tbl) -> NoDup (database.kumari_key <$> tbl')) /\
  (forall job_cards,
      scrape_kumari.main_page net = inr job_cards ->
      n <= length job_cards /\
      (existsb scrape_kumari.missing_href job_cards = true -> tbl' = tbl /\ n = 0) /\
      (existsb scrape_kumari.missing_href job_cards = false ->
       exists jobs_map jobs_map',
         scrape_kumari.cards_loop [] job_cards = inr jobs_map /\
         scrape_kumari.deep_scrape net jobs_map = inr jobs_map' /\
         jobs_map'.*1 = jobs_map.*1 /\
         (Forall (fun job_id => database.encodable job_id = true) jobs_map.*1 ->
          n = length jobs_map /\
          forall job_id job row,
            (job_id, job) ∈ jobs_map' ->
            database.kumari_tuple job_id job scraped_at = inr row ->
            (job_id, scraped_at) ∈ database.kumari_key <$> tbl') /\
         (Exists (fun job_id => database.encodable job_id = false) jobs_map.*1 ->
          tbl' = tbl /\ n = 0))).
Proof.
  cbv zeta.
  destruct (scrape_kumari_jobs_table net scraped_at tbl) as [rows Hrows].
  split; [rewrite Hrows; apply insert_all_prefix|].
  split; [rewrite Hrows; apply insert_all_NoDup|]. clear rows Hrows.
  intros job_cards Hmain.
  assert (H0 : scrape_kumari.jobs_map_ok []) by (split; constructor).
  pose proof (cards_loop_ok [] job_cards H0) as Hloop.
  destruct (existsb scrape_kumari.missing_href job_cards) eqn:Hhref.
  { assert (E : scrape_kumari.scrape_kumari_jobs net scraped_at tbl = (tbl, 0)).
    { unfold scrape_kumari.scrape_kumari_jobs, scrape_kumari.scrape_body.
      rewrite Hmain. cbn [bind]. by rewrite Hloop. }
    rewrite E. cbn [fst snd]. split; [lia|]. split; [done|]. discriminate. }
  destruct Hloop as (m & Hm & [Hnd Hall] & _ & Hlen).
  destruct (deep_scrape_ids net m Hall) as (m' & Hm' & Hkeys).
  assert (Hlen' : length m' = length m).
  { rewrite <- (length_fmap fst m'), Hkeys. apply length_fmap. }
  rewrite (scrape_kumari_jobs_saves _ _ _ _ _ _ Hmain Hm Hm'), forallb_fst, Hkeys.
  destruct (forallb database.encodable m.*1) eqn:Hids; cbn [fst snd].
  - split; [cbn in Hlen; lia|]. split; [discriminate|].
    intros _. exists m, m'. split; [done|]. split; [done|]. split; [done|]. split.
    + intros _. split; [done|]. intros job_id job row Hin Hrow.
      rewrite <- (kumari_tuple_key _ _ _ _ Hrow).
      apply insert_all_keys. by eapply elem_of_kumari_rows.
    + intros Hbad. apply Exists_exists in Hbad as (job_id & Hin & Hbad).
      rewrite forallb_forall in Hids. apply list_elem_of_In in Hin.
      rewrite (Hids _ Hin) in Hbad. discriminate.
  - split; [lia|]. split; [discriminate|].
    intros _. exists m, m'. split; [done|]. split; [done|]. split; [done|]. split.
    + intros H. rewrite (forallb_Forall _ _ H) in Hids. discriminate.
    + done.
Qed.

Lemma scrape_kumari_jobs_result_witness :
  (scrape_kumari.scrape_kumari_jobs healthy_page "2026-01-01T00:00:00" []).2
  <= length [plain_card "6" "Accountant" "N/A" ["Negotiable"];
             plain_card "6" "Accountant" "Acme" ["2 Years"; "Nrs. 30,000"]].
Proof.
  apply (scrape_kumari_jobs_result healthy_page "2026-01-01T00:00:00" []). reflexivity.
Defined.

(** ** What a save adds *)

Section InsertAll.
Context {R : Type} (key : R -> pystr * pystr).



(** Rows with fresh, different keys are all appended, in order. *)
Lemma insert_all_fresh (rows tbl : list R) :
  NoDup (key <$> rows) ->
  (forall r, r ∈ rows -> key r ∉ key <$> tbl) ->
  database.insert_all key rows tbl = (tbl ++ rows)%list.
Proof.
  revert tbl. induction rows as [|r rows IH]; intros tbl Hnd Hfresh.
  - cbn. by rewrite app_nil_r.
  - rewrite fmap_cons in Hnd. apply NoDup_cons in Hnd as [Hr Hnd].
    change (database.insert_all key (r :: rows) tbl)
      with (database.insert_all key rows (database.insert_or_ignore key r tbl)).
    rewrite insert_or_ignore_absent by (apply Hfresh; by left).
    rewrite IH; [by rewrite <- app_assoc|done|].
    intros x Hx. rewrite fmap_app, not_elem_of_app. split; [apply Hfresh; by right|].
    cbn. intros E%list_elem_of_singleton. apply Hr. rewrite <- E.
    by apply list_elem_of_fmap_2.
Qed.
End InsertAll.



Lemma elem_of_kumari_rows_inv scraped_at jobs_dict row :
  row ∈ database.kumari_rows scraped_at jobs_dict ->
  exists job_id job, (job_id, job) ∈ jobs_dict /\
                     database.kumari_tuple job_id job scraped_at = inr row.
Proof.
  unfold database.kumari_rows. intros ([job_id job] & Hjob & Hrow)%list_elem_of_omap.
  exists job_id, job. split; [done|]. cbn in Hrow.
  by destruct (database.kumari_tuple job_id job scraped_at); simplify_eq/=.
Qed.


Lemma kumari_tuple_prints (job_id : pystr) (job : gmap pystr pystr) (scraped_at : pystr)
    (row : database.kumari_row) :
  database.kumari_tuple job_id job scraped_at = inr row ->
  database.encodable job_id = true.
Proof.
  unfold database.kumari_tuple, database.bind_text.
  by destruct (database.encodable job_id).
Qed.



(** A save under a timestamp that no stored row carries, when it
    returns, adds behind the stored rows one row for every entry of
    [jobs_dict] that SQLite can bind, in the order of the dict; when every
    entry can be bound it returns and adds one row per entry: runs at
    different instants only add to the KumariJob table. *)
Theorem fresh_timestamp_appends (scraped_at : pystr)
    (jobs_dict : list (pystr * gmap pystr pystr)) (kumari_raw : list database.kumari_row) :
  NoDup jobs_dict.*1 ->
  (forall r, r ∈ kumari_raw -> database.k_scraped_at r <> scraped_at) ->
  (forall saved,
      (database.save_kumari_data scraped_at jobs_dict kumari_raw).2 = inr saved ->
      (database.save_kumari_data scraped_at jobs_dict kumari_raw).1
      = (kumari_raw ++ database.kumari_rows scraped_at jobs_dict)%list) /\
  (forall rows,
      Forall2 (fun item row => database.kumari_tuple item.1 item.2 scraped_at = inr row)
              jobs_dict rows ->
      database.save_kumari_data scraped_at jobs_dict kumari_raw
      = ((kumari_raw ++ rows)%list, inr (length jobs_dict))).
Proof.
  intros Hnd Hfresh.
  assert (Happ : database.insert_all database.kumari_key
                   (database.kumari_rows scraped_at jobs_dict) kumari_raw
                 = (kumari_raw ++ database.kumari_rows scraped_at jobs_dict)%list).
  { apply insert_all_fresh.
    - assert (Hsub : (database.kumari_key <$> database.kumari_rows scraped_at jobs_dict)
                     `sublist_of` ((fun k => (k, scraped_at)) <$> jobs_dict.*1)).
      { clear Hnd. unfold database.kumari_rows.
        induction jobs_dict as [|[job_id job] jobs IH]; [done|]. cbn.
        destruct (database.kumari_tuple job_id job scraped_at) as [e|row] eqn:Hrow; cbn.
        - by apply sublist_cons.
        - rewrite (kumari_tuple_key _ _ _ _ Hrow). by apply sublist_skip. }
      eapply sublist_NoDup; [|exact Hsub].
      apply NoDup_fmap_2; [|done]. by intros ? ? [=].
    - intros r (job_id & job & _ & Hrow)%elem_of_kumari_rows_inv
               (r0 & Hkey & Hr0)%list_elem_of_fmap.
      apply (Hfresh r0 Hr0). rewrite (kumari_tuple_key _ _ _ _ Hrow) in Hkey.
      unfold database.kumari_key in Hkey. congruence. }
  split.
  - intros saved. rewrite save_kumari_data_rows.
    destruct (forallb _ jobs_dict); [|done]. by cbn [fst snd].
  - intros rows Hrows. rewrite save_kumari_data_rows, forallb_Forall.
    + rewrite Happ. clear -Hrows.
      assert (E : database.kumari_rows scraped_at jobs_dict = rows).
      { unfold database.kumari_rows.
        induction Hrows as [|[job_id job] row jobs rows Hrow _ IH]; [done|].
        cbn in *. rewrite Hrow. cbn. by rewrite IH. }
      rewrite E. by rewrite <- (Forall2_length _ _ _ Hrows).
    + clear -Hrows. induction Hrows as [|[job_id job] row jobs rows Hrow _ IH];
        constructor; [|done]. by eapply kumari_tuple_prints.
Qed.

Lemma fresh_timestamp_appends_witness :
  (database.save_kumari_data "2026-02-01T00:00:00" sample_jobs_dict sample_kumari).1
  = (sample_kumari ++ database.kumari_rows "2026-02-01T00:00:00" sample_jobs_dict)%list.
Proof.
  refine (proj1 (fresh_timestamp_appends "2026-02-01T00:00:00" sample_jobs_dict
                   sample_kumari _ _) 2 _).
  - apply (bool_decide_unpack _). vm_compute. exact I.
  - intros r Hr. unfold sample_kumari in Hr.
    repeat (apply elem_of_cons in Hr as [->|Hr]; [vm_compute; discriminate|]).
    by apply elem_of_nil in Hr.
  - reflexivity.
Defined.

(** ** One scrape of MeroJob *)

(** The loop over one page appends one dict per job, in order, or
    raises. *)
Lemma page_jobs_spec (results : list json) (all_jobs out : list (gmap pystr json)) :
  merojob_scraper.page_jobs all_jobs results = inr out ->
  exists ds, out = (all_jobs ++ ds)%list /\
             Forall2 (fun job d => merojob_scraper.job_dict job = inr d) results ds.
Proof.
  revert all_jobs. induction results as [|job rest IH]; intros all_jobs H.
  - cbn in H. injection H as <-. exists []. by rewrite app_nil_r.
  - cbn [merojob_scraper.page_jobs] in H.
    destruct (merojob_scraper.job_dict job) as [e|d] eqn:Hd; [done|]. cbn [bind] in H.
    destruct (IH _ H) as (ds & -> & Hds). exists (d :: ds).
    split; [by rewrite <- app_assoc|by constructor].
Qed.

(** The loop over the pages appends one dict per job it meets, in
    order, or raises. *)
Lemma pages_spec (f : merojob_scraper.feed) (all_jobs out : list (gmap pystr json)) :
  merojob_scraper.pages all_jobs f = inr out ->
  exists ds, out = (all_jobs ++ ds)%list /\
             Forall2 (fun job d => merojob_scraper.job_dict job = inr d)
                     (merojob_scraper.jobs_read f) ds.
Proof.
  revert all_jobs out. induction f as [|data next_request IH]; intros all_jobs out H.
  - cbn in H. injection H as <-. exists []. rewrite app_nil_r. split; [done|constructor].
  - cbn [merojob_scraper.pages merojob_scraper.jobs_read] in *.
    unfold merojob_scraper.page_results.
    destruct (merojob_scraper.get data "results" (JList [])) as [e|results]; [done|].
    cbn [bind] in *.
    destruct (merojob_scraper.iterate results) as [e|jobs]; [done|]. cbn [bind] in *.
    destruct (merojob_scraper.page_jobs all_jobs jobs) as [e|mid] eqn:Hmid; [done|].
    cbn [bind] in H. apply page_jobs_spec in Hmid as (ds & -> & Hds).
    destruct (merojob_scraper.get data "next" JNull) as [e|url]; [done|]. cbn [bind] in H.
    destruct (merojob_scraper.truthy url).
    + destruct (IH _ _ H) as (ds' & -> & Hds'). exists (ds ++ ds')%list.
      split; [by rewrite <- app_assoc|by apply Forall2_app].
    + injection H as <-. exists ds. by rewrite app_nil_r.
Qed.

Lemma scrape_jobs_table repr real_text f scraped_at tbl all_jobs :
  merojob_scraper.pages [] f = inr all_jobs ->
  merojob_scraper.scrape_jobs repr real_text f scraped_at tbl
  = if forallb (fun d => database.id_prints (database.get d "id" JNull)) all_jobs
    then (inr (length all_jobs),
          database.insert_all database.merojob_key
            (database.merojob_rows repr real_text scraped_at all_jobs) tbl)
    else (inl UnicodeEncodeError, tbl).
Proof.
  intros H. unfold merojob_scraper.scrape_jobs. rewrite H.
  destruct all_jobs as [|d all_jobs]; [done|]. rewrite save_merojob_data_rows.
  by destruct (forallb _ (d :: all_jobs)).
Qed.

Lemma scrape_jobs_inserts repr real_text f scraped_at (tbl : list database.merojob_row) :
  exists rows,
    (merojob_scraper.scrape_jobs repr real_text f scraped_at tbl).2
    = database.insert_all database.merojob_key rows tbl.
Proof.
  destruct (merojob_scraper.pages [] f) as [e|all_jobs] eqn:Hpages.
  - exists []. unfold merojob_scraper.scrape_jobs. by rewrite Hpages.
  - rewrite (scrape_jobs_table _ _ _ _ _ _ Hpages). destruct (forallb _ all_jobs).
    + by eexists.
    + by exists [].
Qed.

(** The dict of a job holds the id of the job. *)
Lemma job_dict_id (job : json) (d : gmap pystr json) (v : json) :
  merojob_scraper.job_dict job = inr d ->
  merojob_scraper.get job "id" JNull = inr v ->
  d !! "id" = Some v.
Proof.
  unfold merojob_scraper.job_dict. intros H Hid. rewrite Hid in H.
  repeat match type of H with
         | bind ?m _ = inr _ => destruct m; cbn [bind] in H; [done|]
         end.
  injection H as <-. reflexivity.
Qed.

(** [scrape_jobs] only appends to the raw table and keeps its key
    unique. It raises as soon as a job it meets is malformed (a client
    that is [null], a category that is no string, ...), and when the save
    raises, which an id with a lone surrogate brings about; nothing is
    stored then, not even the jobs of the pages read before. When it
    returns, the number returned is the number of jobs read along the
    chain of pages, whatever the save could store, the dicts collected
    are those of the jobs read, in order, and every dict that SQLite can
    bind has a row with its id and the timestamp of the save. *)
Theorem scrape_jobs_result (repr : json -> pystr) (real_text : jfloat -> pystr)
    (f : merojob_scraper.feed) (scraped_at : pystr) (tbl : list database.merojob_row) :
  let r := (merojob_scraper.scrape_jobs repr real_text f scraped_at tbl).1 in
  let tbl' := (merojob_scraper.scrape_jobs repr real_text f scraped_at tbl).2 in
  tbl `prefix_of` tbl' /\
  (NoDup (database.merojob_key <$> tbl) -> NoDup (database.merojob_key <$> tbl')) /\
  (forall e, r = inl e -> tbl' = tbl) /\
  (forall job e, job ∈ merojob_scraper.jobs_read f ->
                 merojob_scraper.job_dict job = inl e -> exists e', r = inl e') /\
  (forall job s, job ∈ merojob_scraper.jobs_read f ->
                 merojob_scraper.get job "id" JNull = inr (JStr s) ->
                 database.encodable s = false -> exists e', r = inl e') /\
  (forall n, r = inr n ->
     n = length (merojob_scraper.jobs_read f) /\
     exists all_jobs,
       Forall2 (fun job d => merojob_scraper.job_dict job = inr d)
               (merojob_scraper.jobs_read f) all_jobs /\
       tbl' = (database.save_merojob_data repr real_text scraped_at all_jobs tbl).1 /\
       forall d row,
         d ∈ all_jobs ->
         database.merojob_tuple repr real_text d scraped_at = inr row ->
         (database.str repr (database.get d "id" (JStr "")), scraped_at)
           ∈ database.merojob_key <$> tbl') /\
  merojob_scraper.job_dict api_job_null_client = inl AttributeError /\
  merojob_scraper.job_dict (JDict [("categories", JList [JInt 7])]) = inl TypeError /\
  merojob_scraper.job_dict (JDict [("job_locations", JStr "Pokhara")]) = inl AttributeError /\
  merojob_scraper.job_dict (JList []) = inl AttributeError /\
  merojob_scraper.scrape_jobs repr real_text malformed_feed scraped_at tbl
  = (inl AttributeError, tbl).
Proof.
  cbv zeta.
  destruct (merojob_scraper.pages [] f) as [e|all_jobs] eqn:Hpages.
  - assert (E : merojob_scraper.scrape_jobs repr real_text f scraped_at tbl = (inl e, tbl)).
    { unfold merojob_scraper.scrape_jobs. by rewrite Hpages. }
    rewrite E. cbn [fst snd]. split; [done|]. split; [done|]. split; [done|].
    split; [by eauto|]. split; [by eauto|]. split; [done|]. by repeat split.
  - rewrite (scrape_jobs_table _ _ _ _ _ _ Hpages).
    destruct (pages_spec _ _ _ Hpages) as (ds & Hds & Hall). cbn in Hds. subst ds.
    assert (Hbad : forall job e, job ∈ merojob_scraper.jobs_read f ->
                                 merojob_scraper.job_dict job <> inl e).
    { intros job e Hjob He. apply list_elem_of_lookup_1 in Hjob as [i Hi].
      destruct (Forall2_lookup_l _ _ _ _ _ Hall Hi) as (d & _ & Hd). congruence. }
    destruct (forallb _ all_jobs) eqn:Hids; cbn [fst snd].
    + split; [apply insert_all_prefix|]. split; [apply insert_all_NoDup|].
      split; [done|]. split; [intros job e Hjob He; by destruct (Hbad job e)|].
      split.
      { intros job s Hjob Hid Hs. apply list_elem_of_lookup_1 in Hjob as [i Hi].
        destruct (Forall2_lookup_l _ _ _ _ _ Hall Hi) as (d & Hd & Hdict).
        rewrite forallb_forall in Hids.
        specialize (Hids d (proj1 (list_elem_of_In _ _) (list_elem_of_lookup_2 _ _ _ Hd))).
        unfold database.get in Hids. rewrite (job_dict_id _ _ _ Hdict Hid) in Hids.
        cbn in Hids. congruence. }
      split; [|by repeat split].
      intros n [= <-]. split; [symmetry; by eapply Forall2_length|].
      exists all_jobs. split; [done|].
      split; [by rewrite save_merojob_data_table, Hids|].
      intros d row Hd Hrow. rewrite <- (merojob_tuple_key _ _ _ _ _ Hrow).
      apply insert_all_keys. by eapply elem_of_merojob_rows.
    + split; [done|]. split; [done|]. split; [done|].
      split; [by eauto|]. split; [by eauto|]. split; [done|]. by repeat split.
Qed.

Lemma scrape_jobs_result_witness :
  3 = length (merojob_scraper.jobs_read sample_feed) /\
  (merojob_scraper.scrape_jobs no_repr no_real_text malformed_feed
     "2026-01-01T00:00:00" []).2 = [].
Proof.
  split.
  - refine (proj1 (proj1 (proj2 (proj2 (proj2 (proj2 (proj2
              (scrape_jobs_result no_repr no_real_text sample_feed
                 "2026-01-01T00:00:00" []))))))
              3 _)).
    reflexivity.
  - refine (proj1 (proj2 (proj2 (scrape_jobs_result no_repr no_real_text malformed_feed
                                    "2026-01-01T00:00:00" []))) AttributeError _).
    reflexivity.
Defined.

(** ** One run on the database *)

Lemma with_dates_rows (dates : nat -> clean_data.date_cells) (df : list clean_data.clean_row) :
  (clean_data.with_dates dates df).*1 = df.
Proof.
  unfold clean_data.with_dates. rewrite fmap_imap.
  rewrite <- (list_fmap_id df) at 2. rewrite <- imap_const. done.
Qed.

Lemma with_dates_length (dates : nat -> clean_data.date_cells) (df : list clean_data.clean_row) :
  length (clean_data.with_dates dates df) = length df.
Proof. unfold clean_data.with_dates. apply length_imap. Qed.

(** The raw tables after the two scraping stages of a run. *)
Lemma run_raw_tables (env : scheduler.environment) (db : clean_data.Db) :
  clean_data.merojob_raw (scheduler.run env db).2
  = (merojob_scraper.scrape_jobs (scheduler.repr env) (scheduler.real_text env)
       (scheduler.api env) (scheduler.mero_at env) (clean_data.merojob_raw db)).2 /\
  clean_data.kumari_raw (scheduler.run env db).2
  = (scrape_kumari.scrape_kumari_jobs (scheduler.site env) (scheduler.kumari_at env)
       (clean_data.kumari_raw db)).1.
Proof.
  unfold scheduler.run, scheduler.full_pipeline, scheduler.mero_stage,
    scheduler.kumari_stage, scheduler.clean_stage, clean_data.clean_and_merge.
  destruct (merojob_scraper.scrape_jobs _ _ _ _ _) as [r1 mero].
  destruct (scrape_kumari.scrape_kumari_jobs _ _ _) as [kumari n]. cbn.
  destruct mero, kumari; cbn; try done;
    by destruct (scheduler.date_columns env _ _ _).
Qed.

Local Ltac run_cases Hd :=
  cbn [bind ret raise fst snd scheduler.count_or_zero scheduler.clean_count_of
       clean_data.jobs_clean clean_data.merojob_raw clean_data.kumari_raw];
  (split; [done|]); split; intros ? _;
  rewrite Hd; intros ?; simplify_eq;
  rewrite ?with_dates_rows, ?with_dates_length; done.

(** A run only appends to the two raw tables and keeps their keys
    unique, whatever its stages meet. The cleaning stage works on the
    raw tables as the scrapers leave them. With no raw row it leaves
    [jobs_clean] alone and counts 0. With raw rows, when pandas handles
    the dates, [jobs_clean] is replaced by the rows that pass the quality
    gates, with their date cells, and the count is their number; when an
    exception leaves [clean_and_merge], [jobs_clean] stays as it was and
    the count is 0. *)
Theorem run_keeps_raw_rows (env : scheduler.environment) (db : clean_data.Db) :
  let db' := (scheduler.run env db).2 in
  let clean_count := (scheduler.run env db).1.2 in
  let mero := clean_data.merojob_raw db' in
  let kumari := clean_data.kumari_raw db' in
  let df := clean_data.quality_steps
              (clean_data.cleaned_frames (scheduler.to_numeric env) mero kumari) in
  clean_data.merojob_raw db `prefix_of` mero /\
  clean_data.kumari_raw db `prefix_of` kumari /\
  (NoDup (database.merojob_key <$> clean_data.merojob_raw db) ->
   NoDup (database.merojob_key <$> mero)) /\
  (NoDup (database.kumari_key <$> clean_data.kumari_raw db) ->
   NoDup (database.kumari_key <$> kumari)) /\
  (mero = [] -> kumari = [] ->
   clean_data.jobs_clean db' = clean_data.jobs_clean db /\ clean_count = 0) /\
  (forall dates,
      length mero + length kumari > 0 ->
      scheduler.date_columns env mero kumari df = inr dates ->
      clean_data.jobs_clean db' = Some (clean_data.with_dates dates df) /\
      (clean_data.with_dates dates df).*1 = df /\
      clean_count = length df) /\
  (forall e,
      length mero + length kumari > 0 ->
      scheduler.date_columns env mero kumari df = inl e ->
      clean_data.jobs_clean db' = clean_data.jobs_clean db /\ clean_count = 0).
Proof.
  cbv zeta. destruct (run_raw_tables env db) as [Hmero Hkumari].
  destruct (scrape_jobs_inserts (scheduler.repr env) (scheduler.real_text env)
              (scheduler.api env) (scheduler.mero_at env) (clean_data.merojob_raw db))
    as [rows1 Hrows1].
  destruct (scrape_kumari_jobs_table (scheduler.site env) (scheduler.kumari_at env)
              (clean_data.kumari_raw db)) as [rows2 Hrows2].
  rewrite Hmero, Hkumari, Hrows1, Hrows2.
  split; [apply insert_all_prefix|]. split; [apply insert_all_prefix|].
  split; [apply insert_all_NoDup|]. split; [apply insert_all_NoDup|].
  rewrite <- Hrows1, <- Hrows2, <- Hmero, <- Hkumari.
  clear Hmero Hkumari Hrows1 Hrows2 rows1 rows2.
  unfold scheduler.run, scheduler.full_pipeline, scheduler.mero_stage,
    scheduler.kumari_stage, scheduler.clean_stage, clean_data.clean_and_merge.
  destruct (merojob_scraper.scrape_jobs _ _ _ _ _) as [r1 mero].
  destruct (scrape_kumari.scrape_kumari_jobs _ _ _) as [kumari n].
  cbn [clean_data.merojob_raw clean_data.kumari_raw clean_data.jobs_clean].
  destruct mero as [|m mero], kumari as [|k kumari].
  - cbn. split; [done|]. split; intros ? H; cbn in H; lia.
  - destruct (scheduler.date_columns env [] (k :: kumari) _) as [e|dates] eqn:Hd;
      run_cases Hd.
  - destruct (scheduler.date_columns env (m :: mero) [] _) as [e|dates] eqn:Hd;
      run_cases Hd.
  - destruct (scheduler.date_columns env (m :: mero) (k :: kumari) _) as [e|dates] eqn:Hd;
      run_cases Hd.
Qed.

Lemma run_keeps_raw_rows_witness :
  let db := {| clean_data.merojob_raw := [accountant_mero];
               clean_data.kumari_raw := sample_kumari;
               clean_data.jobs_clean := None |} in
  (clean_data.jobs_clean (scheduler.run (sample_environment dates_raise) db).2 = None /\
   (scheduler.run (sample_environment dates_raise) db).1.2 = 0) /\
  (scheduler.run (sample_environment no_dates) db).1 = (3, 1, 5).
Proof.
  cbv zeta. split; [|reflexivity].
  pose proof (run_keeps_raw_rows (sample_environment dates_raise)
                {| clean_data.merojob_raw := [accountant_mero];
                   clean_data.kumari_raw := sample_kumari;
                   clean_data.jobs_clean := None |}) as H.
  cbv zeta in H. destruct H as (_ & _ & _ & _ & _ & _ & H).
  apply (H (OtherError "ValueError")).
  - vm_compute. lia.
  - reflexivity.
Defined.
